(** * Token lifecycle and PKCE engine of SFD-App-frontend: a shallow embedding

    The development follows the JavaScript sources:
    - [JWTUtils]      js/jwt-utils.js            (claim parser / validator)
    - [PKCEHelper]    the PKCE helper class       (verifier, challenge, verify)
    - [TokenManager]  the token manager class     (store, refresh coordinator)
    - [API]           the API request wrapper     (401 handling)

    Conventions of the embedding.
    - A JavaScript string is a [string] of bytes; the strings of the code
      paths modelled here (tokens, verifiers, storage keys) are ASCII, where
      the UTF-16 code units, the UTF-8 bytes and the bytes of [string] agree.
    - A JavaScript number is an integer [Z]; [num := option Z] adds NaN as
      [None].  The numbers of the modelled code are NumericDate seconds and
      millisecond clocks, far below 2^53, where double arithmetic is exact.
    - Dynamically typed data is a [value]; truthiness, property lookup and
      numeric coercion are written out.
    - An [async] function is run up to its suspension points; what the
      network answers is an explicit input. *)

From Stdlib Require Import ZArith List String Ascii Bool Lia DecimalString.
From stdpp Require Import base option gmap strings list.
Import ListNotations.

Set Warnings "-register-all".

Local Open Scope string_scope.
Local Open Scope Z_scope.

(** ** Results of code that may throw *)

Inductive result (A : Type) : Type :=
| Ok (a : A)
| Throw (message : string).
Arguments Ok {A} a.
Arguments Throw {A} message.

(** ** JavaScript strings *)

Module Str.

Definition chars (s : string) : list ascii := list_ascii_of_string s.
Definition of_chars (l : list ascii) : string := string_of_list_ascii l.

Definition code (c : ascii) : Z := Z.of_N (N_of_ascii c).
Definition of_code (z : Z) : ascii := ascii_of_N (Z.to_N z).

(** [s.length] *)
Definition length (s : string) : Z := Z.of_nat (String.length s).

(** [!s] for a string: only the empty string is falsy. *)
Definition is_empty (s : string) : bool :=
  match s with EmptyString => true | String _ _ => false end.

(** [s.replace(/c/g, d)] for a single character pattern. *)
Definition replace_all (c d : ascii) (s : string) : string :=
  of_chars (map (fun x => if Ascii.eqb x c then d else x) (chars s)).

(** [s.replace(/c/g, '')] *)
Definition remove_all (c : ascii) (s : string) : string :=
  of_chars (List.filter (fun x => negb (Ascii.eqb x c)) (chars s)).

(** [s.split(sep)] for a one-character separator: never the empty list. *)
Fixpoint split_on (sep : ascii) (s : string) : list string :=
  match s with
  | EmptyString => [EmptyString]
  | String c rest =>
      if Ascii.eqb c sep then EmptyString :: split_on sep rest
      else match split_on sep rest with
           | [] => [String c EmptyString]
           | part :: parts => String c part :: parts
           end
  end.

(** [l.join(sep)] *)
Fixpoint join (sep : string) (l : list string) : string :=
  match l with
  | [] => EmptyString
  | [x] => x
  | x :: rest => x +:+ sep +:+ join sep rest
  end.

(** [s.startsWith(p)] *)
Definition starts_with (p s : string) : bool := String.prefix p s.

(** [s[i]]: [None] stands for [undefined]. *)
Definition char_at (s : string) (i : Z) : option ascii :=
  if i <? 0 then None else String.get (Z.to_nat i) s.

(** [String(n)] for an integer. *)
Definition of_Z (n : Z) : string := NilZero.string_of_int (Z.to_int n).

End Str.

(** ** The platform's base64 codec: [btoa] and [atob] *)

Module Base64.

Definition alphabet : string :=
  "ABCDEFGHIJKLMNOPQRSTUVWXYZabcdefghijklmnopqrstuvwxyz0123456789+/".

Definition digit (i : Z) : ascii :=
  match Str.char_at alphabet i with
  | Some c => c
  | None => "A"%char
  end.

Fixpoint encode (l : list Z) : list ascii :=
  match l with
  | [] => []
  | [a] =>
      [digit (Z.shiftr a 2); digit (Z.shiftl (Z.land a 3) 4); "="%char; "="%char]
  | [a; b] =>
      [digit (Z.shiftr a 2);
       digit (Z.lor (Z.shiftl (Z.land a 3) 4) (Z.shiftr b 4));
       digit (Z.shiftl (Z.land b 15) 2); "="%char]
  | a :: b :: c :: rest =>
      digit (Z.shiftr a 2)
      :: digit (Z.lor (Z.shiftl (Z.land a 3) 4) (Z.shiftr b 4))
      :: digit (Z.lor (Z.shiftl (Z.land b 15) 2) (Z.shiftr c 6))
      :: digit (Z.land c 63)
      :: encode rest
  end.

(** [btoa(binary)]: every character of a byte string is below 256, so the
    InvalidCharacterError of [btoa] cannot arise. *)
Definition btoa (binary : string) : string :=
  Str.of_chars (encode (map Str.code (Str.chars binary))).

Fixpoint index_from (c : ascii) (l : list ascii) (i : Z) : option Z :=
  match l with
  | [] => None
  | x :: rest => if Ascii.eqb x c then Some i else index_from c rest (i + 1)
  end.

Definition value_of (c : ascii) : option Z :=
  index_from c (Str.chars alphabet) 0.

Definition is_space (c : ascii) : bool :=
  let n := Str.code c in
  (n =? 9) || (n =? 10) || (n =? 12) || (n =? 13) || (n =? 32).

(** Strip up to two trailing padding characters when the length is a
    multiple of four (the forgiving-base64 rule). *)
Definition strip_padding (l : list ascii) : list ascii :=
  if (Z.of_nat (List.length l) mod 4 =? 0) && negb (Nat.eqb (List.length l) 0) then
    match rev l with
    | "="%char :: "="%char :: r => rev r
    | "="%char :: r => rev r
    | _ => l
    end
  else l.

Fixpoint sextets (l : list ascii) : option (list Z) :=
  match l with
  | [] => Some []
  | c :: rest =>
      match value_of c, sextets rest with
      | Some v, Some vs => Some (v :: vs)
      | _, _ => None
      end
  end.

Fixpoint decode (l : list Z) : list Z :=
  match l with
  | a :: b :: c :: d :: rest =>
      Z.lor (Z.shiftl a 2) (Z.shiftr b 4)
      :: Z.lor (Z.shiftl (Z.land b 15) 4) (Z.shiftr c 2)
      :: Z.lor (Z.shiftl (Z.land c 3) 6) d
      :: decode rest
  | [a; b; c] =>
      [Z.lor (Z.shiftl a 2) (Z.shiftr b 4);
       Z.lor (Z.shiftl (Z.land b 15) 4) (Z.shiftr c 2)]
  | [a; b] => [Z.lor (Z.shiftl a 2) (Z.shiftr b 4)]
  | _ => []
  end.

(** [atob(data)]: [None] when [atob] throws. *)
Definition atob (data : string) : option string :=
  let l := strip_padding (List.filter (fun c => negb (is_space c)) (Str.chars data)) in
  if Z.of_nat (List.length l) mod 4 =? 1 then None
  else match sextets l with
       | Some vs => Some (Str.of_chars (map Str.of_code (decode vs)))
       | None => None
       end.

End Base64.

(** ** The platform's SHA-256 ([crypto.subtle.digest('SHA-256', data)]) *)

Module SHA256.

Definition w32 (x : Z) : Z := x mod 2 ^ 32.
Definition add (x y : Z) : Z := w32 (x + y).
Definition rotr (n x : Z) : Z :=
  Z.lor (Z.shiftr x n) (w32 (Z.shiftl x (32 - n))).
Definition shr (n x : Z) : Z := Z.shiftr x n.
Definition not32 (x : Z) : Z := Z.lxor x 4294967295.

Definition Ch (x y z : Z) : Z := Z.lxor (Z.land x y) (Z.land (not32 x) z).
Definition Maj (x y z : Z) : Z :=
  Z.lxor (Z.lxor (Z.land x y) (Z.land x z)) (Z.land y z).
Definition Sigma0 (x : Z) : Z := Z.lxor (Z.lxor (rotr 2 x) (rotr 13 x)) (rotr 22 x).
Definition Sigma1 (x : Z) : Z := Z.lxor (Z.lxor (rotr 6 x) (rotr 11 x)) (rotr 25 x).
Definition sigma0 (x : Z) : Z := Z.lxor (Z.lxor (rotr 7 x) (rotr 18 x)) (shr 3 x).
Definition sigma1 (x : Z) : Z := Z.lxor (Z.lxor (rotr 17 x) (rotr 19 x)) (shr 10 x).

Definition K : list Z :=
  [1116352408; 1899447441; 3049323471; 3921009573; 961987163; 1508970993;
   2453635748; 2870763221; 3624381080; 310598401; 607225278; 1426881987;
   1925078388; 2162078206; 2614888103; 3248222580; 3835390401; 4022224774;
   264347078; 604807628; 770255983; 1249150122; 1555081692; 1996064986;
   2554220882; 2821834349; 2952996808; 3210313671; 3336571891; 3584528711;
   113926993; 338241895; 666307205; 773529912; 1294757372; 1396182291;
   1695183700; 1986661051; 2177026350; 2456956037; 2730485921; 2820302411;
   3259730800; 3345764771; 3516065817; 3600352804; 4094571909; 275423344;
   430227734; 506948616; 659060556; 883997877; 958139571; 1322822218;
   1537002063; 1747873779; 1955562222; 2024104815; 2227730452; 2361852424;
   2428436474; 2756734187; 3204031479; 3329325298].

Record state : Type := mkState
  { h0 : Z; h1 : Z; h2 : Z; h3 : Z; h4 : Z; h5 : Z; h6 : Z; h7 : Z }.

Definition initial : state :=
  mkState 1779033703 3144134277 1013904242 2773480762
          1359893119 2600822924 528734635 1541459225.

(** Big-endian bytes of a non-negative number, [n] of them. *)
Fixpoint be_bytes (n : nat) (x : Z) : list Z :=
  match n with
  | O => []
  | S k => Z.land (Z.shiftr x (8 * Z.of_nat k)) 255 :: be_bytes k x
  end.

Definition pad (msg : list Z) : list Z :=
  let len := Z.of_nat (List.length msg) in
  let zeros := Z.to_nat ((55 - len) mod 64) in
  msg ++ [128] ++ repeat 0 zeros ++ be_bytes 8 (8 * len).

Fixpoint words (n : nat) (bytes : list Z) : list Z :=
  match n, bytes with
  | S k, a :: b :: c :: d :: rest =>
      Z.lor (Z.lor (Z.shiftl a 24) (Z.shiftl b 16)) (Z.lor (Z.shiftl c 8) d)
      :: words k rest
  | _, _ => []
  end.

(** The message schedule, most recent word first. *)
Fixpoint extend (n : nat) (rev_w : list Z) : list Z :=
  match n with
  | O => rev_w
  | S k =>
      let w := add (add (sigma1 (nth 1 rev_w 0)) (nth 6 rev_w 0))
                   (add (sigma0 (nth 14 rev_w 0)) (nth 15 rev_w 0)) in
      extend k (w :: rev_w)
  end.

Definition schedule (block : list Z) : list Z :=
  rev (extend 48 (rev (words 16 block))).

Definition round (s : state) (kw : Z * Z) : state :=
  let t1 := add (add (add (h7 s) (Sigma1 (h4 s))) (Ch (h4 s) (h5 s) (h6 s)))
                (add (fst kw) (snd kw)) in
  let t2 := add (Sigma0 (h0 s)) (Maj (h0 s) (h1 s) (h2 s)) in
  mkState (add t1 t2) (h0 s) (h1 s) (h2 s) (add (h3 s) t1) (h4 s) (h5 s) (h6 s).

Definition compress (s : state) (block : list Z) : state :=
  let r := fold_left round (combine K (schedule block)) s in
  mkState (add (h0 s) (h0 r)) (add (h1 s) (h1 r)) (add (h2 s) (h2 r))
          (add (h3 s) (h3 r)) (add (h4 s) (h4 r)) (add (h5 s) (h5 r))
          (add (h6 s) (h6 r)) (add (h7 s) (h7 r)).

Fixpoint blocks (n : nat) (bytes : list Z) (s : state) : state :=
  match n with
  | O => s
  | S k => blocks k (skipn 64 bytes) (compress s (firstn 64 bytes))
  end.

Definition digest (msg : list Z) : list Z :=
  let p := pad msg in
  let s := blocks (List.length p / 64)%nat p initial in
  be_bytes 4 (h0 s) ++ be_bytes 4 (h1 s) ++ be_bytes 4 (h2 s) ++ be_bytes 4 (h3 s)
  ++ be_bytes 4 (h4 s) ++ be_bytes 4 (h5 s) ++ be_bytes 4 (h6 s) ++ be_bytes 4 (h7 s).

End SHA256.

(** ** PKCEHelper *)

Module PKCEHelper.

(** constructor *)
Definition supportedMethods : list string := ["S256"; "plain"].
Definition defaultLength : Z := 128.
Definition charset : string :=
  "ABCDEFGHIJKLMNOPQRSTUVWXYZabcdefghijklmnopqrstuvwxyz0123456789-._~".

(** The random source.  [WebCrypto bytes]: [crypto.getRandomValues] is
    available and stores [bytes i] (reduced to a byte by the Uint8Array)
    at index [i].  [MathRandom picks]: Web Crypto throws and the fallback
    runs; [picks i] is the value of [Math.floor(Math.random() * 66)] at
    step [i]. *)
Inductive entropy : Type :=
| WebCrypto (bytes : nat -> Z)
| MathRandom (picks : nat -> Z).

(** [codeVerifier += this.charset[k]] *)
Definition append_charset (acc : string) (k : Z) : string :=
  match Str.char_at charset k with
  | Some c => acc +:+ String c EmptyString
  | None => acc +:+ "undefined"
  end.

(** The loop [for (let i = 0; i < length; i++)], [n] iterations from [i]. *)
Fixpoint verifier_loop (pick : nat -> Z) (n : nat) (i : nat) (acc : string) : string :=
  match n with
  | O => acc
  | S k => verifier_loop pick k (S i) (append_charset acc (pick i))
  end.

Definition generateCodeVerifierFallback (length : Z) (picks : nat -> Z) : string :=
  verifier_loop picks (Z.to_nat length) 0%nat EmptyString.

Definition generateCodeVerifier (length : Z) (e : entropy) : result string :=
  if (length <? 43) || (length >? 128) then
    Throw "Code verifier length must be between 43 and 128 characters"
  else
    match e with
    | WebCrypto bytes =>
        Ok (verifier_loop (fun i => (bytes i mod 256) mod Str.length charset)
                          (Z.to_nat length) 0%nat EmptyString)
    | MathRandom picks => Ok (generateCodeVerifierFallback length picks)
    end.

(** [arrayBufferToBase64]: bytes to a binary string, then [btoa]. *)
Definition arrayBufferToBase64 (buffer : list Z) : string :=
  Base64.btoa (Str.of_chars (map Str.of_code buffer)).

Definition base64urlEncode (buffer : list Z) : string :=
  Str.remove_all "="%char
    (Str.replace_all "/"%char "_"%char
       (Str.replace_all "+"%char "-"%char (arrayBufferToBase64 buffer))).

(** [new TextEncoder().encode(s)] on an ASCII string. *)
Definition encode_utf8 (s : string) : list Z := map Str.code (Str.chars s).

Definition generateCodeChallengeS256 (codeVerifier : string) : string :=
  base64urlEncode (SHA256.digest (encode_utf8 codeVerifier)).

Definition generateCodeChallengePlain (codeVerifier : string) : result string :=
  if Str.is_empty codeVerifier then Throw "Code verifier is required"
  else Ok codeVerifier.

Definition includes (l : list string) (s : string) : bool :=
  existsb (String.eqb s) l.

Definition generateCodeChallenge (codeVerifier method : string) : result string :=
  if Str.is_empty codeVerifier then Throw "Code verifier is required"
  else if negb (includes supportedMethods method) then
    Throw ("Unsupported method: " +:+ method +:+ ". Use: "
           +:+ Str.join ", " supportedMethods)
  else if String.eqb method "S256" then Ok (generateCodeChallengeS256 codeVerifier)
  else if String.eqb method "plain" then generateCodeChallengePlain codeVerifier
  else Throw ("Unknown method: " +:+ method).

Definition verifyCodeChallenge (codeVerifier codeChallenge method : string) : bool :=
  if Str.is_empty codeVerifier || Str.is_empty codeChallenge then false
  else match generateCodeChallenge codeVerifier method with
       | Ok expectedChallenge => String.eqb expectedChallenge codeChallenge
       | Throw _ => false
       end.

Record validation : Type := mkValidation
  { valid : bool; errors : list string; warnings : list string }.

(** A character of the class [[A-Za-z0-9\-._~]]. *)
Definition unreserved (c : ascii) : bool :=
  let n := Str.code c in
  ((65 <=? n) && (n <=? 90)) || ((97 <=? n) && (n <=? 122))
  || ((48 <=? n) && (n <=? 57))
  || (n =? 45) || (n =? 46) || (n =? 95) || (n =? 126).

(** [/^[A-Za-z0-9\-._~]+$/.test(s)] *)
Definition validChars (s : string) : bool :=
  negb (Str.is_empty s) && forallb unreserved (Str.chars s).

Definition validateCodeVerifier (codeVerifier : string) : validation :=
  if Str.is_empty codeVerifier then
    mkValidation false ["Code verifier is required"] []
  else
    let len := Str.length codeVerifier in
    let r1 :=
      if len <? 43 then
        mkValidation false
          ["Code verifier too short: " +:+ Str.of_Z len +:+ " < 43 characters"] []
      else if len >? 128 then
        mkValidation false
          ["Code verifier too long: " +:+ Str.of_Z len +:+ " > 128 characters"] []
      else if len <? 64 then
        mkValidation true []
          ["Code verifier is shorter than recommended (64+ characters)"]
      else mkValidation true [] [] in
    if negb (validChars codeVerifier) then
      mkValidation false
        (errors r1 ++ ["Code verifier contains invalid characters";
                       "Only alphanumeric, hyphen, period, underscore, and tilde are allowed"])%list
        (warnings r1)
    else r1.

End PKCEHelper.

(** ** JavaScript values *)

Module JS.

(** JSON data, [undefined], and the [Date] objects [parseJWT] attaches.
    [VDate None] is an invalid date. *)
Inductive value : Type :=
| VUndefined
| VNull
| VBool (b : bool)
| VNum (n : Z)
| VStr (s : string)
| VDate (ms : option Z)
| VArr (items : list value)
| VObj (props : list (string * value)).

(** A number or NaN. *)
Definition num : Type := option Z.

(** [!!v] *)
Definition truthy (v : value) : bool :=
  match v with
  | VUndefined | VNull => false
  | VBool b => b
  | VNum n => negb (n =? 0)
  | VStr s => negb (Str.is_empty s)
  | VDate _ | VArr _ | VObj _ => true
  end.

Fixpoint lookup (key : string) (props : list (string * value)) : value :=
  match props with
  | [] => VUndefined
  | (k, v) :: rest => if String.eqb k key then v else lookup key rest
  end.

(** [v[key]] for the own data properties of an object.  Of the claim and
    response field names the modelled code reads, none is an inherited
    member of an array, number, boolean or date, and one is an inherited
    member of a string: [sub], a function (see [member_truthy]).  Reading a
    property of [null] or [undefined] throws and is handled at the call
    sites. *)
Definition get (v : value) (key : string) : value :=
  match v with
  | VObj props => lookup key props
  | _ => VUndefined
  end.

(** [!!v[key]]: on a string, [sub] is [String.prototype.sub]. *)
Definition member_truthy (v : value) (key : string) : bool :=
  match v with
  | VStr _ => String.eqb key "sub" || truthy (get v key)
  | _ => truthy (get v key)
  end.

(** A primitive: assigning a property to it throws in strict mode. *)
Definition is_primitive (v : value) : bool :=
  match v with VBool _ | VNum _ | VStr _ => true | _ => false end.

(** [obj[key] = v] on an object: replace in place, or append. *)
Fixpoint assign (key : string) (v : value) (props : list (string * value))
  : list (string * value) :=
  match props with
  | [] => [(key, v)]
  | (k, old) :: rest =>
      if String.eqb k key then (k, v) :: rest else (k, old) :: assign key v rest
  end.

Definition is_nullish (v : value) : bool :=
  match v with VUndefined | VNull => true | _ => false end.

Definition is_string (v : value) : bool :=
  match v with VStr _ => true | _ => false end.

Definition is_array (v : value) : bool :=
  match v with VArr _ => true | _ => false end.

(** [v === w] where [w] is a string. *)
Definition strict_eq_string (v : value) (w : string) : bool :=
  match v with VStr s => String.eqb s w | _ => false end.

End JS.
Export JS(value, VUndefined, VNull, VBool, VNum, VStr, VDate, VArr, VObj).

(** ** Platform functions whose text grammars are not reproduced

    [JSON.parse] ([None]: SyntaxError), [JSON.stringify], the conversion of a
    string to a number ([None]: NaN), the string form of a date
    ([Date.prototype.toString]) and [Date.prototype.toISOString] on a valid
    time.  The definitions and theorems below hold for every such platform;
    [Reference.platform] further down is an executable one. *)

Class Platform : Type := {
  JSON_parse : string -> option value;
  JSON_stringify : value -> string;
  StringToNumber : string -> option Z;
  Date_toString : option Z -> string;
  Date_toISOString : Z -> string
}.

Module Coerce.
Section WithPlatform.
Context `{Platform}.

(** [String(v)]; inside [Array.prototype.join], [null] and [undefined]
    print as the empty string. *)
Fixpoint to_string (v : value) : string :=
  match v with
  | VUndefined => "undefined"
  | VNull => "null"
  | VBool true => "true"
  | VBool false => "false"
  | VNum n => Str.of_Z n
  | VStr s => s
  | VDate ms => Date_toString ms
  | VArr items =>
      Str.join ","
        (map (fun x => if JS.is_nullish x then EmptyString else to_string x) items)
  | VObj _ => "[object Object]"
  end.

(** [Number(v)], as applied by [*], [-] and by [<=] against a number. *)
Definition to_number (v : value) : JS.num :=
  match v with
  | VUndefined => None
  | VNull => Some 0
  | VBool true => Some 1
  | VBool false => Some 0
  | VNum n => Some n
  | VStr s => StringToNumber s
  | VDate ms => ms
  | VArr _ | VObj _ => StringToNumber (to_string v)
  end.

End WithPlatform.
End Coerce.

(** Arithmetic and comparison with NaN. *)
Module Num.

Definition lift2 (f : Z -> Z -> Z) (a b : JS.num) : JS.num :=
  match a, b with
  | Some x, Some y => Some (f x y)
  | _, _ => None
  end.

Definition mul := lift2 Z.mul.
Definition sub := lift2 Z.sub.

(** [a <= b]: false when either side is NaN. *)
Definition le (a b : JS.num) : bool :=
  match a, b with
  | Some x, Some y => x <=? y
  | _, _ => false
  end.

(** [a > b] *)
Definition gt (a b : JS.num) : bool :=
  match a, b with
  | Some x, Some y => x >? y
  | _, _ => false
  end.

(** [Math.max(a, b)]: NaN when either argument is NaN. *)
Definition max := lift2 Z.max.

(** The largest time value of a [Date], in milliseconds. *)
Definition max_time : Z := 8640000000000000.

(** The time value [new Date(t)] holds: NaN (an Invalid Date) for NaN and
    past the range of time values. *)
Definition time_clip (t : JS.num) : JS.num :=
  match t with
  | Some ms => if (- max_time <=? ms) && (ms <=? max_time) then Some ms else None
  | None => None
  end.

End Num.

(** ** JWTUtils (js/jwt-utils.js) *)

Module JWTUtils.
Section WithPlatform.
Context `{Platform}.

(** [base64UrlDecode]: [None] stands for the [null] of the catch branch. *)
Definition pad4 (base64 : string) : string :=
  base64 +:+ Str.of_chars
    (repeat "="%char (Z.to_nat ((4 - Str.length base64 mod 4) mod 4))).

Definition base64UrlDecode (str : string) : option string :=
  let base64 := Str.replace_all "_"%char "/"%char
                  (Str.replace_all "-"%char "+"%char str) in
  Base64.atob (pad4 base64).

(** [new Date(v * 1000)] *)
Definition date_of_seconds (v : value) : value :=
  VDate (Num.time_clip (Num.mul (Coerce.to_number v) (Some 1000))).

(** [if (parsed.k) parsed.kDate = new Date(parsed.k * 1000)]; only an
    object can hold a truthy claim. *)
Definition add_date (k kDate : string) (parsed : value) : value :=
  match parsed with
  | VObj props =>
      if JS.truthy (JS.lookup k props)
      then VObj (JS.assign kDate (date_of_seconds (JS.lookup k props)) props)
      else parsed
  | _ => parsed
  end.

(** [parseJWT(token)]; [VNull] is its [null]. *)
Definition parseJWT (token : value) : value :=
  match token with
  | VStr s =>
      if Str.is_empty s then VNull
      else match Str.split_on "."%char s with
           | [_; payload; _] =>
               match base64UrlDecode payload with
               | None => VNull
               | Some decodedPayload =>
                   if Str.is_empty decodedPayload then VNull
                   else match JSON_parse decodedPayload with
                        | None => VNull
                        | Some VNull => VNull
                        | Some parsed =>
                            add_date "nbf" "nbfDate"
                              (add_date "exp" "expDate"
                                 (add_date "iat" "iatDate" parsed))
                        end
               end
           | _ => VNull
           end
  | _ => VNull
  end.

Record validation : Type := mkValidation
  { valid : bool; errors : list string; warnings : list string; claims : value }.

Definition requiredClaims : list string := ["iss"; "sub"; "aud"; "iat"; "exp"].

Definition missingClaims (payload : value) : list string :=
  List.filter (fun claim => negb (JS.member_truthy payload claim)) requiredClaims.

(** [errors.push(x)] when [c] holds. *)
Definition push_if (c : bool) (x : string) (l : list string) : list string :=
  if c then (l ++ [x])%list else l.

(** The checks of [validateJWT] after the payload was parsed; [now] is
    [Math.floor(Date.now() / 1000)]. *)
Definition check_claims (now : Z) (payload : value) : validation :=
  let missing := missingClaims payload in
  let e1 := push_if (negb (Nat.eqb (List.length missing) 0))
              ("Missing required claims: " +:+ Str.join ", " missing) [] in
  let exp := JS.get payload "exp" in
  let expired := Num.le (Coerce.to_number exp) (Some now) in
  let soon := Num.le (Coerce.to_number exp) (Some (now + 300)) in
  let e2 :=
    if JS.truthy exp then push_if expired "Token has expired" e1
    else push_if true "Token has no expiration claim" e1 in
  let w1 :=
    push_if (JS.truthy exp && negb expired && soon)
      "Token expires soon (less than 5 minutes)" [] in
  let nbf := JS.get payload "nbf" in
  let e3 :=
    push_if (JS.truthy nbf && Num.gt (Coerce.to_number nbf) (Some now))
      "Token is not yet valid (nbf claim in future)" e2 in
  let role := JS.get payload "role" in
  let w2 :=
    push_if (JS.truthy role
             && negb (JS.strict_eq_string role "admin"
                      || JS.strict_eq_string role "customer"))
      ("Unknown role: " +:+ Coerce.to_string role) w1 in
  let scopes := JS.get payload "scopes" in
  let w3 :=
    push_if (JS.truthy scopes && negb (JS.is_array scopes))
      "Scopes claim should be an array" w2 in
  let w4 :=
    push_if (negb (JS.truthy (JS.get payload "sessionId")))
      "Token missing sessionId claim" w3 in
  let w5 :=
    push_if (negb (JS.truthy (JS.get payload "jti")))
      "Token missing jti (JWT ID) claim" w4 in
  mkValidation (Nat.eqb (List.length e3) 0) e3 w5 payload.

(** [validateJWT(token)] at clock reading [now_ms = Date.now()]; the two
    readings of one call are the same millisecond. *)
Definition validateJWT (now_ms : Z) (token : value) : validation :=
  if negb (JS.truthy token) then
    mkValidation false ["Token is missing"] [] VNull
  else match token with
  | VStr s =>
      if negb (Nat.eqb (List.length (Str.split_on "."%char s)) 3) then
        mkValidation false
          ["Token must have 3 parts (header.payload.signature)"] [] VNull
      else
        let payload := parseJWT token in
        if negb (JS.truthy payload) then
          mkValidation false ["Failed to parse token payload"] [] VNull
        else check_claims (now_ms / 1000) payload
  | _ => mkValidation false ["Token must be a string"] [] VNull
  end.

End WithPlatform.
End JWTUtils.

(** ** Thrown errors, the network and the page around the token manager *)

Record js_error : Type := mkError { name : string; message : string }.
Definition Error (msg : string) : js_error := mkError "Error" msg.
Definition TypeError (msg : string) : js_error := mkError "TypeError" msg.
Definition SyntaxError (msg : string) : js_error := mkError "SyntaxError" msg.

(** What one [fetch] comes back with: a rejection, or a response whose
    [json()] resolves to [body] (or rejects, when [body] is [None]). *)
Inductive fetch_outcome : Type :=
| NetworkFailure (e : js_error)
| Response (status : Z) (body : option value).

(** [response.ok] *)
Definition ok (status : Z) : bool := (200 <=? status) && (status <=? 299).

Record fetch_call : Type := mkFetch
  { url : string; method : string; authorization : option string; body : option string }.

(** ** TokenManager *)

Module TokenManager.

(** The own properties of an instance, as the constructor creates them.
    [refreshTimer] is a timer handle, [refreshPromise] the identity of the
    promise of the refresh in flight, [storage] the key-value store behind
    the [get]/[set]/[remove] wrapper. *)
Record t : Type := mk {
  accessToken : value;
  refreshToken : value;
  sessionData : value;
  user : value;
  refreshTimer : option nat;
  refreshBuffer : Z;
  isRefreshing : bool;
  refreshPromise : option nat;
  storage : gmap string string
}.

(** The instance together with what it acts upon: pending timers (handle
    and delay; each runs [autoRefresh]), the log of network calls, the
    notifications shown, the number of [updateUI] runs, and the router. *)
Record env : Type := mkEnv {
  this : t;
  timers : list (nat * JS.num);
  timer_seq : nat;
  promise_seq : nat;
  fetches : list fetch_call;
  notifications : list (string * string);
  ui_updates : nat;
  route : option string;
  navigations : list string
}.

Definition with_this (f : t -> t) (e : env) : env :=
  mkEnv (f (this e)) (timers e) (timer_seq e) (promise_seq e) (fetches e)
        (notifications e) (ui_updates e) (route e) (navigations e).

Definition set_tokens (a r s u : value) (tm : t) : t :=
  mk a r s u (refreshTimer tm) (refreshBuffer tm) (isRefreshing tm)
     (refreshPromise tm) (storage tm).

Definition set_sessionData (s : value) (tm : t) : t :=
  mk (accessToken tm) (refreshToken tm) s (user tm) (refreshTimer tm)
     (refreshBuffer tm) (isRefreshing tm) (refreshPromise tm) (storage tm).

Definition set_refreshTimer (h : option nat) (tm : t) : t :=
  mk (accessToken tm) (refreshToken tm) (sessionData tm) (user tm) h
     (refreshBuffer tm) (isRefreshing tm) (refreshPromise tm) (storage tm).

Definition set_refreshing (b : bool) (p : option nat) (tm : t) : t :=
  mk (accessToken tm) (refreshToken tm) (sessionData tm) (user tm)
     (refreshTimer tm) (refreshBuffer tm) b p (storage tm).

Definition set_storage (m : gmap string string) (tm : t) : t :=
  mk (accessToken tm) (refreshToken tm) (sessionData tm) (user tm)
     (refreshTimer tm) (refreshBuffer tm) (isRefreshing tm) (refreshPromise tm) m.

(** [fetch(url, config)] is issued. *)
Definition log_fetch (c : fetch_call) (e : env) : env :=
  mkEnv (this e) (timers e) (timer_seq e) (promise_seq e) (fetches e ++ [c])%list
        (notifications e) (ui_updates e) (route e) (navigations e).

(** [showNotification(message, type)] *)
Definition showNotification (msg type : string) (e : env) : env :=
  mkEnv (this e) (timers e) (timer_seq e) (promise_seq e) (fetches e)
        (notifications e ++ [(msg, type)])%list (ui_updates e) (route e)
        (navigations e).

(** [updateUI()]: rendering and the [tokenUpdate] event, counted. *)
Definition updateUI (e : env) : env :=
  mkEnv (this e) (timers e) (timer_seq e) (promise_seq e) (fetches e)
        (notifications e) (S (ui_updates e)) (route e) (navigations e).

(** [clearTimeout(h)] *)
Definition clearTimeout (h : nat) (e : env) : env :=
  mkEnv (this e) (List.filter (fun t => negb (Nat.eqb (fst t) h)) (timers e))
        (timer_seq e) (promise_seq e) (fetches e) (notifications e)
        (ui_updates e) (route e) (navigations e).

(** [this.refreshTimer = setTimeout(() => this.autoRefresh()..., delay)]:
    the timer is recorded with the delay it was given. *)
Definition setTimeout_refresh (delay : JS.num) (e : env) : env :=
  mkEnv (set_refreshTimer (Some (timer_seq e)) (this e))
        (timers e ++ [(timer_seq e, delay)])%list
        (S (timer_seq e)) (promise_seq e) (fetches e) (notifications e)
        (ui_updates e) (route e) (navigations e).

(** The largest delay [setTimeout] keeps, [2^31 - 1] ms (about 24.8 days):
    given a larger one, or NaN, the platform runs the timer at once. *)
Definition max_delay : Z := 2147483647.

(** A new promise is created. *)
Definition new_promise (e : env) : nat * env :=
  (promise_seq e,
   mkEnv (this e) (timers e) (timer_seq e) (S (promise_seq e)) (fetches e)
         (notifications e) (ui_updates e) (route e) (navigations e)).

(** [window.router.navigate(path)] assigns the location hash; the
    router's [currentRoute] follows only on the later hashchange event. *)
Definition navigate (path : string) (e : env) : env :=
  mkEnv (this e) (timers e) (timer_seq e) (promise_seq e) (fetches e)
        (notifications e) (ui_updates e) (route e)
        (if decide (route e = Some path) then navigations e
         else (navigations e ++ [path])%list).

Record expiration : Type := mkExpiration {
  expiresAt : JS.num;           (* time value of the Date *)
  issuedAt : JS.num;
  timeUntilExpiry : JS.num;
  timeSinceIssued : JS.num;
  isExpired : bool
}.

(** What an asynchronous method has done when it first returns control. *)
Inductive refresh_step : Type :=
| Joined (p : option nat)       (* returned the promise already stored *)
| Started (p : nat)             (* issued the request, awaits promise p *)
| Failed (e : js_error).        (* threw before any request *)

Inductive force_step : Type :=
| Done (r : bool)               (* resolved with r *)
| AwaitingRefresh (p : option nat).

Inductive auto_step : Type :=
| Skipped                       (* resolved with undefined *)
| AutoRejected (e : js_error)
| AutoAwaiting (p : option nat).

(** Property lookup on an instance: own properties first, then the
    methods of the class prototype. *)
Inductive property : Type :=
| OwnData (v : value)
| ProtoMethod (m : string)
| Missing.

Definition prototype : list string :=
  ["init"; "getStorageMethod"; "loadTokensFromStorage"; "saveToStorage";
   "clearFromStorage"; "setupStorageListener"; "setTokens"; "clearTokens";
   "getAccessToken"; "getRefreshToken"; "getUser"; "getSession";
   "isAuthenticated"; "getTokenExpirationInfo"; "needsRefresh"; "autoRefresh";
   "refreshToken"; "performTokenRefresh"; "scheduleRefreshCheck";
   "clearRefreshTimer"; "forceRefresh"; "logout"; "updateUI"; "updateNavigation";
   "updateTokenDisplays"; "showNotification"; "getNotificationIcon";
   "getDebugInfo"; "destroy"].

Definition own (tm : t) (key : string) : option value :=
  if String.eqb key "accessToken" then Some (accessToken tm)
  else if String.eqb key "refreshToken" then Some (refreshToken tm)
  else if String.eqb key "sessionData" then Some (sessionData tm)
  else if String.eqb key "user" then Some (user tm)
  else if String.eqb key "refreshTimer" then
    Some (match refreshTimer tm with Some h => VNum (Z.of_nat h) | None => VNull end)
  else if String.eqb key "refreshBuffer" then Some (VNum (refreshBuffer tm))
  else if String.eqb key "isRefreshing" then Some (VBool (isRefreshing tm))
  else if String.eqb key "refreshPromise" then
    Some (match refreshPromise tm with Some _ => VObj [] | None => VNull end)
  else if String.eqb key "storage" then Some (VObj [])
  else None.

Definition get_property (tm : t) (key : string) : property :=
  match own tm key with
  | Some v => OwnData v
  | None => if existsb (String.eqb key) prototype then ProtoMethod key else Missing
  end.

Section WithPlatform.
Context `{Platform}.

(** The storage wrapper over [localStorage]: values are stored as strings. *)
Definition storage_get (key : string) (tm : t) : value :=
  match storage tm !! key with
  | Some s => VStr s
  | None => VNull
  end.

Definition storage_set (key : string) (v : value) (tm : t) : t :=
  set_storage (<[key := Coerce.to_string v]> (storage tm)) tm.

Definition storage_remove (key : string) (tm : t) : t :=
  set_storage (delete key (storage tm)) tm.

(** [JSON.parse(this.storage.get(key) || 'null')] *)
Definition parse_stored (key : string) (tm : t) : option value :=
  match storage tm !! key with
  | Some s => JSON_parse (if Str.is_empty s then "null" else s)
  | None => JSON_parse "null"
  end.

Definition set_access_refresh (a r : value) (tm : t) : t :=
  set_tokens a r (sessionData tm) (user tm) tm.

Definition set_user (u : value) (tm : t) : t :=
  set_tokens (accessToken tm) (refreshToken tm) (sessionData tm) u tm.

(** [loadTokensFromStorage()]: the four assignments in order; when a
    [JSON.parse] throws, the fields assigned before it keep their new
    values and the error propagates. *)
Definition loadTokensFromStorage (tm : t) : t * option js_error :=
  let tm1 := set_access_refresh (storage_get "accessToken" tm)
               (storage_get "refreshToken" tm) tm in
  match parse_stored "sessionData" tm1 with
  | None => (tm1, Some (SyntaxError "Unexpected token in JSON"))
  | Some s =>
      let tm2 := set_sessionData s tm1 in
      match parse_stored "userData" tm2 with
      | None => (tm2, Some (SyntaxError "Unexpected token in JSON"))
      | Some u => (set_user u tm2, None)
      end
  end.

Definition save_if (key : string) (v stored : value) (tm : t) : t :=
  if JS.truthy v then storage_set key stored tm else tm.

Definition saveToStorage (tm : t) : t :=
  let tm1 := save_if "accessToken" (accessToken tm) (accessToken tm) tm in
  let tm2 := save_if "refreshToken" (refreshToken tm1) (refreshToken tm1) tm1 in
  let tm3 := save_if "sessionData" (sessionData tm2)
               (VStr (JSON_stringify (sessionData tm2))) tm2 in
  save_if "userData" (user tm3) (VStr (JSON_stringify (user tm3))) tm3.

Definition clearFromStorage (tm : t) : t :=
  storage_remove "userData"
    (storage_remove "sessionData"
       (storage_remove "refreshToken" (storage_remove "accessToken" tm))).

Definition getAccessToken (tm : t) : value := accessToken tm.
Definition getRefreshToken (tm : t) : value := refreshToken tm.
Definition getUser (tm : t) : value := user tm.
Definition getSession (tm : t) : value := sessionData tm.

Definition isAuthenticated (tm : t) : bool :=
  JS.truthy (accessToken tm) && JS.truthy (user tm).

(** [getTokenExpirationInfo()] at [now_ms = Date.now()]; [None] is [null]. *)
Definition getTokenExpirationInfo (now_ms : Z) (tm : t) : option expiration :=
  if negb (JS.truthy (accessToken tm)) then None
  else
    let payload := JWTUtils.parseJWT (accessToken tm) in
    if negb (JS.truthy payload) || negb (JS.truthy (JS.get payload "exp")) then None
    else
      let now := now_ms / 1000 in
      let exp := Coerce.to_number (JS.get payload "exp") in
      let iat := Coerce.to_number (JS.get payload "iat") in
      let untilExpiry := Num.sub exp (Some now) in
      Some (mkExpiration (Num.time_clip (Num.mul exp (Some 1000)))
              (Num.time_clip (Num.mul iat (Some 1000)))
              untilExpiry (Num.sub (Some now) iat)
              (Num.le untilExpiry (Some 0))).

(** [needsRefresh()].  The source compares [timeUntilExpiry] with
    [refreshBuffer / 1000]; over integers that is the comparison of
    [timeUntilExpiry * 1000] with [refreshBuffer]. *)
Definition needsRefresh (now_ms : Z) (tm : t) : bool :=
  match getTokenExpirationInfo now_ms tm with
  | None => true
  | Some expInfo =>
      if isExpired expInfo then true
      else Num.le (Num.mul (timeUntilExpiry expInfo) (Some 1000))
                  (Some (refreshBuffer tm))
  end.

Definition clearRefreshTimer (e : env) : env :=
  match refreshTimer (this e) with
  | Some h => with_this (set_refreshTimer None) (clearTimeout h e)
  | None => e
  end.

Definition scheduleRefreshCheck (now_ms : Z) (e : env) : env :=
  let e1 := clearRefreshTimer e in
  if negb (JS.truthy (accessToken (this e1))) then e1
  else match getTokenExpirationInfo now_ms (this e1) with
       | None => e1
       | Some expInfo =>
           if isExpired expInfo then e1
           else
             let timeUntilRefresh :=
               Num.max (Some 1000)
                 (Num.sub (Num.sub (expiresAt expInfo) (Some now_ms))
                          (Some (refreshBuffer (this e1)))) in
             setTimeout_refresh timeUntilRefresh e1
       end.

Definition setTokens (now_ms : Z) (accessToken refreshToken sessionData user : value)
           (e : env) : env :=
  let e1 := with_this (set_tokens accessToken refreshToken sessionData user) e in
  let e2 := with_this saveToStorage e1 in
  let e3 := scheduleRefreshCheck now_ms e2 in
  updateUI e3.

Definition clearTokens (e : env) : env :=
  let e1 := with_this (set_tokens VNull VNull VNull VNull) e in
  let e2 := with_this clearFromStorage e1 in
  let e3 := clearRefreshTimer e2 in
  updateUI e3.

(** [init()], run by the constructor: load, listen, schedule. *)
Definition init (now_ms : Z) (e : env) : env * option js_error :=
  match loadTokensFromStorage (this e) with
  | (tm, Some err) => (with_this (fun _ => tm) e, Some err)
  | (tm, None) => (scheduleRefreshCheck now_ms (with_this (fun _ => tm) e), None)
  end.

(** The listener of [setupStorageListener()]: another tab has written
    [key]; the store in [store] is what this tab now reads. *)
Definition on_storage_event (key : string) (store : gmap string string) (e : env)
  : env * option js_error :=
  let e1 := with_this (set_storage store) e in
  if String.eqb key "accessToken" || String.eqb key "refreshToken" then
    match loadTokensFromStorage (this e1) with
    | (tm, Some err) => (with_this (fun _ => tm) e1, Some err)
    | (tm, None) => (updateUI (with_this (fun _ => tm) e1), None)
    end
  else (e1, None).

(** The request of [performTokenRefresh], up to its first [await]. *)
Definition refresh_call (tm : t) : fetch_call :=
  mkFetch "/api/auth/refresh" "POST" None
    (Some (JSON_stringify
             (VObj [("refresh_token", refreshToken tm);
                    ("clientId", VStr "web-client")]))).

Definition performTokenRefresh_start (e : env) : nat * env :=
  new_promise (log_fetch (refresh_call (this e)) e).

(** [this.sessionData.refreshedAt = ...] in strict mode: creating a
    property on a primitive throws. *)
Definition stamp_session (now_ms : Z) (s : value) : js_error + value :=
  if negb (JS.truthy s) then inr s
  else match s with
       | VObj props =>
           inr (VObj (JS.assign "refreshedAt" (VStr (Date_toISOString now_ms)) props))
       | VArr _ | VDate _ => inr s
       | _ => inl (TypeError "Cannot create property 'refreshedAt'")
       end.

(** What the [try] block of [performTokenRefresh] does once the network has
    answered: the updated environment and the returned object, or the error
    it throws into the [catch]. *)
Definition refresh_try (now_ms : Z) (o : fetch_outcome) (e : env)
  : js_error + (value * env) :=
  match o with
  | NetworkFailure err => inl err
  | Response status body =>
      if negb (ok status) then
        inl (Error ("Refresh failed: " +:+ Str.of_Z status))
      else match body with
      | None => inl (SyntaxError "Unexpected token in JSON")
      | Some data =>
          if JS.is_nullish data then
            inl (TypeError "Cannot read properties of null (reading 'success')")
          else if JS.truthy (JS.get data "success")
                  && JS.truthy (JS.get data "access_token") then
            match stamp_session now_ms (sessionData (this e)) with
            | inl err => inl err
            | inr s =>
                let e1 := with_this
                            (set_tokens (JS.get data "access_token")
                                        (JS.get data "refresh_token") s
                                        (user (this e))) e in
                let e2 := with_this saveToStorage e1 in
                let e3 := scheduleRefreshCheck now_ms e2 in
                let e4 := updateUI e3 in
                inr (VObj [("success", VBool true);
                           ("token", accessToken (this e4));
                           ("user", user (this e4))], e4)
            end
          else
            inl (Error (if JS.truthy (JS.get data "error")
                        then Coerce.to_string (JS.get data "error")
                        else "Refresh failed"))
      end
  end.

(** [performTokenRefresh()] from the resumption after its [await]s:
    [try { ... } catch (error) { this.clearTokens(); throw error; }] *)
Definition performTokenRefresh_finish (now_ms : Z) (o : fetch_outcome) (e : env)
  : (js_error + value) * env :=
  match refresh_try now_ms o e with
  | inr (r, e') => (inr r, e')
  | inl err => (inl err, clearTokens e)
  end.

(** The body of the prototype method [refreshToken()], up to its [await]. *)
Definition refreshToken_method (e : env) : refresh_step * env :=
  if isRefreshing (this e) then (Joined (refreshPromise (this e)), e)
  else if negb (JS.truthy (refreshToken (this e))) then
    (Failed (Error "No refresh token available"), e)
  else
    let e1 := with_this (set_refreshing true (refreshPromise (this e))) e in
    let (p, e2) := performTokenRefresh_start e1 in
    (Started p, with_this (set_refreshing true (Some p)) e2).

(** ... and from the resumption on: the [finally] block. *)
Definition refreshToken_settle (now_ms : Z) (o : fetch_outcome) (e : env)
  : (js_error + value) * env :=
  let (r, e1) := performTokenRefresh_finish now_ms o e in
  (r, with_this (set_refreshing false None) e1).

(** The call expression [this.refreshToken()]: the property is looked up
    on the instance and invoked if it is a function.  No value of type
    [value] is one. *)
Definition not_a_function : js_error :=
  TypeError "this.refreshToken is not a function".

Definition call_refreshToken (e : env) : refresh_step * env :=
  match get_property (this e) "refreshToken" with
  | ProtoMethod _ => refreshToken_method e
  | OwnData _ | Missing => (Failed not_a_function, e)
  end.

(** [autoRefresh()] up to its first suspension. *)
Definition autoRefresh (now_ms : Z) (e : env) : auto_step * env :=
  if isRefreshing (this e) || negb (needsRefresh now_ms (this e)) then (Skipped, e)
  else match call_refreshToken e with
       | (Failed err, e1) => (AutoRejected err, e1)
       | (Joined p, e1) => (AutoAwaiting p, e1)
       | (Started p, e1) => (AutoAwaiting (Some p), e1)
       end.

(** [forceRefresh()] up to its first suspension. *)
Definition forceRefresh (e : env) : force_step * env :=
  match call_refreshToken e with
  | (Failed err, e1) =>
      (Done false,
       showNotification ("Token refresh failed: " +:+ message err) "error" e1)
  | (Joined p, e1) => (AwaitingRefresh p, e1)
  | (Started p, e1) => (AwaitingRefresh (Some p), e1)
  end.

(** ... and its continuation when the awaited refresh settles. *)
Definition forceRefresh_resume (r : js_error + value) (e : env) : bool * env :=
  match r with
  | inr _ => (true, showNotification "Token refreshed successfully" "success" e)
  | inl err =>
      (false, showNotification ("Token refresh failed: " +:+ message err) "error" e)
  end.

(** A pending refresh timer fires: [this.autoRefresh().catch(...)]. *)
Definition fire_timer (now_ms : Z) (h : nat) (e : env) : auto_step * env :=
  autoRefresh now_ms
    (mkEnv (this e) (List.filter (fun t => negb (Nat.eqb (fst t) h)) (timers e))
           (timer_seq e) (promise_seq e) (fetches e) (notifications e)
           (ui_updates e) (route e) (navigations e)).

(** A fresh instance over the given storage, before [init()]. *)
Definition constructed (store : gmap string string) : t :=
  mk VNull VNull VNull VNull None (5 * 60 * 1000) false None store.

End WithPlatform.
End TokenManager.

(** ** API: the request wrapper *)

Module API.

Import TokenManager.

Definition API_BASE_URL : string := "http://localhost:3000/api".

Record options : Type := mkOptions { opt_method : option string; opt_body : option string }.

(** How a call of [request] stands once the scripted answers are used up:
    it returned, it threw, or it is still awaiting a [fetch]. *)
Inductive outcome : Type :=
| Returned (data : value)
| Thrown (e : js_error)
| Pending.

(** The answer 401 with a body that is not JSON. *)
Definition unauthorized : fetch_outcome := Response 401 None.

(** [haystack.includes(needle)] *)
Fixpoint includes (needle haystack : string) : bool :=
  String.prefix needle haystack
  || match haystack with
     | EmptyString => false
     | String _ rest => includes needle rest
     end.

Section WithPlatform.
Context `{Platform}.

Definition getToken (e : env) : value := getAccessToken (this e).

(** The [fetch(url, config)] of [request]. *)
Definition request_call (endpoint : string) (o : options) (e : env) : fetch_call :=
  mkFetch (API_BASE_URL +:+ endpoint)
    (match opt_method o with Some m => m | None => "GET" end)
    (if JS.truthy (getToken e)
     then Some ("Bearer " +:+ Coerce.to_string (getToken e)) else None)
    (opt_body o).

(** [handleAuthenticationFailure(errorData)]; the error is the TypeError
    of reading [errorData.message] when [errorData] is [null]. *)
Definition handleAuthenticationFailure (errorData : value) (e : env)
  : option js_error * env :=
  let errorData := match errorData with VUndefined => VObj [] | v => v end in
  let e1 := clearTokens e in
  match route e1 with
  | None => (None, e1)
  | Some r =>
      if String.eqb r "/login" then (None, e1)
      else
        let e2 := navigate "/login" e1 in
        if JS.is_nullish errorData then
          (Some (TypeError "Cannot read properties of null (reading 'message')"), e2)
        else
          let m := JS.get errorData "message" in
          (None,
           showNotification
             (if JS.truthy m then Coerce.to_string m
              else "Session expired. Please log in again.") "error" e2)
  end.

(** The default messages of the [switch (response.status)], whose cases
    assign [errorData.error = errorData.error || message]. *)
Definition default_message (status : Z) : option string :=
  if status =? 403 then Some "Access forbidden"
  else if status =? 404 then Some "Resource not found"
  else if status =? 429 then Some "Rate limit exceeded"
  else if status =? 500 then Some "Internal server error"
  else None.

(** The outer [catch] of [request]: a TypeError that mentions fetch is
    replaced, anything else is rethrown. *)
Definition outer_catch (err : js_error) : js_error :=
  if String.eqb (name err) "TypeError" && includes "fetch" (message err)
  then Error "Network error: Unable to connect to server"
  else err.

(** [request(endpoint, options)] against the scripted [answers]: every
    [fetch] takes the next answer; with none left the call is still
    awaiting.  The retry after a 401 is the recursive call of the source. *)
Fixpoint request (endpoint : string) (o : options) (answers : list fetch_outcome)
         (e : env) : outcome * env :=
  let e0 := log_fetch (request_call endpoint o e) e in
  match answers with
  | [] => (Pending, e0)
  | NetworkFailure err :: _ => (Thrown (outer_catch err), e0)
  | Response status body :: rest =>
      if status =? 401 then
        let errorData := match body with Some v => v | None => VObj [] end in
        if negb (Str.starts_with "/auth/" endpoint)
           && JS.truthy (getToken e0)
           && JS.truthy (getRefreshToken (this e0)) then
          match forceRefresh e0 with
          | (Done _, e1) =>
              match request endpoint o rest e1 with
              | (Returned data, e2) => (Returned data, e2)
              | (Pending, e2) => (Pending, e2)
              | (Thrown _, e2) =>
                  let (_, e3) := handleAuthenticationFailure (VObj []) e2 in
                  (Thrown (outer_catch (Error "Authentication required")), e3)
              end
          | (AwaitingRefresh _, e1) =>
              (* suspended on the refresh; see [forceRefresh_resume] *)
              (Pending, e1)
          end
        else
          match handleAuthenticationFailure errorData e0 with
          | (Some err, e1) => (Thrown (outer_catch err), e1)
          | (None, e1) =>
              if JS.is_nullish errorData then
                (Thrown (outer_catch
                   (TypeError "Cannot read properties of null (reading 'error')")), e1)
              else
                let m := JS.get errorData "error" in
                (Thrown (outer_catch
                   (Error (if JS.truthy m then Coerce.to_string m
                           else "Authentication failed"))), e1)
          end
      else if negb (ok status) then
        let errorData :=
          match body with
          | Some v => v
          | None =>
              VObj [("error", VStr ("HTTP error! status: " +:+ Str.of_Z status));
                    ("code", VStr ("HTTP_" +:+ Str.of_Z status))]
          end in
        if JS.is_nullish errorData then
          (Thrown (outer_catch
             (TypeError "Cannot read properties of null (reading 'error')")), e0)
        else if JS.is_primitive errorData
                && match default_message status with Some _ => true | None => false end
        then
          (Thrown (outer_catch (TypeError "Cannot create property 'error'")), e0)
        else
          let m := JS.get errorData "error" in
          let m' := if JS.truthy m then Some (Coerce.to_string m)
                    else default_message status in
          (Thrown (outer_catch
             (Error (match m' with Some s => s | None => "Request failed" end))), e0)
      else
        match body with
        | Some data => (Returned data, e0)
        | None => (Thrown (outer_catch (SyntaxError "Unexpected token in JSON")), e0)
        end
  end.

End WithPlatform.
End API.

(** ** An executable platform

    [JSON.parse] and [JSON.stringify] for JSON texts whose numbers are
    integers and whose strings are byte strings, the conversion of decimal
    integer strings to numbers, and ISO 8601 dates.  The examples, witnesses
    and counterexamples below run on it. *)

Module Reference.

Definition is_ws (c : ascii) : bool :=
  let n := Str.code c in (n =? 32) || (n =? 9) || (n =? 10) || (n =? 13).

Fixpoint skip_ws (l : list ascii) : list ascii :=
  match l with
  | c :: rest => if is_ws c then skip_ws rest else l
  | [] => []
  end.

Definition is_digit (c : ascii) : bool :=
  let n := Str.code c in (48 <=? n) && (n <=? 57).

Fixpoint digits (l : list ascii) (acc : Z) : Z * list ascii :=
  match l with
  | c :: rest =>
      if is_digit c then digits rest (10 * acc + (Str.code c - 48)) else (acc, l)
  | [] => (acc, [])
  end.

(** An integer literal; a fraction or an exponent is outside the fragment. *)
Definition number (l : list ascii) : option (Z * list ascii) :=
  let (neg, l1) := match l with
                   | "-"%char :: r => (true, r)
                   | _ => (false, l)
                   end in
  match l1 with
  | c :: _ =>
      if is_digit c then
        let (n, rest) := digits l1 0 in
        match rest with
        | "."%char :: _ | "e"%char :: _ | "E"%char :: _ => None
        | _ => Some (if neg then - n else n, rest)
        end
      else None
  | [] => None
  end.

Definition hex (c : ascii) : option Z :=
  let n := Str.code c in
  if (48 <=? n) && (n <=? 57) then Some (n - 48)
  else if (97 <=? n) && (n <=? 102) then Some (n - 87)
  else if (65 <=? n) && (n <=? 70) then Some (n - 55)
  else None.

Definition quote_code : Z := 34.
Definition backslash_code : Z := 92.

(** The character an escape letter stands for. *)
Definition escaped (e : ascii) : option ascii :=
  let n := Str.code e in
  if (n =? quote_code) || (n =? backslash_code) || (n =? 47) then Some e
  else if n =? 98 then Some (Str.of_code 8)
  else if n =? 102 then Some (Str.of_code 12)
  else if n =? 110 then Some (Str.of_code 10)
  else if n =? 114 then Some (Str.of_code 13)
  else if n =? 116 then Some (Str.of_code 9)
  else None.

(** The characters of a string literal after its opening quote. *)
Fixpoint string_body (l : list ascii) (acc : list ascii)
  : option (string * list ascii) :=
  match l with
  | [] => None
  | c :: rest =>
      if Str.code c =? quote_code then Some (Str.of_chars (rev acc), rest)
      else if Str.code c =? backslash_code then
        match rest with
        | "u"%char :: h1 :: h2 :: h3 :: h4 :: rest' =>
            match hex h1, hex h2, hex h3, hex h4 with
            | Some 0, Some 0, Some x, Some y =>
                string_body rest' (Str.of_code (16 * x + y) :: acc)
            | _, _, _, _ => None
            end
        | e :: rest' =>
            match escaped e with
            | Some x => string_body rest' (x :: acc)
            | None => None
            end
        | [] => None
        end
      else if Str.code c <? 32 then None
      else string_body rest (c :: acc)
  end.

Definition literal (word : string) (l : list ascii) : option (list ascii) :=
  let w := Str.chars word in
  if decide (firstn (List.length w) l = w) then Some (skipn (List.length w) l)
  else None.

Fixpoint parse_value (fuel : nat) (l : list ascii) : option (value * list ascii) :=
  match fuel with
  | O => None
  | S f =>
      match skip_ws l with
      | "{"%char :: r =>
          match skip_ws r with
          | "}"%char :: r' => Some (VObj [], r')
          | _ => parse_members f r []
          end
      | "["%char :: r =>
          match skip_ws r with
          | "]"%char :: r' => Some (VArr [], r')
          | _ => parse_elements f r []
          end
      | "t"%char :: _ =>
          match literal "true" (skip_ws l) with
          | Some r => Some (VBool true, r) | None => None end
      | "f"%char :: _ =>
          match literal "false" (skip_ws l) with
          | Some r => Some (VBool false, r) | None => None end
      | "n"%char :: _ =>
          match literal "null" (skip_ws l) with
          | Some r => Some (VNull, r) | None => None end
      | c :: r =>
          if Str.code c =? quote_code then
            match string_body r [] with
            | Some (s, r') => Some (VStr s, r')
            | None => None
            end
          else
            match number (c :: r) with
            | Some (n, r') => Some (VNum n, r')
            | None => None
            end
      | [] => None
      end
  end
with parse_members (fuel : nat) (l : list ascii) (acc : list (string * value))
  : option (value * list ascii) :=
  match fuel with
  | O => None
  | S f =>
      match skip_ws l with
      | c :: r =>
          if negb (Str.code c =? quote_code) then None
          else
            match string_body r [] with
            | Some (k, r1) =>
                match skip_ws r1 with
                | ":"%char :: r2 =>
                    match parse_value f r2 with
                    | Some (v, r3) =>
                        match skip_ws r3 with
                        | ","%char :: r4 => parse_members f r4 (JS.assign k v acc)
                        | "}"%char :: r4 => Some (VObj (JS.assign k v acc), r4)
                        | _ => None
                        end
                    | None => None
                    end
                | _ => None
                end
            | None => None
            end
      | [] => None
      end
  end
with parse_elements (fuel : nat) (l : list ascii) (acc : list value)
  : option (value * list ascii) :=
  match fuel with
  | O => None
  | S f =>
      match parse_value f l with
      | Some (v, r) =>
          match skip_ws r with
          | ","%char :: r' => parse_elements f r' (acc ++ [v])%list
          | "]"%char :: r' => Some (VArr (acc ++ [v])%list, r')
          | _ => None
          end
      | None => None
      end
  end.

Definition parse (text : string) : option value :=
  let l := Str.chars text in
  match parse_value (S (List.length l)) l with
  | Some (v, rest) =>
      match skip_ws rest with
      | [] => Some v
      | _ => None
      end
  | None => None
  end.

Definition hex_digit (n : Z) : ascii :=
  if n <? 10 then Str.of_code (48 + n) else Str.of_code (87 + n).

Definition escape (c : ascii) : list ascii :=
  [Str.of_code backslash_code; c].

Definition quote_char (c : ascii) : list ascii :=
  let n := Str.code c in
  if (n =? quote_code) || (n =? backslash_code) then escape c
  else if n =? 8 then escape "b"%char
  else if n =? 12 then escape "f"%char
  else if n =? 10 then escape "n"%char
  else if n =? 13 then escape "r"%char
  else if n =? 9 then escape "t"%char
  else if n <? 32 then
    escape "u"%char ++ ["0"%char; "0"%char; hex_digit (n / 16); hex_digit (n mod 16)]
  else [c].

Definition quote (s : string) : string :=
  Str.of_chars ((Str.of_code quote_code :: flat_map quote_char (Str.chars s))
                ++ [Str.of_code quote_code])%list.

Definition pad_left (width : nat) (n : Z) : string :=
  let s := Str.of_Z n in
  Str.of_chars (repeat "0"%char (width - String.length s)) +:+ s.

(** Year, month and day of a day count from 1970-01-01. *)
Definition civil (days : Z) : Z * Z * Z :=
  let z := days + 719468 in
  let era := z / 146097 in
  let doe := z - era * 146097 in
  let yoe := (doe - doe / 1460 + doe / 36524 - doe / 146096) / 365 in
  let doy := doe - (365 * yoe + yoe / 4 - yoe / 100) in
  let mp := (5 * doy + 2) / 153 in
  let d := doy - (153 * mp + 2) / 5 + 1 in
  let m := if mp <? 10 then mp + 3 else mp - 9 in
  (yoe + era * 400 + (if m <=? 2 then 1 else 0), m, d).

Definition iso_string (ms : Z) : string :=
  let '(y, m, d) := civil (ms / 86400000) in
  let t := ms mod 86400000 in
  pad_left 4 y +:+ "-" +:+ pad_left 2 m +:+ "-" +:+ pad_left 2 d +:+ "T"
  +:+ pad_left 2 (t / 3600000) +:+ ":" +:+ pad_left 2 (t / 60000 mod 60) +:+ ":"
  +:+ pad_left 2 (t / 1000 mod 60) +:+ "." +:+ pad_left 3 (t mod 1000) +:+ "Z".

Definition date_string (ms : option Z) : string :=
  match ms with
  | Some t => iso_string t
  | None => "Invalid Date"
  end.

Definition is_undefined (v : value) : bool :=
  match v with VUndefined => true | _ => false end.

Fixpoint stringify (v : value) : string :=
  match v with
  | VUndefined => "undefined"
  | VNull => "null"
  | VBool true => "true"
  | VBool false => "false"
  | VNum n => Str.of_Z n
  | VStr s => quote s
  | VDate (Some t) => quote (iso_string t)
  | VDate None => "null"
  | VArr items =>
      "[" +:+ Str.join ","
                (map (fun x => if is_undefined x then "null"
                               else stringify x) items) +:+ "]"
  | VObj props =>
      "{" +:+ Str.join ","
                (flat_map (fun kv => match kv with
                                     | (k, x) =>
                                         if is_undefined x then []
                                         else [quote k +:+ ":" +:+ stringify x]
                                     end) props) +:+ "}"
  end.

Definition string_to_number (s : string) : option Z :=
  match rev (skip_ws (rev (skip_ws (Str.chars s)))) with
  | [] => Some 0
  | "-"%char :: c :: r =>
      if is_digit c then
        match digits (c :: r) 0 with (n, []) => Some (- n) | _ => None end
      else None
  | "+"%char :: c :: r =>
      if is_digit c then
        match digits (c :: r) 0 with (n, []) => Some n | _ => None end
      else None
  | l =>
      match l with
      | c :: _ =>
          if is_digit c then
            match digits l 0 with (n, []) => Some n | _ => None end
          else None
      | [] => None
      end
  end.

#[global] Instance platform : Platform := {|
  JSON_parse := parse;
  JSON_stringify := stringify;
  StringToNumber := string_to_number;
  Date_toString := date_string;
  Date_toISOString := iso_string
|}.

End Reference.

(** ** Sample data for the examples *)

Module Fixtures.

Import TokenManager.

(** 2023-11-14T22:13:20Z *)
Definition now_ms : Z := 1700000000000.

(** Tokens with an HS256 header and the payload
    iss = sfd, sub = 1, aud = web, iat = 1699999000, exp = E,
    sessionId = s1, jti = j1, role = customer. *)

(** E = 1700003600: one hour after [now_ms]. *)
Definition jwt_valid : string :=
  "eyJhbGciOiJIUzI1NiIsInR5cCI6IkpXVCJ9.eyJpc3MiOiJzZmQiLCJzdWIiOiIxIiwiYXVkIjoid2ViIiwiaWF0IjoxNjk5OTk5MDAwLCJleHAiOjE3MDAwMDM2MDAsInNlc3Npb25JZCI6InMxIiwianRpIjoiajEiLCJyb2xlIjoiY3VzdG9tZXIifQ.sig".
Definition token_valid : value := VStr jwt_valid.

(** E = 1700000100: 100 seconds after [now_ms]. *)
Definition jwt_soon : string :=
  "eyJhbGciOiJIUzI1NiIsInR5cCI6IkpXVCJ9.eyJpc3MiOiJzZmQiLCJzdWIiOiIxIiwiYXVkIjoid2ViIiwiaWF0IjoxNjk5OTk5MDAwLCJleHAiOjE3MDAwMDAxMDAsInNlc3Npb25JZCI6InMxIiwianRpIjoiajEiLCJyb2xlIjoiY3VzdG9tZXIifQ.sig".
Definition token_soon : value := VStr jwt_soon.

(** E = 1699999999: one second before [now_ms]. *)
Definition jwt_expired : string :=
  "eyJhbGciOiJIUzI1NiIsInR5cCI6IkpXVCJ9.eyJpc3MiOiJzZmQiLCJzdWIiOiIxIiwiYXVkIjoid2ViIiwiaWF0IjoxNjk5OTk5MDAwLCJleHAiOjE2OTk5OTk5OTksInNlc3Npb25JZCI6InMxIiwianRpIjoiajEiLCJyb2xlIjoiY3VzdG9tZXIifQ.sig".
Definition token_expired : value := VStr jwt_expired.

(** E = 0. *)
Definition jwt_exp_zero : string :=
  "eyJhbGciOiJIUzI1NiIsInR5cCI6IkpXVCJ9.eyJpc3MiOiJzZmQiLCJzdWIiOiIxIiwiYXVkIjoid2ViIiwiaWF0IjoxNjk5OTk5MDAwLCJleHAiOjAsInNlc3Npb25JZCI6InMxIiwianRpIjoiajEiLCJyb2xlIjoiY3VzdG9tZXIifQ.sig".
Definition token_exp_zero : value := VStr jwt_exp_zero.

(** E = 1700003600, without the [iss] claim. *)
Definition jwt_no_iss : string :=
  "eyJhbGciOiJIUzI1NiIsInR5cCI6IkpXVCJ9.eyJzdWIiOiIxIiwiYXVkIjoid2ViIiwiaWF0IjoxNjk5OTk5MDAwLCJleHAiOjE3MDAwMDM2MDAsInNlc3Npb25JZCI6InMxIiwianRpIjoiajEiLCJyb2xlIjoiY3VzdG9tZXIifQ.sig".
Definition token_no_iss : value := VStr jwt_no_iss.

(** E = 1700000010: ten seconds after [now_ms]. *)
Definition jwt_ten_seconds : string :=
  "eyJhbGciOiJIUzI1NiIsInR5cCI6IkpXVCJ9.eyJpc3MiOiJzZmQiLCJzdWIiOiIxIiwiYXVkIjoid2ViIiwiaWF0IjoxNjk5OTk5MDAwLCJleHAiOjE3MDAwMDAwMTAsInNlc3Npb25JZCI6InMxIiwianRpIjoiajEiLCJyb2xlIjoiY3VzdG9tZXIifQ.sig".
Definition token_ten_seconds : value := VStr jwt_ten_seconds.

(** E = 1700003600, with nbf = 1700000500 after the [exp] claim. *)
Definition jwt_not_before : string :=
  "eyJhbGciOiJIUzI1NiIsInR5cCI6IkpXVCJ9.eyJpc3MiOiJzZmQiLCJzdWIiOiIxIiwiYXVkIjoid2ViIiwiaWF0IjoxNjk5OTk5MDAwLCJleHAiOjE3MDAwMDM2MDAsIm5iZiI6MTcwMDAwMDUwMCwic2Vzc2lvbklkIjoiczEiLCJqdGkiOiJqMSIsInJvbGUiOiJjdXN0b21lciJ9.sig".
Definition token_not_before : value := VStr jwt_not_before.

(** E = 1700003600, with an empty string as the [sub] claim. *)
Definition jwt_empty_sub : string :=
  "eyJhbGciOiJIUzI1NiIsInR5cCI6IkpXVCJ9.eyJpc3MiOiJzZmQiLCJzdWIiOiIiLCJhdWQiOiJ3ZWIiLCJpYXQiOjE2OTk5OTkwMDAsImV4cCI6MTcwMDAwMzYwMCwic2Vzc2lvbklkIjoiczEiLCJqdGkiOiJqMSIsInJvbGUiOiJjdXN0b21lciJ9.sig".
Definition token_empty_sub : value := VStr jwt_empty_sub.

(** The claims [parseJWT] returns for a sample token. *)
Definition claims_of (jwt : string) : list (string * value) :=
  match JWTUtils.parseJWT (VStr jwt) with
  | VObj props => props
  | _ => []
  end.

Definition payload_soon : list (string * value) :=
  Eval vm_compute in claims_of jwt_soon.
Definition payload_exp_zero : list (string * value) :=
  Eval vm_compute in claims_of jwt_exp_zero.
Definition payload_empty_sub : list (string * value) :=
  Eval vm_compute in claims_of jwt_empty_sub.
Definition payload_ten_seconds : list (string * value) :=
  Eval vm_compute in claims_of jwt_ten_seconds.

Definition session : value := VObj [("id", VStr "s1")].
Definition customer : value := VObj [("id", VNum 1); ("role", VStr "customer")].

(** A page with a fresh token manager over an empty store, on [/customer]. *)
Definition fresh : env :=
  mkEnv (constructed ∅) [] 1 1 [] [] 0 (Some "/customer") [].

(** ... after [setTokens(token_valid, R0, session, customer)]. *)
Definition logged_in : env :=
  setTokens now_ms token_valid (VStr "R0") session customer fresh.

Definition profile_data : value :=
  VObj [("success", VBool true); ("profile", VObj [("name", VStr "Ada")])].

End Fixtures.

(** ** JWTUtils: encoding, durations, status, scopes, purposes *)

Module JWTStatus.

(** [base64UrlEncode(str)]; on a byte string [btoa] does not throw. *)
Definition base64UrlEncode (str : string) : string :=
  Str.remove_all "="%char
    (Str.replace_all "/"%char "_"%char
       (Str.replace_all "+"%char "-"%char (Base64.btoa str))).

(** [formatDuration(seconds)]; with NaN every comparison is false and no
    part is pushed. *)
Definition formatDuration (seconds : JS.num) : string :=
  match seconds with
  | None => "0s"
  | Some s =>
      if s <? 0 then "expired"
      else
        let days := s / 86400 in
        let hours := (s mod 86400) / 3600 in
        let minutes := (s mod 3600) / 60 in
        let remainingSeconds := s mod 60 in
        let p1 := JWTUtils.push_if (days >? 0) (Str.of_Z days +:+ "d") [] in
        let p2 := JWTUtils.push_if (hours >? 0) (Str.of_Z hours +:+ "h") p1 in
        let p3 := JWTUtils.push_if (minutes >? 0) (Str.of_Z minutes +:+ "m") p2 in
        let p4 := JWTUtils.push_if
                    ((remainingSeconds >? 0) && Nat.eqb (List.length p3) 0)
                    (Str.of_Z remainingSeconds +:+ "s") p3 in
        let joined := Str.join " " p4 in
        if Str.is_empty joined then "0s" else joined
  end.

(** The largest time value of a [Date], in milliseconds. *)
Definition max_time : Z := Num.max_time.

Definition RangeError (msg : string) : js_error := mkError "RangeError" msg.

Record timing : Type := mkTiming {
  t_now : string;
  t_issuedAt : string;
  t_expiresAt : string;
  t_timeUntilExpiry : JS.num;
  t_timeSinceIssued : JS.num;
  t_expiresIn : string;
  t_age : string
}.

(** The object [getTokenStatus] returns; without a payload it has neither
    [payload] nor [timing]. *)
Record token_status : Type := mkStatus {
  status : string;
  message : string;
  payload : value;
  validation : JWTUtils.validation;
  timing_of : option timing
}.

Record scope_check : Type := mkScopeCheck {
  sc_valid : bool;
  userScopes : option (list value);
  requiredScopes : option (list string);
  missingScopes : option (list string);
  reason : option string
}.

(** The [requirements] of [validateForPurpose]; [None] is an absent field. *)
Record requirements : Type := mkRequirements {
  req_role : option string;
  req_scopes : option (list string);
  req_clientId : option string;
  req_minRemainingTime : option Z
}.

Record purpose_result : Type := mkPurpose {
  p_valid : bool;
  p_errors : list string;
  p_warnings : list string
}.

(** [userScopes.includes(scope)] for a string [scope]. *)
Definition includes_scope (items : list value) (scope : string) : bool :=
  existsb (fun item => JS.strict_eq_string item scope) items.

Section WithPlatform.
Context `{Platform}.

(** [new Date(t).toISOString()]: a RangeError for NaN and past the range
    of time values. *)
Definition date_iso (t : JS.num) : js_error + string :=
  match t with
  | Some ms =>
      if (- max_time <=? ms) && (ms <=? max_time) then inr (Date_toISOString ms)
      else inl (RangeError "Invalid time value")
  | None => inl (RangeError "Invalid time value")
  end.

Definition getTokenStatus (now_ms : Z) (token : value) : js_error + token_status :=
  let validation := JWTUtils.validateJWT now_ms token in
  let payload := JWTUtils.claims validation in
  if negb (JS.truthy payload) then
    inr (mkStatus "invalid" "Token is invalid or malformed" VUndefined validation None)
  else
    let now := now_ms / 1000 in
    let exp := Coerce.to_number (JS.get payload "exp") in
    let iat := Coerce.to_number (JS.get payload "iat") in
    let timeUntilExpiry := Num.sub exp (Some now) in
    let timeSinceIssued := Num.sub (Some now) iat in
    let sm :=
      if Num.le timeUntilExpiry (Some 0) then ("expired", "Token has expired")
      else if Num.le timeUntilExpiry (Some 300) then
        ("expiring_soon", "Token expires soon")
      else ("valid", "Token is valid") in
    match date_iso (Some (now * 1000)) with
    | inl err => inl err
    | inr now_iso =>
        match date_iso (Num.mul iat (Some 1000)) with
        | inl err => inl err
        | inr issued_iso =>
            match date_iso (Num.mul exp (Some 1000)) with
            | inl err => inl err
            | inr expires_iso =>
                inr (mkStatus (fst sm) (snd sm) payload validation
                       (Some (mkTiming now_iso issued_iso expires_iso
                                timeUntilExpiry timeSinceIssued
                                (formatDuration timeUntilExpiry)
                                (formatDuration timeSinceIssued))))
            end
        end
    end.

Definition checkScopes (token : value) (required : list string) : scope_check :=
  let payload := JWTUtils.parseJWT token in
  if negb (JS.truthy payload) then
    mkScopeCheck false None None None (Some "Invalid token")
  else
    match JS.get payload "scopes" with
    | VArr items =>
        let missing := List.filter (fun scope => negb (includes_scope items scope))
                         required in
        mkScopeCheck (Nat.eqb (List.length missing) 0) (Some items) (Some required)
          (Some missing)
          (if Nat.ltb 0 (List.length missing)
           then Some ("Missing scopes: " +:+ Str.join ", " missing) else None)
    | _ => mkScopeCheck false None None None (Some "No scopes defined in token")
    end.

(** [payload?.key] *)
Definition optional_get (payload : value) (key : string) : value :=
  if JS.is_nullish payload then VUndefined else JS.get payload key.

(** One check of [validateForPurpose]: when it fails, [valid] becomes false
    and the message is pushed. *)
Definition fail_if (c : bool) (msg : string) (r : purpose_result) : purpose_result :=
  if c then mkPurpose false (p_errors r ++ [msg])%list (p_warnings r) else r.

Definition truthy_string (o : option string) : bool :=
  match o with Some s => negb (Str.is_empty s) | None => false end.

Definition text_of (o : option string) : string :=
  match o with Some s => s | None => "undefined" end.

Definition validateForPurpose (now_ms : Z) (token : value) (req : requirements)
  : purpose_result :=
  let validation := JWTUtils.validateJWT now_ms token in
  let payload := JWTUtils.claims validation in
  let r0 := mkPurpose (JWTUtils.valid validation) (JWTUtils.errors validation)
              (JWTUtils.warnings validation) in
  let r1 :=
    fail_if (truthy_string (req_role req)
             && negb (JS.strict_eq_string (optional_get payload "role")
                        (text_of (req_role req))))
      ("Required role: " +:+ text_of (req_role req) +:+ ", actual: "
       +:+ Coerce.to_string (optional_get payload "role")) r0 in
  let r2 :=
    match req_scopes req with
    | Some scopes =>
        if JS.truthy (optional_get payload "scopes") then
          let scopeCheck := checkScopes token scopes in
          fail_if (negb (sc_valid scopeCheck)) (text_of (reason scopeCheck)) r1
        else r1
    | None => r1
    end in
  let r3 :=
    fail_if (truthy_string (req_clientId req)
             && negb (JS.strict_eq_string (optional_get payload "clientId")
                        (text_of (req_clientId req))))
      ("Required client: " +:+ text_of (req_clientId req) +:+ ", actual: "
       +:+ Coerce.to_string (optional_get payload "clientId")) r2 in
  match req_minRemainingTime req with
  | Some minimum =>
      if minimum =? 0 then r3
      else
        let remaining :=
          if JS.truthy payload
          then Num.sub (Coerce.to_number (JS.get payload "exp")) (Some (now_ms / 1000))
          else Some 0 in
        fail_if (match remaining with Some x => x <? minimum | None => false end)
          ("Token expires too soon (" +:+ formatDuration remaining +:+ " remaining)") r3
  | None => r3
  end.

End WithPlatform.
End JWTStatus.

(** ** PKCEHelper: decoding *)

Module PKCECodec.

(** [base64urlDecode(input)]: the bytes of the buffer; [None] when [atob]
    throws. *)
Definition base64urlDecode (input : string) : option (list Z) :=
  let base64 := Str.replace_all "_"%char "/"%char
                  (Str.replace_all "-"%char "+"%char input) in
  let padding := Str.length base64 mod 4 in
  let paddedBase64 :=
    base64 +:+ Str.of_chars (repeat "="%char (Z.to_nat ((4 - padding) mod 4))) in
  match Base64.atob paddedBase64 with
  | Some binaryString => Some (map Str.code (Str.chars binaryString))
  | None => None
  end.

End PKCECodec.

(** ** API: login, logout, batch; the callers in the auth module *)

Module Client.

Import TokenManager API.

(** One entry of the array [batch] returns. *)
Inductive batch_entry : Type :=
| Succeeded (data : value)
| Failed_with (error : string).

Section WithPlatform.
Context `{Platform}.

(** The answers a finished call of [request] has left: it takes one per
    [fetch]. *)
Definition answers_left (answers : list fetch_outcome) (before after : env)
  : list fetch_outcome :=
  skipn (List.length (fetches after) - List.length (fetches before)) answers.

(** [login(email, password, clientId)] *)
Definition login (now_ms : Z) (email password clientId : string)
           (answers : list fetch_outcome) (e : env) : outcome * env :=
  let body := JSON_stringify (VObj [("email", VStr email);
                                    ("password", VStr password);
                                    ("clientId", VStr clientId)]) in
  match request "/auth/login" (mkOptions (Some "POST") (Some body)) answers e with
  | (Returned response, e1) =>
      if JS.is_nullish response then
        (Thrown (TypeError "Cannot read properties of null (reading 'success')"), e1)
      else if JS.truthy (JS.get response "success")
              && JS.truthy (JS.get response "access_token") then
        (Returned response,
         setTokens now_ms (JS.get response "access_token")
           (JS.get response "refresh_token") (JS.get response "session")
           (JS.get response "user") e1)
      else
        (Thrown (Error (if JS.truthy (JS.get response "error")
                        then Coerce.to_string (JS.get response "error")
                        else "Login failed")), e1)
  | other => other
  end.

(** [refreshToken()] of the API client: no request without a refresh
    token; the new tokens are stored when the answer has them; every other
    answer is thrown to the caller. *)
Definition refreshToken (now_ms : Z) (answers : list fetch_outcome) (e : env)
  : outcome * env :=
  let refreshToken := getRefreshToken (this e) in
  if negb (JS.truthy refreshToken) then
    (Thrown (Error "No refresh token available"), e)
  else
    let body := JSON_stringify (VObj [("refresh_token", refreshToken);
                                      ("clientId", VStr "web-client")]) in
    match request "/auth/refresh" (mkOptions (Some "POST") (Some body)) answers e with
    | (Returned response, e1) =>
        if JS.is_nullish response then
          (Thrown (TypeError "Cannot read properties of null (reading 'success')"), e1)
        else if JS.truthy (JS.get response "success")
                && JS.truthy (JS.get response "access_token") then
          (Returned response,
           setTokens now_ms (JS.get response "access_token")
             (JS.get response "refresh_token") (JS.get response "session")
             (JS.get response "user") e1)
        else
          (Thrown (Error (if JS.truthy (JS.get response "error")
                          then Coerce.to_string (JS.get response "error")
                          else "Token refresh failed")), e1)
    | other => other
    end.

(** [logout()]: the request is made when a token exists; whatever it does,
    the [finally] block clears the store, and nothing is thrown.  The
    boolean tells whether the call has ended (it has not while its request
    is awaited). *)
Definition logout (answers : list fetch_outcome) (e : env) : bool * env :=
  let accessToken := getToken e in
  let refreshToken := getRefreshToken (this e) in
  if JS.truthy accessToken || JS.truthy refreshToken then
    let body := JSON_stringify (VObj [("access_token", accessToken);
                                      ("refresh_token", refreshToken)]) in
    match request "/auth/logout" (mkOptions (Some "POST") (Some body)) answers e with
    | (Pending, e1) => (false, e1)
    | (_, e1) => (true, clearTokens e1)
    end
  else (true, clearTokens e).

(** [logoutAll()] *)
Definition logoutAll (answers : list fetch_outcome) (e : env) : outcome * env :=
  let accessToken := getToken e in
  if negb (JS.truthy accessToken) then
    (Thrown (Error "No access token available"), e)
  else
    let body := JSON_stringify (VObj [("access_token", accessToken)]) in
    match request "/auth/logout-all" (mkOptions (Some "POST") (Some body)) answers e with
    | (Returned response, e1) => (Returned response, clearTokens e1)
    | other => other
    end.

(** [batch(requests)]: the entries collected, whether the loop has ended
    (it has not while a request is awaited), and the environment. *)
Fixpoint batch (requests : list (string * options)) (answers : list fetch_outcome)
         (e : env) : list batch_entry * bool * env :=
  match requests with
  | [] => ([], true, e)
  | (endpoint, o) :: more =>
      match request endpoint o answers e with
      | (Pending, e1) => ([], false, e1)
      | (Returned data, e1) =>
          let '(entries, ended, e2) := batch more (answers_left answers e e1) e1 in
          (Succeeded data :: entries, ended, e2)
      | (Thrown err, e1) =>
          let '(entries, ended, e2) := batch more (answers_left answers e e1) e1 in
          (Failed_with (message err) :: entries, ended, e2)
      end
  end.

(** [extendSession()] of the auth module:
    [forceRefresh().then(...).catch(...)].  Without a router the [then]
    callback throws and the [catch] callback runs.  The boolean tells
    whether the chain has ended (it has not while [forceRefresh] awaits). *)
Definition extendSession (e : env) : bool * env :=
  match forceRefresh e with
  | (Done _, e1) =>
      match route e1 with
      | Some _ =>
          (true, showNotification "Session extended successfully" "success"
                   (navigate "/" e1))
      | None => (true, showNotification "Failed to extend session" "error" e1)
      end
  | (AwaitingRefresh _, e1) => (false, e1)
  end.

(** [isTokenExpired()] and [getTimeUntilExpiry()] of the auth module. *)
Definition isTokenExpired (now_ms : Z) (e : env) : bool :=
  match getTokenExpirationInfo now_ms (this e) with
  | None => true
  | Some expInfo => isExpired expInfo
  end.

Definition getTimeUntilExpiry (now_ms : Z) (e : env) : JS.num :=
  match getTokenExpirationInfo now_ms (this e) with
  | None => Some 0
  | Some expInfo => timeUntilExpiry expInfo
  end.

End WithPlatform.

(** [getUserScopes()]: [user && user.scopes ? user.scopes : []] *)
Definition getUserScopes (e : env) : value :=
  let user := getUser (this e) in
  if JS.truthy user && JS.truthy (JS.get user "scopes") then JS.get user "scopes"
  else VArr [].

(** [hasScopes(requiredScopes)]:
    [requiredScopes.every(scope => userScopes.includes(scope))].  On an
    array [includes] looks for an element, on a string for a substring; a
    truthy value of another kind has no [includes] to call. *)
Definition hasScopes (requiredScopes : list string) (e : env) : js_error + bool :=
  match requiredScopes with
  | [] => inr true
  | _ :: _ =>
      match getUserScopes e with
      | VArr items => inr (forallb (JWTStatus.includes_scope items) requiredScopes)
      | VStr text => inr (forallb (fun scope => includes scope text) requiredScopes)
      | _ => inl (TypeError "userScopes.includes is not a function")
      end
  end.

End Client.

(** ** The page as a sequence of events *)

Module Page.

Import TokenManager API.

(** What can happen to the token manager of a page. *)
Inductive event : Type :=
| SetTokens (now_ms : Z) (access refresh metadata usr : value)
| ClearTokens
| RefreshAnswered (now_ms : Z) (o : fetch_outcome)
| ForceRefresh
| AutoRefresh (now_ms : Z)
| TimerFires (now_ms : Z) (h : nat)
| StorageChanged (key : string) (store : gmap string string)
| Request (endpoint : string) (o : options) (answers : list fetch_outcome)
| Login (now_ms : Z) (email password : string) (answers : list fetch_outcome)
| Logout (answers : list fetch_outcome)
| ExtendSession.

Section WithPlatform.
Context `{Platform}.

Definition step (e : env) (ev : event) : env :=
  match ev with
  | SetTokens now_ms a r s u => setTokens now_ms a r s u e
  | ClearTokens => clearTokens e
  | RefreshAnswered now_ms o => snd (refreshToken_settle now_ms o e)
  | ForceRefresh => snd (forceRefresh e)
  | AutoRefresh now_ms => snd (autoRefresh now_ms e)
  | TimerFires now_ms h => snd (fire_timer now_ms h e)
  | StorageChanged key store => fst (on_storage_event key store e)
  | Request endpoint o answers => snd (request endpoint o answers e)
  | Login now_ms email password answers =>
      snd (Client.login now_ms email password "web-client" answers e)
  | Logout answers => snd (Client.logout answers e)
  | ExtendSession => snd (Client.extendSession e)
  end.

Definition run (events : list event) (e : env) : env := fold_left step events e.

(** The page right after the constructor: [init()] has loaded the stored
    session and scheduled its refresh. *)
Definition opened (now_ms : Z) (store : gmap string string) (r : option string) : env :=
  fst (init now_ms (mkEnv (constructed store) [] 1 1 [] [] 0 r [])).

End WithPlatform.

(** At most one refresh timer is pending, and it is the one whose handle
    the instance holds. *)
Definition at_most_one_timer (e : env) : Prop :=
  timers e = []
  \/ exists h delay, timers e = [(h, delay)] /\ refreshTimer (this e) = Some h.

End Page.

(** ** Exhaustive checks over bytes, used by the base64 proofs *)

Module Base64Facts.

Definition bytes : list Z := map Z.of_nat (seq 0 256).
Definition sextet_values : list Z := map Z.of_nat (seq 0 64).

(** The indices of the digits [Base64.encode] writes. *)
Fixpoint sextets_of (l : list Z) : list Z :=
  match l with
  | [] => []
  | [a] => [Z.shiftr a 2; Z.shiftl (Z.land a 3) 4]
  | [a; b] =>
      [Z.shiftr a 2; Z.lor (Z.shiftl (Z.land a 3) 4) (Z.shiftr b 4);
       Z.shiftl (Z.land b 15) 2]
  | a :: b :: c :: rest =>
      Z.shiftr a 2
      :: Z.lor (Z.shiftl (Z.land a 3) 4) (Z.shiftr b 4)
      :: Z.lor (Z.shiftl (Z.land b 15) 2) (Z.shiftr c 6)
      :: Z.land c 63
      :: sextets_of rest
  end.

Definition is_sextet (v : Z) : bool := (0 <=? v) && (v <? 64).
Definition below (n v : Z) : bool := (0 <=? v) && (v <? n).

Definition is_byte (x : Z) : Prop := 0 <= x < 256.

(** Everything the round trip needs of one byte ... *)
Definition byte_ok (a : Z) : bool :=
  is_sextet (Z.shiftr a 2) && is_sextet (Z.land a 63)
  && is_sextet (Z.shiftl (Z.land a 3) 4) && is_sextet (Z.shiftl (Z.land a 15) 2)
  && below 4 (Z.land a 3) && below 16 (Z.shiftr a 4)
  && below 16 (Z.land a 15) && below 4 (Z.shiftr a 6)
  && (Z.lor (Z.shiftl (Z.shiftr a 2) 2) (Z.land a 3) =? a)
  && (Z.lor (Z.shiftl (Z.shiftr a 4) 4) (Z.land a 15) =? a)
  && (Z.lor (Z.shiftl (Z.shiftr a 6) 6) (Z.land a 63) =? a)
  && (Z.shiftr (Z.shiftl (Z.land a 3) 4) 4 =? Z.land a 3)
  && (Z.shiftr (Z.shiftl (Z.land a 15) 2) 2 =? Z.land a 15).

(** ... and of the digits that join the bits of two bytes. *)
Definition join_ok (shift low high : Z) (p q : Z) : bool :=
  let v := Z.lor (Z.shiftl p shift) q in
  is_sextet v && (Z.shiftr v shift =? p) && (Z.land v (low - 1) =? q).

Definition range (n : nat) : list Z := map Z.of_nat (seq 0 n).

Definition all_bytes_ok : bool := forallb byte_ok bytes.
Definition all_joins_ok : bool :=
  forallb (fun p => forallb (join_ok 4 16 4 p) (range 16)) (range 4)
  && forallb (fun p => forallb (join_ok 2 4 16 p) (range 4)) (range 16).

(** The URL-safe form of a base64 character and back. *)
Definition to_url (c : ascii) : ascii :=
  (fun x => if Ascii.eqb x "/"%char then "_"%char else x)
    ((fun x => if Ascii.eqb x "+"%char then "-"%char else x) c).

Definition from_url (c : ascii) : ascii :=
  (fun x => if Ascii.eqb x "_"%char then "/"%char else x)
    ((fun x => if Ascii.eqb x "-"%char then "+"%char else x) c).

Definition option_Z_eqb (x y : option Z) : bool :=
  match x, y with
  | Some a, Some b => a =? b
  | None, None => true
  | _, _ => false
  end.

(** A character of the base64url alphabet [[A-Za-z0-9\-_]]. *)
Definition base64url_char (c : ascii) : bool :=
  let n := Str.code c in
  ((65 <=? n) && (n <=? 90)) || ((97 <=? n) && (n <=? 122))
  || ((48 <=? n) && (n <=? 57)) || (n =? 45) || (n =? 95).

(** Everything the round trip needs of one digit. *)
Definition digit_ok (v : Z) : bool :=
  let c := Base64.digit v in
  option_Z_eqb (Base64.value_of c) (Some v)
  && negb (Base64.is_space c)
  && negb (Ascii.eqb c "="%char)
  && negb (Ascii.eqb (to_url c) "="%char)
  && negb (Ascii.eqb (to_url c) "."%char)
  && Ascii.eqb (from_url (to_url c)) c
  && PKCEHelper.unreserved (to_url c)
  && base64url_char (to_url c).

Definition all_digits_ok : bool := forallb digit_ok sextet_values.

End Base64Facts.

(** ** More sample tokens *)

Module Samples.

(** A token put together as [header.payload.signature], the payload being
    the base64url form of a text. *)
Definition assemble (header text signature : string) : string :=
  header +:+ "." +:+ JWTStatus.base64UrlEncode text +:+ "." +:+ signature.

(** A part of a token: it holds no dot. *)
Definition no_dot (part : string) : Prop :=
  Forall (fun c => Ascii.eqb c "."%char = false) (Str.chars part).

Definition token_of (claims : value) : string :=
  assemble "eyJhbGciOiJIUzI1NiJ9" (Reference.stringify claims) "sig".

(** The claims of [Fixtures.jwt_valid] with scopes [read] and [write]. *)
Definition claims_scoped : value :=
  VObj [("iss", VStr "sfd"); ("sub", VStr "1"); ("aud", VStr "web");
        ("iat", VNum 1699999000); ("exp", VNum 1700003600);
        ("sessionId", VStr "s1"); ("jti", VStr "j1"); ("role", VStr "customer");
        ("clientId", VStr "web-app");
        ("scopes", VArr [VStr "read"; VStr "write"])].
Definition jwt_scoped : string := Eval vm_compute in token_of claims_scoped.

(** The same without [scopes]. *)
Definition claims_unscoped : value :=
  VObj [("iss", VStr "sfd"); ("sub", VStr "1"); ("aud", VStr "web");
        ("iat", VNum 1699999000); ("exp", VNum 1700003600);
        ("sessionId", VStr "s1"); ("jti", VStr "j1"); ("role", VStr "customer");
        ("clientId", VStr "web-app")].
Definition jwt_unscoped : string := Eval vm_compute in token_of claims_unscoped.

(** No [iat] claim. *)
Definition claims_without_iat : value :=
  VObj [("iss", VStr "sfd"); ("sub", VStr "1"); ("aud", VStr "web");
        ("exp", VNum 1700003600)].
Definition jwt_without_iat : string := Eval vm_compute in token_of claims_without_iat.

Definition parsed_without_iat : list (string * value) :=
  Eval vm_compute in Fixtures.claims_of jwt_without_iat.

(** [exp] one second past the last date: [exp * 1000] is no time value. *)
Definition claims_beyond_dates : value :=
  VObj [("iss", VStr "sfd"); ("sub", VStr "1"); ("aud", VStr "web");
        ("iat", VNum 1699999000); ("exp", VNum 8640000000001)].
Definition jwt_beyond_dates : string := Eval vm_compute in token_of claims_beyond_dates.

(** [exp] thirty days after [Fixtures.now_ms]. *)
Definition claims_thirty_days : value :=
  VObj [("iss", VStr "sfd"); ("sub", VStr "1"); ("aud", VStr "web");
        ("iat", VNum 1699999000); ("exp", VNum 1702592000)].
Definition jwt_thirty_days : string := Eval vm_compute in token_of claims_thirty_days.

End Samples.

(** * Properties *)

(** ** Sanity checks of the platform model against published vectors *)

Example sha256_abc :
  PKCEHelper.base64urlEncode (SHA256.digest (PKCEHelper.encode_utf8 "abc"))
  = "ungWv48Bz-pBQUDeXa4iI7ADYaOWF3qctBD_YfIAFa0".
Proof. vm_compute. reflexivity. Qed.

(** RFC 7636, appendix B. *)
Example rfc7636_appendix_b :
  PKCEHelper.generateCodeChallenge "dBjftJeZ4CVP-mB92K27uhbUJU1p1r_wW1gFWFOEjXk" "S256"
  = Ok "E9Melhoa2OwvFrEMTJguCHaoeK1t8URWbuGJSstw-cM".
Proof. vm_compute. reflexivity. Qed.

Example atob_btoa_sample :
  Base64.atob (Base64.btoa "any carnal pleas") = Some "any carnal pleas"
  /\ Base64.btoa "any carnal pleas" = "YW55IGNhcm5hbCBwbGVhcw==".
Proof. vm_compute. split; reflexivity. Qed.

Example iso_date_sample :
  Reference.iso_string 1700000000000 = "2023-11-14T22:13:20.000Z".
Proof. vm_compute. reflexivity. Qed.

(** ** Strings *)

Section StringFacts.

Lemma chars_of_chars (l : list ascii) : Str.chars (Str.of_chars l) = l.
Proof. apply list_ascii_of_string_of_list_ascii. Qed.

Lemma of_chars_chars (s : string) : Str.of_chars (Str.chars s) = s.
Proof. apply string_of_list_ascii_of_string. Qed.

Lemma is_empty_of_chars (c : ascii) (l : list ascii) :
  Str.is_empty (Str.of_chars (c :: l)) = false.
Proof. reflexivity. Qed.

Lemma get_of_chars (l : list ascii) (n : nat) :
  String.get n (Str.of_chars l) = nth_error l n.
Proof.
  revert n. induction l as [|c l IH]; intros [|n]; simpl; auto.
Qed.

Lemma length_of_chars (l : list ascii) :
  String.length (Str.of_chars l) = List.length l.
Proof. induction l as [|c l IH]; simpl; congruence. Qed.

Lemma of_chars_app (l1 l2 : list ascii) :
  Str.of_chars (l1 ++ l2)%list = Str.of_chars l1 +:+ Str.of_chars l2.
Proof.
  unfold Str.of_chars.
  induction l1 as [|c l1 IH]; cbn; [reflexivity | rewrite IH; reflexivity].
Qed.

Lemma append_empty_r (s : string) : s +:+ EmptyString = s.
Proof. induction s as [|c s IH]; [reflexivity|]. change (String c (s +:+ EmptyString) = String c s). congruence. Qed.

Lemma append_assoc (a b c : string) : (a +:+ b) +:+ c = a +:+ (b +:+ c).
Proof.
  induction a as [|x a IH]; [reflexivity|].
  change (String x ((a +:+ b) +:+ c) = String x (a +:+ (b +:+ c))). congruence.
Qed.

Lemma eqb_refl_true (s : string) : String.eqb s s = true.
Proof. apply String.eqb_refl. Qed.

End StringFacts.

(** ** PKCE *)

Section PKCE_properties.

Import PKCEHelper.

(** No base64 digit is the padding character, also after the two
    substitutions of the URL-safe alphabet. *)
Lemma digit_url_not_pad (i : Z) :
  Ascii.eqb
    ((fun x => if Ascii.eqb x "/"%char then "_"%char else x)
       ((fun x => if Ascii.eqb x "+"%char then "-"%char else x) (Base64.digit i)))
    "="%char = false.
Proof.
  unfold Base64.digit, Str.char_at.
  destruct (i <? 0); [reflexivity|].
  generalize (Z.to_nat i) as n. intros n.
  do 64 (destruct n as [|n]; [vm_compute; reflexivity|]).
  reflexivity.
Qed.

Lemma encode_head (a : Z) (l : list Z) :
  exists rest, Base64.encode (a :: l) = Base64.digit (Z.shiftr a 2) :: rest.
Proof. destruct l as [|b [|c l]]; simpl; eauto. Qed.

Lemma base64urlEncode_nonempty (a : Z) (buffer : list Z) :
  Str.is_empty (base64urlEncode (a :: buffer)) = false.
Proof.
  unfold base64urlEncode, arrayBufferToBase64, Base64.btoa.
  unfold Str.remove_all, Str.replace_all.
  rewrite !chars_of_chars. cbn [map].
  destruct (encode_head (Str.code (Str.of_code a)) (map Str.code (map Str.of_code buffer)))
    as [rest ->].
  cbn [map List.filter].
  rewrite digit_url_not_pad. reflexivity.
Qed.

Lemma digest_nonempty (msg : list Z) :
  exists a rest, SHA256.digest msg = a :: rest.
Proof.
  unfold SHA256.digest.
  generalize (SHA256.blocks (List.length (SHA256.pad msg) / 64)%nat
                (SHA256.pad msg) SHA256.initial).
  intros s. cbn [SHA256.be_bytes app]. eauto.
Qed.

Lemma S256_challenge_nonempty (v : string) :
  Str.is_empty (generateCodeChallengeS256 v) = false.
Proof.
  unfold generateCodeChallengeS256.
  destruct (digest_nonempty (encode_utf8 v)) as (a & rest & ->).
  apply base64urlEncode_nonempty.
Qed.

Lemma valid_verifier_nonempty (v : string) :
  valid (validateCodeVerifier v) = true -> Str.is_empty v = false.
Proof.
  unfold validateCodeVerifier. destruct (Str.is_empty v); [discriminate | reflexivity].
Qed.

(** A valid verifier has between 43 and 128 unreserved characters. *)
Lemma valid_verifier_shape (v : string) :
  valid (validateCodeVerifier v) = true ->
  43 <= Str.length v <= 128 /\ forallb unreserved (Str.chars v) = true.
Proof.
  unfold validateCodeVerifier, validChars.
  destruct (Str.is_empty v); [discriminate|]. cbn [negb andb].
  destruct (forallb unreserved (Str.chars v)); cbn [negb];
    destruct (Str.length v <? 43) eqn:E1; try discriminate;
    destruct (Str.length v >? 128) eqn:E2; try discriminate.
  intros _. split; [lia | reflexivity].
Qed.

(** C6: for every valid verifier [v] (43 to 128 unreserved characters) and
    each method [m] among S256 and plain, the challenge derived from [v]
    with [m] exists and [verifyCodeChallenge v challenge m] is true. *)
Theorem verify_of_derived_challenge (v m : string) :
  valid (validateCodeVerifier v) = true ->
  m = "S256" \/ m = "plain" ->
  exists challenge,
    generateCodeChallenge v m = Ok challenge
    /\ verifyCodeChallenge v challenge m = true.
Proof.
  intros Hv Hm. apply valid_verifier_nonempty in Hv.
  destruct Hm as [-> | ->].
  - assert (Hg : generateCodeChallenge v "S256" = Ok (generateCodeChallengeS256 v)).
    { unfold generateCodeChallenge. rewrite Hv. reflexivity. }
    exists (generateCodeChallengeS256 v). split; [exact Hg|].
    unfold verifyCodeChallenge.
    rewrite Hg, Hv, S256_challenge_nonempty. cbn [orb].
    apply eqb_refl_true.
  - assert (Hg : generateCodeChallenge v "plain" = Ok v).
    { unfold generateCodeChallenge, generateCodeChallengePlain.
      rewrite Hv. reflexivity. }
    exists v. split; [exact Hg|].
    unfold verifyCodeChallenge.
    rewrite Hg, Hv. cbn [orb].
    apply eqb_refl_true.
Qed.

Lemma verify_of_derived_challenge_witness :
  exists challenge,
    generateCodeChallenge "dBjftJeZ4CVP-mB92K27uhbUJU1p1r_wW1gFWFOEjXk" "S256"
    = Ok challenge
    /\ verifyCodeChallenge "dBjftJeZ4CVP-mB92K27uhbUJU1p1r_wW1gFWFOEjXk"
         challenge "S256" = true.
Proof.
  apply (verify_of_derived_challenge
           "dBjftJeZ4CVP-mB92K27uhbUJU1p1r_wW1gFWFOEjXk" "S256").
  - vm_compute. reflexivity.
  - left. reflexivity.
Defined.

End PKCE_properties.

Section Verifier_properties.

Import PKCEHelper.

Lemma charset_length : Str.length charset = 66.
Proof. vm_compute. reflexivity. Qed.

Lemma char_at_charset (k : Z) :
  0 <= k < 66 ->
  exists c, Str.char_at charset k = Some c /\ unreserved c = true.
Proof.
  intros Hk. unfold Str.char_at.
  destruct (k <? 0) eqn:E; [lia|].
  rewrite <- (of_chars_chars charset), get_of_chars.
  assert (Hall : forallb unreserved (Str.chars charset) = true)
    by (vm_compute; reflexivity).
  assert (Hn : (Z.to_nat k < List.length (Str.chars charset))%nat).
  { change (List.length (Str.chars charset)) with 66%nat. lia. }
  destruct (nth_error (Str.chars charset) (Z.to_nat k)) as [c|] eqn:Hc.
  - exists c. split; [reflexivity|].
    rewrite forallb_forall in Hall. apply Hall.
    eapply nth_error_In; eassumption.
  - apply nth_error_None in Hc. lia.
Qed.

Lemma verifier_loop_spec (pick : nat -> Z) :
  (forall j, 0 <= pick j < 66) ->
  forall (n i : nat) (acc : string),
  exists l,
    List.length l = n
    /\ verifier_loop pick n i acc = acc +:+ Str.of_chars l
    /\ (forall k, (k < n)%nat ->
                  nth_error l k = Str.char_at charset (pick (i + k)%nat))
    /\ forallb unreserved l = true.
Proof.
  intros Hpick. induction n as [|n IH]; intros i acc.
  - exists []. repeat split.
    + cbn. now rewrite append_empty_r.
    + intros k Hk. lia.
  - destruct (char_at_charset (pick i) (Hpick i)) as (c & Hc & Hu).
    destruct (IH (S i) (acc +:+ String c EmptyString)) as (l & Hlen & Hloop & Hnth & Hall).
    exists (c :: l). repeat split.
    + cbn. now rewrite Hlen.
    + cbn [verifier_loop]. unfold append_charset. rewrite Hc, Hloop.
      rewrite append_assoc. reflexivity.
    + intros [|k] Hk.
      * rewrite Nat.add_0_r. cbn. now rewrite Hc.
      * cbn [nth_error]. rewrite Hnth by lia. f_equal. f_equal. lia.
    + cbn. now rewrite Hu, Hall.
Qed.

Lemma unreserved_shape_valid (s : string) :
  43 <= Str.length s <= 128 ->
  forallb unreserved (Str.chars s) = true ->
  valid (validateCodeVerifier s) = true.
Proof.
  intros Hlen Hall. unfold validateCodeVerifier, validChars.
  destruct s as [|c s]; [change (Str.length EmptyString) with 0 in Hlen; lia|].
  cbn [Str.is_empty negb andb]. rewrite Hall. cbn [negb].
  destruct (Str.length (String c s) <? 43) eqn:E1; [lia|].
  destruct (Str.length (String c s) >? 128) eqn:E2; [lia|].
  destruct (Str.length (String c s) <? 64); reflexivity.
Qed.

(** C7, as amended: [generateCodeVerifier] throws for every length outside
    43..128; for every length inside it returns a string of exactly that
    length whose character at [i] is [charset[byte_i mod 66]], where the
    character set [A-Za-z0-9-._~] has 66 characters (not 64); the result
    passes [validateCodeVerifier]. *)
Theorem generateCodeVerifier_length_and_charset (length : Z) (bytes : nat -> Z) :
  Str.length charset = 66
  /\ (length < 43 \/ 128 < length ->
      forall e, generateCodeVerifier length e
                = Throw "Code verifier length must be between 43 and 128 characters")
  /\ (43 <= length <= 128 ->
      exists s,
        generateCodeVerifier length (WebCrypto bytes) = Ok s
        /\ Str.length s = length
        /\ forallb unreserved (Str.chars s) = true
        /\ valid (validateCodeVerifier s) = true
        /\ forall i, 0 <= i < length ->
             Str.char_at s i
             = Str.char_at charset ((bytes (Z.to_nat i) mod 256) mod 66)).
Proof.
  split; [exact charset_length|]. split.
  - intros Hout e. unfold generateCodeVerifier.
    destruct (length <? 43) eqn:E1; [reflexivity|].
    destruct (length >? 128) eqn:E2; [reflexivity|]. lia.
  - intros Hin. unfold generateCodeVerifier.
    destruct (length <? 43) eqn:E1; [lia|].
    destruct (length >? 128) eqn:E2; [lia|]. cbn [orb].
    rewrite charset_length.
    destruct (verifier_loop_spec (fun i => (bytes i mod 256) mod 66)
                (fun j => Z.mod_pos_bound _ 66 ltac:(lia)) (Z.to_nat length) 0%nat EmptyString)
      as (l & Hlen & Hloop & Hnth & Hall).
    exists (Str.of_chars l).
    assert (HL : Str.length (Str.of_chars l) = length).
    { unfold Str.length. rewrite length_of_chars, Hlen. lia. }
    assert (HU : forallb unreserved (Str.chars (Str.of_chars l)) = true).
    { now rewrite chars_of_chars. }
    repeat split; try assumption.
    + now rewrite Hloop.
    + apply unreserved_shape_valid; [lia | assumption].
    + intros i Hi. unfold Str.char_at at 1.
      destruct (i <? 0) eqn:E; [lia|].
      rewrite get_of_chars, Hnth by lia. reflexivity.
Qed.

Lemma generateCodeVerifier_length_and_charset_witness :
  exists s,
    generateCodeVerifier 43 (WebCrypto (fun i => Z.of_nat i * 7 + 65)) = Ok s
    /\ Str.length s = 43
    /\ forallb unreserved (Str.chars s) = true
    /\ valid (validateCodeVerifier s) = true
    /\ forall i, 0 <= i < 43 ->
         Str.char_at s i
         = Str.char_at charset
             (((fun i => Z.of_nat i * 7 + 65) (Z.to_nat i) mod 256) mod 66).
Proof.
  apply (proj2 (proj2 (generateCodeVerifier_length_and_charset
                         43 (fun i => Z.of_nat i * 7 + 65)))).
  lia.
Defined.

(** C7 as stated fails: the alphabet has 66 characters, not 64, and the
    byte 65 is mapped to [charset[65]] (the tilde), not to [charset[65 mod 64]]. *)
Lemma generateCodeVerifier_alphabet_is_not_64 :
  Str.length charset <> 64
  /\ ~ (forall (length : Z) (bytes : nat -> Z) (i : Z),
          43 <= length <= 128 -> 0 <= i < length ->
          exists s,
            generateCodeVerifier length (WebCrypto bytes) = Ok s
            /\ Str.char_at s i
               = Str.char_at charset ((bytes (Z.to_nat i) mod 256) mod 64)).
Proof.
  split.
  - rewrite charset_length. lia.
  - intros Hclaim.
    destruct (Hclaim 43 (fun _ => 65) 0 ltac:(lia) ltac:(lia)) as (s & Hs & Hc).
    vm_compute in Hs. injection Hs as <-.
    vm_compute in Hc. discriminate Hc.
Qed.

End Verifier_properties.

(** ** Claim validation *)

Section JWT_properties.

Import JWTUtils.
Context `{Platform}.

Lemma in_push_if (c : bool) (x y : string) (l : list string) :
  In x (push_if c y l) <-> In x l \/ (c = true /\ x = y).
Proof.
  unfold push_if. destruct c.
  - rewrite in_app_iff. cbn. intuition congruence.
  - intuition congruence.
Qed.

Lemma nonempty_length (x : string) (l : list string) :
  In x l -> Nat.eqb (List.length l) 0 = false.
Proof. destruct l; [intros [] | reflexivity]. Qed.

Lemma first_char_differs (a b : ascii) (p q u : string) :
  a <> b -> String a p <> String b q +:+ u.
Proof.
  intros Hab Heq. change (String b q +:+ u) with (String b (q +:+ u)) in Heq.
  injection Heq. intros _ E. exact (Hab E).
Qed.

(** A token that parses to an object is a non-empty string of three
    dot-separated parts. *)
Lemma parseJWT_object_inv (s : string) (props : list (string * value)) :
  parseJWT (VStr s) = VObj props ->
  Str.is_empty s = false /\ List.length (Str.split_on "."%char s) = 3%nat.
Proof.
  unfold parseJWT. destruct (Str.is_empty s); [discriminate|].
  destruct (Str.split_on "."%char s) as [|a [|b [|c [|d l]]]];
    try discriminate. intros _. split; reflexivity.
Qed.

Lemma validateJWT_of_object (now_ms : Z) (s : string) (props : list (string * value)) :
  parseJWT (VStr s) = VObj props ->
  validateJWT now_ms (VStr s) = check_claims (now_ms / 1000) (VObj props).
Proof.
  intros Hp. destruct (parseJWT_object_inv s props Hp) as [Hne Hlen].
  unfold validateJWT. cbn [JS.truthy]. rewrite Hne, Hlen, Hp. reflexivity.
Qed.

(** C8, as amended: for a token whose payload carries a non-zero numeric
    [exp], the expiry error is reported exactly when [exp <= now], and then
    [valid] is false; the expiring-soon warning is reported exactly when
    [now < exp <= now + 300]; and a non-zero numeric [nbf] with [nbf > now]
    is reported as an error, with [valid] false. *)
Theorem validateJWT_expiry_checks
        (now_ms : Z) (s : string) (props : list (string * value)) (exp : Z) :
  parseJWT (VStr s) = VObj props ->
  JS.lookup "exp" props = VNum exp ->
  exp <> 0 ->
  let now := now_ms / 1000 in
  let r := validateJWT now_ms (VStr s) in
  (In "Token has expired" (errors r) <-> exp <= now)
  /\ (exp <= now -> valid r = false)
  /\ (In "Token expires soon (less than 5 minutes)" (warnings r) <-> now < exp <= now + 300)
  /\ (forall nbf, JS.lookup "nbf" props = VNum nbf -> nbf <> 0 -> nbf > now ->
                  In "Token is not yet valid (nbf claim in future)" (errors r) /\ valid r = false).
Proof.
  intros Hp Hexp Hnz now r. subst r.
  rewrite (validateJWT_of_object now_ms s props Hp). fold now.
  unfold check_claims. cbn [errors warnings valid JS.get].
  rewrite Hexp. cbn [JS.truthy Coerce.to_number Num.le].
  replace (negb (exp =? 0)) with true by (symmetry; apply negb_true_iff; lia).
  cbn [andb].
  assert (Hexpired : In "Token has expired"
            (push_if (exp <=? now) "Token has expired"
               (push_if (negb (Nat.eqb (List.length (missingClaims (VObj props))) 0))
                  ("Missing required claims: "
                   +:+ Str.join ", " (missingClaims (VObj props))) []))
          <-> exp <= now).
  { rewrite !in_push_if. cbn [In]. split.
    - intros [[[] | [_ E]] | [E _]].
      + exfalso.
        (eapply first_char_differs; [|exact E]); discriminate.
      + lia.
    - intros Hle. right. split; [lia | reflexivity]. }
  split; [|split; [|split]].
  - split.
    + intros Hin. apply Hexpired. apply in_push_if in Hin.
      destruct Hin as [Hin | [_ E]]; [exact Hin | discriminate E].
    + intros Hle. apply in_push_if. left. now apply Hexpired.
  - intros Hle. eapply nonempty_length. apply in_push_if. left.
    apply Hexpired. exact Hle.
  - rewrite !in_push_if. cbn [In]. split.
    + intros Hin.
      destruct Hin as [[[[[[] | [Hc _]] | [_ E]] | [_ E]] | [_ E]] | [_ E]];
        try discriminate E.
      apply andb_true_iff in Hc. destruct Hc as [Hc1 Hc2].
      apply negb_true_iff in Hc1. lia.
    + intros [Hlo Hhi]. do 4 left. right. split; [|reflexivity].
      apply andb_true_iff. split; [apply negb_true_iff|]; lia.
  - intros nbf Hnbf Hnbfnz Hgt. rewrite Hnbf.
    cbn [JS.truthy Coerce.to_number Num.gt].
    assert (Hin : In "Token is not yet valid (nbf claim in future)"
              (push_if (negb (nbf =? 0) && (nbf >? now))
                 "Token is not yet valid (nbf claim in future)"
                 (push_if (exp <=? now) "Token has expired"
                    (push_if
                       (negb (Nat.eqb (List.length (missingClaims (VObj props))) 0))
                       ("Missing required claims: "
                        +:+ Str.join ", " (missingClaims (VObj props))) [])))).
    { apply in_push_if. right. split; [|reflexivity].
      apply andb_true_iff. split; [apply negb_true_iff|]; lia. }
    split; [exact Hin | exact (nonempty_length _ _ Hin)].
Qed.

End JWT_properties.

Section JWT_examples.

Import JWTUtils Fixtures.

Lemma validateJWT_expiry_checks_witness :
  let now := now_ms / 1000 in
  let r := validateJWT now_ms (VStr jwt_soon) in
  (In "Token has expired" (errors r) <-> 1700000100 <= now)
  /\ (1700000100 <= now -> valid r = false)
  /\ (In "Token expires soon (less than 5 minutes)" (warnings r)
      <-> now < 1700000100 <= now + 300)
  /\ (forall nbf, JS.lookup "nbf" payload_soon = VNum nbf -> nbf <> 0 -> nbf > now ->
                  In "Token is not yet valid (nbf claim in future)" (errors r)
                  /\ valid r = false).
Proof.
  apply (validateJWT_expiry_checks now_ms jwt_soon payload_soon 1700000100).
  - vm_compute. reflexivity.
  - reflexivity.
  - lia.
Defined.

(** The spec's own examples: one second past expiry is an error, one
    hundred seconds before it a warning. *)
Example validateJWT_spec_examples :
  valid (validateJWT now_ms token_expired) = false
  /\ errors (validateJWT now_ms token_expired) = ["Token has expired"]
  /\ valid (validateJWT now_ms token_soon) = true
  /\ warnings (validateJWT now_ms token_soon)
     = ["Token expires soon (less than 5 minutes)"]
  /\ validateJWT now_ms token_valid
     = mkValidation true [] [] (parseJWT token_valid)
  /\ errors (validateJWT now_ms token_not_before)
     = ["Token is not yet valid (nbf claim in future)"].
Proof. vm_compute. repeat split; reflexivity. Qed.

(** C8 as stated fails, whether its error is read as the expiry error or
    as [valid = false]: a payload with [exp = 0] has [exp <= now] and gets
    no expiry error; a payload with [exp] an hour ahead but no [iss] claim
    gets [valid = false] although [exp > now]. *)
Lemma validateJWT_expiry_not_exact :
  (let r := validateJWT now_ms token_exp_zero in
   JS.get (claims r) "exp" = VNum 0
   /\ 0 <= now_ms / 1000
   /\ ~ In "Token has expired" (errors r))
  /\ (let r := validateJWT now_ms token_no_iss in
      JS.get (claims r) "exp" = VNum 1700003600
      /\ ~ 1700003600 <= now_ms / 1000
      /\ valid r = false
      /\ errors r = ["Missing required claims: iss"]).
Proof.
  split.
  - cbv zeta. split; [vm_compute; reflexivity|]. split; [vm_compute; discriminate|].
    assert (E : errors (validateJWT now_ms token_exp_zero)
                = ["Missing required claims: exp"; "Token has no expiration claim"])
      by (vm_compute; reflexivity).
    rewrite E. intros [D | [D | []]]; discriminate D.
  - cbv zeta. split; [vm_compute; reflexivity|]. split; [vm_compute; tauto|].
    split; vm_compute; reflexivity.
Qed.

End JWT_examples.

Section Required_claims.

Import JWTUtils.
Context `{Platform}.

Lemma missingClaims_spec (claim : string) (props : list (string * value)) :
  In claim (missingClaims (VObj props))
  <-> In claim requiredClaims /\ JS.truthy (JS.lookup claim props) = false.
Proof.
  unfold missingClaims. rewrite filter_In, negb_true_iff. reflexivity.
Qed.

(** C10: presence of a required claim is tested by truthiness.  When a
    token parses to an object in which a required claim ([iss], [sub],
    [aud], [iat], [exp]) has a falsy value, such as 0 or the empty string,
    the claim is listed in the error about missing required claims and the
    token is invalid; when the claim is [exp], the token is reported as
    having no expiration claim and not as expired. *)
Theorem falsy_required_claim_is_reported_missing
        (now_ms : Z) (s : string) (props : list (string * value)) (claim : string) :
  parseJWT (VStr s) = VObj props ->
  In claim requiredClaims ->
  JS.truthy (JS.lookup claim props) = false ->
  let r := validateJWT now_ms (VStr s) in
  In claim (missingClaims (VObj props))
  /\ In ("Missing required claims: " +:+ Str.join ", " (missingClaims (VObj props)))
        (errors r)
  /\ valid r = false
  /\ (claim = "exp" ->
      In "Token has no expiration claim" (errors r)
      /\ ~ In "Token has expired" (errors r)).
Proof.
  intros Hp Hreq Hfalsy r. subst r.
  rewrite (validateJWT_of_object now_ms s props Hp).
  assert (Hmiss : In claim (missingClaims (VObj props))).
  { apply missingClaims_spec. split; assumption. }
  assert (Hlen : negb (Nat.eqb (List.length (missingClaims (VObj props))) 0) = true).
  { apply negb_true_iff. destruct (missingClaims (VObj props)); [destruct Hmiss | reflexivity]. }
  unfold check_claims. cbn [errors valid JS.get]. rewrite Hlen.
  set (msg := "Missing required claims: " +:+ Str.join ", " (missingClaims (VObj props))).
  assert (Hmsg : forall c1 x1 c2 x2,
             In msg (push_if c1 x1 (push_if c2 x2 (push_if true msg [])))).
  { intros. rewrite !in_push_if. do 2 left. right. split; reflexivity. }
  split; [exact Hmiss|]. split; [|split].
  - destruct (JS.truthy (JS.lookup "exp" props)); apply Hmsg.
  - eapply nonempty_length.
    destruct (JS.truthy (JS.lookup "exp" props)); apply Hmsg.
  - intros ->. rewrite Hfalsy. split.
    + rewrite !in_push_if. left. right. split; reflexivity.
    + rewrite !in_push_if. cbn [In].
      intros [[[[] | [_ E]] | [_ E]] | [_ E]]; discriminate E.
Qed.

End Required_claims.

Section Required_claims_examples.

Import JWTUtils Fixtures.

Lemma falsy_required_claim_is_reported_missing_witness :
  let r := validateJWT now_ms (VStr jwt_exp_zero) in
  In "exp" (missingClaims (VObj payload_exp_zero))
  /\ In ("Missing required claims: "
         +:+ Str.join ", " (missingClaims (VObj payload_exp_zero))) (errors r)
  /\ valid r = false
  /\ ("exp" = "exp" ->
      In "Token has no expiration claim" (errors r)
      /\ ~ In "Token has expired" (errors r)).
Proof.
  apply (falsy_required_claim_is_reported_missing now_ms jwt_exp_zero payload_exp_zero "exp").
  - vm_compute. reflexivity.
  - vm_compute. tauto.
  - reflexivity.
Defined.

(** The number 0 and the empty string as claim values. *)
Example falsy_claims_evaluated :
  errors (validateJWT now_ms token_exp_zero)
  = ["Missing required claims: exp"; "Token has no expiration claim"]
  /\ JS.get (claims (validateJWT now_ms token_exp_zero)) "exp" = VNum 0
  /\ errors (validateJWT now_ms token_empty_sub) = ["Missing required claims: sub"]
  /\ JS.get (claims (validateJWT now_ms token_empty_sub)) "sub" = VStr EmptyString.
Proof. vm_compute. repeat split; reflexivity. Qed.

End Required_claims_examples.

(** ** Token store *)

Section Store_properties.

Import TokenManager.
Context `{Platform}.

Lemma with_this_this (f : t -> t) (e : env) : this (with_this f e) = f (this e).
Proof. reflexivity. Qed.

Lemma set_refreshTimer_id (tm : t) : set_refreshTimer (refreshTimer tm) tm = tm.
Proof. destruct tm; reflexivity. Qed.

Lemma clearRefreshTimer_this (e : env) :
  this (clearRefreshTimer e) = set_refreshTimer None (this e).
Proof.
  unfold clearRefreshTimer. destruct (refreshTimer (this e)) eqn:E.
  - reflexivity.
  - rewrite <- E. symmetry. apply set_refreshTimer_id.
Qed.

(** Scheduling changes nothing of the instance but its timer handle. *)
Lemma scheduleRefreshCheck_this (now_ms : Z) (e : env) :
  exists h, this (scheduleRefreshCheck now_ms e) = set_refreshTimer h (this e).
Proof.
  unfold scheduleRefreshCheck.
  pose proof (clearRefreshTimer_this e) as Hc.
  destruct (negb (JS.truthy (accessToken (this (clearRefreshTimer e))))); [eauto|].
  destruct (getTokenExpirationInfo now_ms (this (clearRefreshTimer e))) as [info|]; [|eauto].
  destruct (isExpired info); [eauto|].
  exists (Some (timer_seq (clearRefreshTimer e))).
  unfold setTimeout_refresh. cbn [this]. rewrite Hc. reflexivity.
Qed.

Lemma saveToStorage_tokens (tm : t) :
  accessToken (saveToStorage tm) = accessToken tm
  /\ refreshToken (saveToStorage tm) = refreshToken tm
  /\ sessionData (saveToStorage tm) = sessionData tm
  /\ user (saveToStorage tm) = user tm.
Proof.
  unfold saveToStorage, save_if, storage_set.
  destruct (JS.truthy (accessToken tm)); cbn;
    destruct (JS.truthy (refreshToken tm)); cbn;
    destruct (JS.truthy (sessionData tm)); cbn;
    destruct (JS.truthy (user tm)); cbn; auto.
Qed.

(** What [saveToStorage] leaves under each of the four keys: the stored
    form of a truthy field, the previous entry for a falsy one. *)
Lemma saveToStorage_entries (tm : t) :
  storage (saveToStorage tm) !! "accessToken"
  = (if JS.truthy (accessToken tm) then Some (Coerce.to_string (accessToken tm))
     else storage tm !! "accessToken")
  /\ storage (saveToStorage tm) !! "refreshToken"
     = (if JS.truthy (refreshToken tm) then Some (Coerce.to_string (refreshToken tm))
        else storage tm !! "refreshToken")
  /\ storage (saveToStorage tm) !! "sessionData"
     = (if JS.truthy (sessionData tm) then Some (JSON_stringify (sessionData tm))
        else storage tm !! "sessionData")
  /\ storage (saveToStorage tm) !! "userData"
     = (if JS.truthy (user tm) then Some (JSON_stringify (user tm))
        else storage tm !! "userData").
Proof.
  unfold saveToStorage, save_if, storage_set.
  destruct (JS.truthy (accessToken tm)); cbn;
    destruct (JS.truthy (refreshToken tm)); cbn;
    destruct (JS.truthy (sessionData tm)); cbn;
    destruct (JS.truthy (user tm)); cbn;
    repeat split; simplify_map_eq; reflexivity.
Qed.

(** C5, as amended: [setTokens(access, refresh, metadata, user)] replaces
    all four in-memory fields by the given values; in durable storage it
    writes each truthy field under its key and leaves the entry of a falsy
    (absent) field as it was. *)
Theorem setTokens_replaces_fields_and_saves_truthy_ones
        (now_ms : Z) (access refresh metadata usr : value) (e : env) :
  let tm' := this (setTokens now_ms access refresh metadata usr e) in
  accessToken tm' = access
  /\ refreshToken tm' = refresh
  /\ sessionData tm' = metadata
  /\ user tm' = usr
  /\ storage tm' !! "accessToken"
     = (if JS.truthy access then Some (Coerce.to_string access)
        else storage (this e) !! "accessToken")
  /\ storage tm' !! "refreshToken"
     = (if JS.truthy refresh then Some (Coerce.to_string refresh)
        else storage (this e) !! "refreshToken")
  /\ storage tm' !! "sessionData"
     = (if JS.truthy metadata then Some (JSON_stringify metadata)
        else storage (this e) !! "sessionData")
  /\ storage tm' !! "userData"
     = (if JS.truthy usr then Some (JSON_stringify usr)
        else storage (this e) !! "userData").
Proof.
  intros tm'. subst tm'. unfold setTokens.
  set (e2 := with_this saveToStorage
               (with_this (set_tokens access refresh metadata usr) e)).
  destruct (scheduleRefreshCheck_this now_ms e2) as [h Hh].
  change (this (updateUI (scheduleRefreshCheck now_ms e2)))
    with (this (scheduleRefreshCheck now_ms e2)).
  rewrite Hh. subst e2. rewrite !with_this_this.
  cbn [set_refreshTimer accessToken refreshToken sessionData user storage].
  destruct (saveToStorage_tokens (set_tokens access refresh metadata usr (this e)))
    as (Ha & Hr & Hs & Hu).
  destruct (saveToStorage_entries (set_tokens access refresh metadata usr (this e)))
    as (Ea & Er & Es & Eu).
  rewrite Ha, Hr, Hs, Hu, Ea, Er, Es, Eu.
  repeat split.
Qed.

End Store_properties.

Section Store_examples.

Import TokenManager Fixtures.

(** The spec's scenario A. *)
Example setTokens_scenario_A :
  let e := setTokens now_ms token_valid (VStr "R1") session customer fresh in
  isAuthenticated (this e) = true
  /\ option_map expiresAt (getTokenExpirationInfo now_ms (this e))
     = Some (Some 1700003600000)
  /\ storage (this e) !! "refreshToken" = Some "R1"
  /\ storage (this e) !! "sessionData" = Some (JSON_stringify session).
Proof. vm_compute. repeat split; reflexivity. Qed.

(** C5 as stated fails: after a session with refresh token R0 and session
    metadata, [setTokens(token, null, null, user)] leaves the old refresh
    token and the old metadata in durable storage, and a reload of the page
    reads them back. *)
Lemma setTokens_leaves_stale_entries :
  let e := setTokens now_ms token_soon VNull VNull customer logged_in in
  refreshToken (this e) = VNull
  /\ sessionData (this e) = VNull
  /\ storage (this e) !! "refreshToken" = Some "R0"
  /\ storage (this e) !! "sessionData" = Some (JSON_stringify session)
  /\ (let reloaded := fst (loadTokensFromStorage (constructed (storage (this e)))) in
      refreshToken reloaded = VStr "R0" /\ sessionData reloaded = session).
Proof. vm_compute. repeat split; reflexivity. Qed.

End Store_examples.

(** ** Refresh coordinator *)

Section Refresh_properties.

Import TokenManager.
Context `{Platform}.

Lemma clearTokens_this (e : env) :
  this (clearTokens e)
  = set_refreshTimer None
      (clearFromStorage (set_tokens VNull VNull VNull VNull (this e))).
Proof.
  unfold clearTokens.
  change (this (updateUI ?x)) with (this x).
  rewrite clearRefreshTimer_this. reflexivity.
Qed.

(** After [clearTokens] nothing of the session is left, in memory or in
    storage, and no refresh timer is set. *)
Lemma clearTokens_clears (e : env) :
  let tm := this (clearTokens e) in
  accessToken tm = VNull /\ refreshToken tm = VNull
  /\ sessionData tm = VNull /\ user tm = VNull
  /\ storage tm !! "accessToken" = None /\ storage tm !! "refreshToken" = None
  /\ storage tm !! "sessionData" = None /\ storage tm !! "userData" = None
  /\ refreshTimer tm = None
  /\ isAuthenticated tm = false.
Proof.
  cbv zeta. rewrite clearTokens_this.
  unfold clearFromStorage, storage_remove. cbn.
  repeat split; simplify_map_eq; reflexivity.
Qed.

Lemma performTokenRefresh_finish_error
      (now_ms : Z) (o : fetch_outcome) (e : env) (err : js_error) :
  fst (performTokenRefresh_finish now_ms o e) = inl err ->
  performTokenRefresh_finish now_ms o e = (inl err, clearTokens e).
Proof.
  unfold performTokenRefresh_finish.
  destruct (refresh_try now_ms o e) as [err' | [r e']]; cbn; congruence.
Qed.

Lemma stamp_session_ok (now_ms : Z) (s : value) :
  (exists s', stamp_session now_ms s = inr s')
  <-> JS.truthy s && JS.is_primitive s = false.
Proof.
  unfold stamp_session.
  destruct s as [| |b|n|str|ms|items|props]; cbn [JS.truthy JS.is_primitive negb];
    try (split; [reflexivity | eauto]).
  - destruct b; cbn [negb andb]; split; eauto; try discriminate.
    intros [s' Hs]. discriminate Hs.
  - destruct (n =? 0); cbn [negb andb]; split; eauto; try discriminate.
    intros [s' Hs]. discriminate Hs.
  - destruct (Str.is_empty str); cbn [negb andb]; split; eauto; try discriminate.
    intros [s' Hs]. discriminate Hs.
Qed.

(** [performTokenRefresh], called directly, succeeds exactly on a 2xx
    answer whose JSON body has a truthy [success] and [access_token] (and
    with a session that can take the [refreshedAt] stamp); every other
    answer is an error thrown to the caller, and with every error the store
    has been cleared: access token, refresh token, session and user are
    [null] in memory and absent from storage.  The [finally] block of
    [refreshToken] passes the outcome on unchanged. *)
Lemma performTokenRefresh_fails_exactly_and_clears
      (now_ms : Z) (o : fetch_outcome) (e : env) :
  let res := performTokenRefresh_finish now_ms o e in
  ((exists r, fst res = inr r)
   <-> exists status data,
         o = Response status (Some data) /\ ok status = true
         /\ JS.truthy (JS.get data "success") = true
         /\ JS.truthy (JS.get data "access_token") = true
         /\ JS.truthy (sessionData (this e)) && JS.is_primitive (sessionData (this e))
            = false)
  /\ (forall err, o = NetworkFailure err -> fst res = inl err)
  /\ (forall status body, o = Response status body -> ok status = false ->
        fst res = inl (Error ("Refresh failed: " +:+ Str.of_Z status)))
  /\ (forall status data,
         o = Response status (Some data) -> ok status = true ->
         JS.is_nullish data = false ->
         JS.truthy (JS.get data "success") && JS.truthy (JS.get data "access_token")
         = false ->
         fst res = inl (Error (if JS.truthy (JS.get data "error")
                               then Coerce.to_string (JS.get data "error")
                               else "Refresh failed")))
  /\ (forall err, fst res = inl err ->
        snd res = clearTokens e
        /\ let tm := this (snd res) in
           accessToken tm = VNull /\ refreshToken tm = VNull
           /\ sessionData tm = VNull /\ user tm = VNull
           /\ storage tm !! "accessToken" = None /\ storage tm !! "refreshToken" = None
           /\ storage tm !! "sessionData" = None /\ storage tm !! "userData" = None
           /\ refreshTimer tm = None
           /\ isAuthenticated tm = false)
  /\ fst (refreshToken_settle now_ms o e) = fst res.
Proof.
  cbv zeta. split; [|split; [|split; [|split; [|split]]]].
  - unfold performTokenRefresh_finish, refresh_try. split.
    + intros [r Hr].
      destruct o as [err | status body]; [discriminate Hr|].
      destruct (ok status) eqn:Eok; cbn [negb] in Hr; [|discriminate Hr].
      destruct body as [data|]; [|discriminate Hr].
      destruct (JS.is_nullish data); [discriminate Hr|].
      destruct (JS.truthy (JS.get data "success")) eqn:Es;
        [|discriminate Hr].
      destruct (JS.truthy (JS.get data "access_token")) eqn:Ea;
        [|discriminate Hr].
      cbn [andb] in Hr.
      exists status, data. repeat split; try assumption.
      apply (stamp_session_ok now_ms).
      destruct (stamp_session now_ms (sessionData (this e))) as [err | s'];
        [discriminate Hr | eauto].
    + intros (status & data & -> & Hok & Hs & Ha & Hstamp).
      rewrite Hok, Hs, Ha. cbn [negb andb].
      assert (Hn : JS.is_nullish data = false)
        by (destruct data; cbn in Hs; try discriminate Hs; reflexivity).
      rewrite Hn.
      destruct (proj2 (stamp_session_ok now_ms (sessionData (this e))) Hstamp)
        as [s' ->].
      cbv zeta. cbn [fst]. eauto.
  - intros err ->. reflexivity.
  - intros status body -> Hok.
    unfold performTokenRefresh_finish, refresh_try. rewrite Hok. reflexivity.
  - intros status data -> Hok Hn Hno.
    unfold performTokenRefresh_finish, refresh_try.
    rewrite Hok, Hn, Hno. reflexivity.
  - intros err Herr.
    rewrite (performTokenRefresh_finish_error now_ms o e err Herr).
    cbn [snd]. split; [reflexivity | apply clearTokens_clears].
  - unfold refreshToken_settle.
    destruct (performTokenRefresh_finish now_ms o e). reflexivity.
Qed.

Lemma refreshTimer_saveToStorage (tm : t) :
  refreshTimer (saveToStorage tm) = refreshTimer tm
  /\ refreshBuffer (saveToStorage tm) = refreshBuffer tm.
Proof.
  unfold saveToStorage, save_if, storage_set.
  destruct (JS.truthy (accessToken tm)); cbn;
    destruct (JS.truthy (refreshToken tm)); cbn;
    destruct (JS.truthy (sessionData tm)); cbn;
    destruct (JS.truthy (user tm)); cbn; auto.
Qed.

Lemma time_clip_in_range (ms : Z) :
  - Num.max_time <= ms <= Num.max_time -> Num.time_clip (Some ms) = Some ms.
Proof.
  intros Hr. unfold Num.time_clip.
  replace ((- Num.max_time <=? ms) && (ms <=? Num.max_time)) with true;
    [reflexivity|].
  symmetry. apply andb_true_intro. split; apply Z.leb_le; lia.
Qed.

Lemma getTokenExpirationInfo_of_claims
      (now_ms : Z) (tm : t) (props : list (string * value)) (exp : Z) :
  JWTUtils.parseJWT (accessToken tm) = VObj props ->
  JS.lookup "exp" props = VNum exp ->
  exp <> 0 ->
  getTokenExpirationInfo now_ms tm
  = Some (mkExpiration
            (Num.time_clip (Some (exp * 1000)))
            (Num.time_clip
               (Num.mul (Coerce.to_number (JS.lookup "iat" props)) (Some 1000)))
            (Some (exp - now_ms / 1000))
            (Num.sub (Some (now_ms / 1000)) (Coerce.to_number (JS.lookup "iat" props)))
            (exp - now_ms / 1000 <=? 0)).
Proof.
  intros Hp Hexp Hnz. unfold getTokenExpirationInfo.
  assert (Ht : JS.truthy (accessToken tm) = true).
  { destruct (accessToken tm) as [| | | |s| | |]; try discriminate Hp.
    destruct (parseJWT_object_inv s props Hp) as [Hne _].
    cbn. now rewrite Hne. }
  rewrite Ht, Hp. cbn [negb orb JS.truthy JS.get]. rewrite Hexp.
  cbn [JS.truthy Coerce.to_number].
  replace (negb (exp =? 0)) with true by (symmetry; apply negb_true_iff; lia).
  reflexivity.
Qed.

(** What [scheduleRefreshCheck] sees right after [setTokens] has stored the
    new values: the new access token, the old buffer, and the timers that
    are left once the previous refresh timer is cancelled. *)
Lemma setTokens_before_scheduling
      (access refresh metadata usr : value) (e : env) :
  let e2 := with_this saveToStorage
              (with_this (set_tokens access refresh metadata usr) e) in
  accessToken (this (clearRefreshTimer e2)) = access
  /\ refreshBuffer (this (clearRefreshTimer e2)) = refreshBuffer (this e)
  /\ refreshTimer (this (clearRefreshTimer e2)) = None
  /\ timers (clearRefreshTimer e2) = timers (clearRefreshTimer e)
  /\ timer_seq (clearRefreshTimer e2) = timer_seq e.
Proof.
  cbv zeta.
  destruct (saveToStorage_tokens (set_tokens access refresh metadata usr (this e)))
    as (Ha & _).
  destruct (refreshTimer_saveToStorage (set_tokens access refresh metadata usr (this e)))
    as (Ht & Hb).
  rewrite !clearRefreshTimer_this, !with_this_this.
  split; [exact Ha|]. split; [exact Hb|]. split; [reflexivity|].
  unfold clearRefreshTimer. rewrite !with_this_this, Ht.
  cbn [set_tokens refreshTimer].
  destruct (refreshTimer (this e)); split; reflexivity.
Qed.

Lemma parsed_token_is_truthy (access : value) (props : list (string * value)) :
  JWTUtils.parseJWT access = VObj props -> JS.truthy access = true.
Proof.
  intros Hp. destruct access as [| | | |s| | |]; try discriminate Hp.
  destruct (parseJWT_object_inv s props Hp) as [Hne _].
  cbn. now rewrite Hne.
Qed.

(** C4, as amended.  When the access token given to [setTokens] decodes to
    claims with a non-zero numeric [exp] later than the current second and
    within the range of dates ([exp * 1000] is a time value, at most
    8.64e15 ms), one refresh timer is scheduled, with delay
    [max(1000 ms, expiresAt - now - refreshBuffer)], where [refreshBuffer]
    is 5 minutes on a constructed instance; so when [refreshAt = expiresAt -
    refreshBuffer] is already past, the delay is the minimum of 1000 ms.
    When [exp] is not later than the current second, when the token does
    not decode, or when there is no token, no timer is scheduled. *)
Theorem setTokens_schedules_refresh
        (now_ms : Z) (access refresh metadata usr : value) (e : env) :
  let e' := setTokens now_ms access refresh metadata usr e in
  let unscheduled :=
    refreshTimer (this e') = None /\ timers e' = timers (clearRefreshTimer e) in
  (forall props exp,
      JWTUtils.parseJWT access = VObj props ->
      JS.lookup "exp" props = VNum exp ->
      exp <> 0 ->
      let delay := Z.max 1000 (exp * 1000 - now_ms - refreshBuffer (this e)) in
      (now_ms / 1000 < exp ->
       - Num.max_time <= exp * 1000 <= Num.max_time ->
       refreshTimer (this e') = Some (timer_seq e)
       /\ timers e'
          = (timers (clearRefreshTimer e) ++ [(timer_seq e, Some delay)])%list
       /\ (exp * 1000 - refreshBuffer (this e) <= now_ms -> delay = 1000))
      /\ (exp <= now_ms / 1000 -> unscheduled))
  /\ (JS.truthy access = false \/ JWTUtils.parseJWT access = VNull -> unscheduled)
  /\ (forall store, refreshBuffer (constructed store) = 5 * 60 * 1000).
Proof.
  intros e' unscheduled. subst e' unscheduled. unfold setTokens.
  destruct (setTokens_before_scheduling access refresh metadata usr e)
    as (Hacc & Hbuf & Hnone & Htm & Hseq).
  set (e2 := with_this saveToStorage
               (with_this (set_tokens access refresh metadata usr) e)) in *.
  change (this (updateUI ?x)) with (this x).
  change (timers (updateUI ?x)) with (timers x).
  unfold scheduleRefreshCheck. rewrite Hacc.
  split; [|split; [|reflexivity]].
  - intros props exp Hp Hexp Hnz.
    assert (Hinfo := getTokenExpirationInfo_of_claims now_ms
                       (this (clearRefreshTimer e2)) props exp).
    rewrite Hacc in Hinfo. specialize (Hinfo Hp Hexp Hnz).
    rewrite (parsed_token_is_truthy access props Hp), Hinfo.
    cbn [negb isExpired expiresAt]. split.
    + intros Hfuture Hrange.
      replace (exp - now_ms / 1000 <=? 0) with false by (symmetry; apply Z.leb_gt; lia).
      rewrite (time_clip_in_range _ Hrange).
      unfold setTimeout_refresh. cbn [this timers refreshTimer set_refreshTimer].
      rewrite Hbuf, Htm, Hseq. cbn [Num.max Num.sub Num.lift2].
      repeat split. intros Hpast. lia.
    + intros Hpast.
      replace (exp - now_ms / 1000 <=? 0) with true by (symmetry; apply Z.leb_le; lia).
      split; assumption.
  - intros [Hfalsy | Hnull].
    + rewrite Hfalsy. cbn [negb]. split; assumption.
    + destruct (JS.truthy access) eqn:Ht; cbn [negb]; [|split; assumption].
      unfold getTokenExpirationInfo. rewrite Hacc, Ht, Hnull. cbn.
      split; assumption.
Qed.

End Refresh_properties.

Section Refresh_examples.

Import TokenManager Fixtures.

(** An unreachable endpoint, and an answer without [success]. *)
Example failed_refresh_other_causes :
  performTokenRefresh_finish now_ms (NetworkFailure (TypeError "Failed to fetch")) logged_in
  = (inl (TypeError "Failed to fetch"), clearTokens logged_in)
  /\ performTokenRefresh_finish now_ms
       (Response 200 (Some (VObj [("success", VBool false); ("error", VStr "revoked")])))
       logged_in
     = (inl (Error "revoked"), clearTokens logged_in)
  /\ storage (this (clearTokens logged_in)) = ∅
  /\ timers (clearTokens logged_in) = [].
Proof. vm_compute. repeat split; reflexivity. Qed.

(** A refresh that succeeds replaces both tokens, stamps the session and
    schedules the next refresh (here 55 minutes later). *)
Example successful_refresh :
  let answer := Response 200 (Some (VObj [("success", VBool true);
                                          ("access_token", token_valid);
                                          ("refresh_token", VStr "R2")])) in
  let e := setTokens now_ms token_ten_seconds (VStr "R1") session customer fresh in
  let e' := snd (performTokenRefresh_finish now_ms answer e) in
  accessToken (this e') = token_valid
  /\ refreshToken (this e') = VStr "R2"
  /\ sessionData (this e')
     = VObj [("id", VStr "s1"); ("refreshedAt", VStr "2023-11-14T22:13:20.000Z")]
  /\ storage (this e') !! "refreshToken" = Some "R2"
  /\ timers e' = [(2%nat, Some 3300000)].
Proof. vm_compute. repeat split; reflexivity. Qed.

Lemma setTokens_schedules_refresh_witness :
  let e' := setTokens now_ms token_ten_seconds (VStr "R1") session customer fresh in
  let delay := Z.max 1000 (1700000010 * 1000 - now_ms - refreshBuffer (this fresh)) in
  refreshTimer (this e') = Some (timer_seq fresh)
  /\ timers e' = (timers (clearRefreshTimer fresh) ++ [(timer_seq fresh, Some delay)])%list
  /\ (1700000010 * 1000 - refreshBuffer (this fresh) <= now_ms -> delay = 1000).
Proof.
  refine (proj1 (proj1 (setTokens_schedules_refresh now_ms token_ten_seconds
                          (VStr "R1") session customer fresh)
                   payload_ten_seconds 1700000010 _ _ _) _ _).
  - vm_compute. reflexivity.
  - reflexivity.
  - lia.
  - vm_compute. reflexivity.
  - split; apply Z.leb_le; vm_compute; reflexivity.
Defined.

(** C4 as stated fails.  With a token that expires in 10 seconds and the
    5-minute buffer, [refreshAt] is past, yet the timer is set to 1000 ms
    and not to fire at once; and [setTokens] with a token that does not
    decode (the A1 of the spec's scenario A) or that has expired schedules
    no timer at all. *)
Lemma setTokens_refresh_not_immediate_nor_always_scheduled :
  (1700000010 * 1000 - 5 * 60 * 1000 < now_ms
   /\ timers (setTokens now_ms token_ten_seconds (VStr "R1") session customer fresh)
      = [(1%nat, Some 1000)])
  /\ (timers (setTokens now_ms (VStr "A1") (VStr "R1") session customer fresh) = []
      /\ refreshTimer (this (setTokens now_ms (VStr "A1") (VStr "R1") session customer fresh))
         = None)
  /\ timers (setTokens now_ms token_expired (VStr "R1") session customer fresh) = [].
Proof. vm_compute. repeat split; reflexivity. Qed.

End Refresh_examples.

(** ** The shadowed method *)

Section Shadowing.

Import TokenManager.
Context `{Platform}.

(** The constructor's own property [refreshToken] is found before the
    prototype method of the same name. *)
Lemma refreshToken_is_own_data (tm : t) :
  get_property tm "refreshToken" = OwnData (refreshToken tm).
Proof. reflexivity. Qed.

Lemma call_refreshToken_throws (e : env) :
  call_refreshToken e = (Failed not_a_function, e).
Proof. reflexivity. Qed.

Lemma forceRefresh_eq (e : env) :
  forceRefresh e
  = (Done false,
     showNotification ("Token refresh failed: " +:+ message not_a_function) "error" e).
Proof. reflexivity. Qed.

(** C9: in every state, the call [this.refreshToken()] finds the instance
    field, which is not callable, and throws a TypeError; [forceRefresh]
    catches it and returns false, having issued no request and changed no
    token; [autoRefresh] either skips or rejects with that TypeError. *)
Theorem forceRefresh_always_returns_false (now_ms : Z) (e : env) :
  get_property (this e) "refreshToken" = OwnData (refreshToken (this e))
  /\ call_refreshToken e = (Failed not_a_function, e)
  /\ fst (forceRefresh e) = Done false
  /\ fetches (snd (forceRefresh e)) = fetches e
  /\ this (snd (forceRefresh e)) = this e
  /\ (autoRefresh now_ms e = (Skipped, e)
      \/ autoRefresh now_ms e = (AutoRejected not_a_function, e)).
Proof.
  repeat split.
  unfold autoRefresh.
  destruct (isRefreshing (this e) || negb (needsRefresh now_ms (this e)));
    [left | right]; reflexivity.
Qed.

(** C1, on the code: two simultaneous [forceRefresh()] calls, in any state
    (idle, or with a refresh recorded as in flight), both resolve to false
    at once; no request is issued and neither caller is handed the promise
    of a refresh in flight. *)
Theorem simultaneous_forceRefresh_issues_no_request (e : env) :
  let first := forceRefresh e in
  let second := forceRefresh (snd first) in
  fst first = Done false
  /\ fst second = Done false
  /\ fetches (snd second) = fetches e
  /\ this (snd second) = this e.
Proof. repeat split. Qed.

(** The body of the prototype method, which no call reaches, does coalesce:
    entered during a refresh it hands out the stored promise and issues no
    request; entered when idle with a refresh token it issues one request,
    and a second entry joins it. *)
Lemma refreshToken_method_is_single_flight (e : env) :
  (isRefreshing (this e) = true ->
   refreshToken_method e = (Joined (refreshPromise (this e)), e))
  /\ (isRefreshing (this e) = false -> JS.truthy (refreshToken (this e)) = true ->
      exists p e1,
        refreshToken_method e = (Started p, e1)
        /\ fetches e1 = (fetches e ++ [refresh_call (this e)])%list
        /\ refreshToken_method e1 = (Joined (Some p), e1)).
Proof.
  split.
  - intros Hr. unfold refreshToken_method. now rewrite Hr.
  - intros Hr Ht. unfold refreshToken_method. rewrite Hr, Ht. cbn [negb].
    eexists _, _. split; [reflexivity|]. split; reflexivity.
Qed.

End Shadowing.

Section Shadowing_examples.

Import TokenManager Fixtures.

(** Two simultaneous [forceRefresh()] calls after login (coordinator idle):
    both resolve to false, nothing is requested. *)
Example two_forceRefresh_calls_after_login :
  let first := forceRefresh logged_in in
  let second := forceRefresh (snd first) in
  fst first = Done false /\ fst second = Done false
  /\ fetches (snd second) = []
  /\ refreshToken (this (snd second)) = VStr "R0".
Proof. vm_compute. repeat split; reflexivity. Qed.

(** The same with a refresh in flight, a state only the unreachable method
    body produces: the callers are not handed its promise. *)
Example two_forceRefresh_calls_during_refresh :
  let in_flight := snd (refreshToken_method logged_in) in
  let first := forceRefresh in_flight in
  let second := forceRefresh (snd first) in
  isRefreshing (this in_flight) = true
  /\ refreshPromise (this in_flight) = Some 1%nat
  /\ fst first = Done false /\ fst second = Done false
  /\ fetches (snd second) = fetches in_flight.
Proof. vm_compute. repeat split; reflexivity. Qed.

(** Scenario B of the spec, on the code: the timer of a token that expires
    in 10 seconds fires after one second, [autoRefresh] finds the token in
    need of refresh and rejects; nothing is requested. *)
Example timer_fires_without_refresh :
  let e := setTokens now_ms token_ten_seconds (VStr "R1") session customer fresh in
  let fired := fire_timer (now_ms + 1000) 1 e in
  needsRefresh (now_ms + 1000) (this e) = true
  /\ fst fired = AutoRejected not_a_function
  /\ fetches (snd fired) = []
  /\ accessToken (this (snd fired)) = token_ten_seconds.
Proof. vm_compute. repeat split; reflexivity. Qed.

End Shadowing_examples.

(** ** Authenticated request client *)

Section Request_properties.

Import TokenManager API.
Context `{Platform}.

Lemma log_fetch_length (c : fetch_call) (e : env) :
  List.length (fetches (log_fetch c e)) = S (List.length (fetches e)).
Proof. cbn. rewrite length_app. cbn. lia. Qed.

(** A call of [request] is never the call of [performTokenRefresh]: the
    one goes to the API base URL, the other to a relative path. *)
Lemma request_call_is_not_refresh_call
      (endpoint : string) (o : options) (e : env) (tm : t) :
  request_call endpoint o e <> refresh_call tm.
Proof.
  intros Heq. apply (f_equal url) in Heq.
  unfold request_call, refresh_call, API_BASE_URL in Heq. cbn [url] in Heq.
  symmetry in Heq. revert Heq. apply first_char_differs. discriminate.
Qed.

(** One 401 on a non-authentication endpoint with both tokens present:
    [forceRefresh] resolves to false, and the request is issued again. *)
Lemma request_unauthorized_step
      (endpoint : string) (o : options) (rest : list fetch_outcome) (e : env) :
  Str.starts_with "/auth/" endpoint = false ->
  JS.truthy (accessToken (this e)) = true ->
  JS.truthy (refreshToken (this e)) = true ->
  request endpoint o (unauthorized :: rest) e
  = match request endpoint o rest
            (snd (forceRefresh (log_fetch (request_call endpoint o e) e))) with
    | (Returned data, e2) => (Returned data, e2)
    | (Pending, e2) => (Pending, e2)
    | (Thrown _, e2) =>
        let (_, e3) := handleAuthenticationFailure (VObj []) e2 in
        (Thrown (outer_catch (Error "Authentication required")), e3)
    end.
Proof.
  intros Hep Ha Hr. unfold unauthorized. cbn [request].
  change (401 =? 401) with true. cbv iota.
  rewrite Hep. unfold getToken, getAccessToken, getRefreshToken.
  change (this (log_fetch ?c ?x)) with (this x).
  rewrite Ha, Hr. cbn [negb andb].
  rewrite forceRefresh_eq. reflexivity.
Qed.

(** C2, on the code: for a non-authentication endpoint, with an access and
    a refresh token in the store, [request] answers every 401 by a
    [forceRefresh] that does nothing and by one more attempt.  After [n]
    answers 401 it has issued [n + 1] requests, all to the endpoint itself
    (none to the refresh endpoint), the tokens are as before, and the call
    is still awaiting: no 401 is terminal. *)
Theorem request_retries_after_every_401
        (n : nat) (endpoint : string) (o : options) (e : env) :
  Str.starts_with "/auth/" endpoint = false ->
  JS.truthy (accessToken (this e)) = true ->
  JS.truthy (refreshToken (this e)) = true ->
  let res := request endpoint o (repeat unauthorized n) e in
  fst res = Pending
  /\ List.length (fetches (snd res)) = (List.length (fetches e) + n + 1)%nat
  /\ this (snd res) = this e
  /\ (forall c, In c (fetches (snd res)) ->
                In c (fetches e) \/ c = request_call endpoint o e).
Proof.
  intros Hep Ha Hr res. subst res. revert e Ha Hr.
  induction n as [|n IH]; intros e Ha Hr.
  - cbn. repeat split.
    + rewrite length_app. cbn. lia.
    + intros c Hc. apply in_app_iff in Hc. cbn in Hc. intuition congruence.
  - cbn [repeat].
    rewrite (request_unauthorized_step endpoint o (repeat unauthorized n) e Hep Ha Hr).
    rewrite forceRefresh_eq. cbn [snd].
    set (e1 := showNotification _ _ _).
    assert (Hthis : this e1 = this e) by reflexivity.
    assert (Hcall : request_call endpoint o e1 = request_call endpoint o e) by reflexivity.
    assert (Hf : fetches e1 = (fetches e ++ [request_call endpoint o e])%list)
      by reflexivity.
    specialize (IH e1). rewrite Hthis in IH. specialize (IH Ha Hr).
    destruct IH as (Hp & Hlen & Ht & Hin).
    destruct (request endpoint o (repeat unauthorized n) e1) as [res e2].
    cbn [fst snd] in *. subst res. cbn [fst snd].
    repeat split.
    + rewrite Hlen, Hf, length_app. cbn. lia.
    + exact Ht.
    + intros c Hc. destruct (Hin c Hc) as [Hold | Hnew].
      * rewrite Hf in Hold. apply in_app_iff in Hold. cbn in Hold.
        intuition congruence.
      * right. congruence.
Qed.

End Request_properties.

Section Request_examples.

Import TokenManager API Fixtures.

Lemma request_retries_after_every_401_witness :
  let res := request "/customer/profile" (mkOptions None None)
               (repeat unauthorized 3) logged_in in
  fst res = Pending
  /\ List.length (fetches (snd res)) = (List.length (fetches logged_in) + 3 + 1)%nat
  /\ this (snd res) = this logged_in
  /\ (forall c, In c (fetches (snd res)) ->
                In c (fetches logged_in)
                \/ c = request_call "/customer/profile" (mkOptions None None) logged_in).
Proof.
  apply (request_retries_after_every_401 3 "/customer/profile"
           (mkOptions None None) logged_in); reflexivity.
Defined.

(** Scenario C of the spec, on the code: 401, 401, then 200.  The code makes
    a third attempt and returns its data; it has sent the same bearer token
    three times, called the refresh endpoint never, and cleared nothing. *)
Example request_makes_a_third_attempt :
  let res := request "/customer/profile" (mkOptions None None)
               [unauthorized; unauthorized; Response 200 (Some profile_data)]
               logged_in in
  fst res = Returned profile_data
  /\ fetches (snd res)
     = repeat (request_call "/customer/profile" (mkOptions None None) logged_in) 3
  /\ this (snd res) = this logged_in
  /\ notifications (snd res)
     = repeat ("Token refresh failed: this.refreshToken is not a function", "error") 2.
Proof. vm_compute. repeat split; reflexivity. Qed.

(** The one terminal 401 of the code: a request without a refresh token in
    the store clears the session and throws. *)
Example request_401_without_refresh_token :
  let e := setTokens now_ms token_valid VNull session customer fresh in
  let res := request "/customer/profile" (mkOptions None None) [unauthorized] e in
  fst res = Thrown (Error "Authentication failed")
  /\ accessToken (this (snd res)) = VNull
  /\ List.length (fetches (snd res)) = 1%nat.
Proof. vm_compute. repeat split; reflexivity. Qed.

End Request_examples.

(** * Further properties of the modelled code *)

(** ** Base64: what is encoded decodes to itself *)

Section Base64_roundtrip.

Import Base64Facts.

Lemma in_range (n : nat) (x : Z) : 0 <= x < Z.of_nat n -> In x (range n).
Proof.
  intros Hx. unfold range. apply in_map_iff. exists (Z.to_nat x). split.
  - apply Z2Nat.id. lia.
  - apply in_seq. lia.
Qed.

Lemma below_spec (n v : Z) : below n v = true <-> 0 <= v < n.
Proof. unfold below. rewrite andb_true_iff, Z.leb_le, Z.ltb_lt. reflexivity. Qed.

Lemma byte_facts (a : Z) : is_byte a -> byte_ok a = true.
Proof.
  intros Ha.
  assert (Hall : all_bytes_ok = true) by (vm_compute; reflexivity).
  unfold all_bytes_ok in Hall. rewrite forallb_forall in Hall.
  apply Hall. apply (in_range 256). exact Ha.
Qed.

Lemma join_facts_4_16 (p q : Z) :
  0 <= p < 4 -> 0 <= q < 16 -> join_ok 4 16 4 p q = true.
Proof.
  intros Hp Hq.
  assert (Hall : all_joins_ok = true) by (vm_compute; reflexivity).
  unfold all_joins_ok in Hall. apply andb_true_iff in Hall. destruct Hall as [Hall _].
  rewrite forallb_forall in Hall. specialize (Hall p (in_range 4 p Hp)).
  rewrite forallb_forall in Hall. exact (Hall q (in_range 16 q Hq)).
Qed.

Lemma join_facts_16_4 (p q : Z) :
  0 <= p < 16 -> 0 <= q < 4 -> join_ok 2 4 16 p q = true.
Proof.
  intros Hp Hq.
  assert (Hall : all_joins_ok = true) by (vm_compute; reflexivity).
  unfold all_joins_ok in Hall. apply andb_true_iff in Hall. destruct Hall as [_ Hall].
  rewrite forallb_forall in Hall. specialize (Hall p (in_range 16 p Hp)).
  rewrite forallb_forall in Hall. exact (Hall q (in_range 4 q Hq)).
Qed.

Lemma digit_facts (v : Z) : is_sextet v = true -> digit_ok v = true.
Proof.
  intros Hv.
  assert (Hall : all_digits_ok = true) by (vm_compute; reflexivity).
  unfold all_digits_ok in Hall. rewrite forallb_forall in Hall.
  apply Hall. unfold sextet_values. apply in_map_iff. exists (Z.to_nat v).
  unfold is_sextet in Hv. apply andb_true_iff in Hv. destruct Hv as [H0 H1].
  split; [apply Z2Nat.id; lia | apply in_seq; lia].
Qed.

Lemma triple_ind (P : list Z -> Prop) :
  P [] -> (forall a, P [a]) -> (forall a b, P [a; b]) ->
  (forall a b c l, P l -> P (a :: b :: c :: l)) ->
  forall l, P l.
Proof.
  intros H0 H1 H2 H3 l.
  assert (Hall : P l /\ (forall a, P (a :: l)) /\ (forall a b, P (a :: b :: l))).
  { induction l as [|x l (IH0 & IH1 & IH2)].
    - repeat split; auto.
    - repeat split; auto. }
  exact (proj1 Hall).
Qed.

(** [Base64.encode] writes the digits of [sextets_of] and then pads to a
    multiple of four characters. *)
Lemma encode_shape (l : list Z) :
  exists (k q : nat),
    Base64.encode l
    = (map Base64.digit (sextets_of l) ++ repeat "="%char k)%list
    /\ (k <= 2)%nat
    /\ (List.length (sextets_of l) + k = 4 * q)%nat
    /\ (k = 0%nat \/ sextets_of l <> []).
Proof.
  induction l as [| a | a b | a b c l IH] using triple_ind.
  - exists 0%nat, 0%nat. repeat split; auto.
  - exists 2%nat, 1%nat. repeat split; auto; right; discriminate.
  - exists 1%nat, 1%nat. repeat split; auto; right; discriminate.
  - destruct IH as (k & q & He & Hk & Hlen & Hne).
    exists k, (S q). cbn [Base64.encode sextets_of map List.length app].
    rewrite He. repeat split; auto; try lia; right; discriminate.
Qed.

(** What [byte_ok] and [join_ok] say, as propositions. *)
Lemma andb_elim (x y : bool) : x && y = true -> x = true /\ y = true.
Proof. apply andb_true_iff. Qed.

Lemma first_digit_pair (a b : Z) :
  is_byte a -> is_byte b ->
  let y := Z.lor (Z.shiftl (Z.land a 3) 4) (Z.shiftr b 4) in
  is_sextet (Z.shiftr a 2) = true /\ is_sextet y = true
  /\ Z.lor (Z.shiftl (Z.shiftr a 2) 2) (Z.shiftr y 4) = a
  /\ Z.land y 15 = Z.shiftr b 4.
Proof.
  intros Ha Hb y.
  pose proof (byte_facts a Ha) as Fa. pose proof (byte_facts b Hb) as Fb.
  unfold byte_ok in Fa, Fb.
  repeat (apply andb_elim in Fa; destruct Fa as [Fa ?]).
  repeat (apply andb_elim in Fb; destruct Fb as [Fb ?]).
  repeat match goal with
         | Hx : below _ _ = true |- _ => apply below_spec in Hx
         | Hx : (_ =? _) = true |- _ => apply Z.eqb_eq in Hx
         end.
  assert (J : join_ok 4 16 4 (Z.land a 3) (Z.shiftr b 4) = true)
    by (apply join_facts_4_16; assumption).
  unfold join_ok in J.
  repeat (apply andb_elim in J; destruct J as [J ?]).
  repeat match goal with
         | Hx : (_ =? _) = true |- _ => apply Z.eqb_eq in Hx
         end.
  change (16 - 1) with 15 in *.
  subst y. repeat split;
    first [assumption | congruence
          | unfold is_sextet; apply andb_true_intro; split; assumption].
Qed.

Lemma second_digit_pair (b c : Z) :
  is_byte b -> is_byte c ->
  let z := Z.lor (Z.shiftl (Z.land b 15) 2) (Z.shiftr c 6) in
  is_sextet z = true /\ is_sextet (Z.land c 63) = true
  /\ Z.shiftr z 2 = Z.land b 15
  /\ Z.lor (Z.shiftl (Z.shiftr b 4) 4) (Z.land b 15) = b
  /\ Z.lor (Z.shiftl (Z.land z 3) 6) (Z.land c 63) = c.
Proof.
  intros Hb Hc z.
  pose proof (byte_facts b Hb) as Fb. pose proof (byte_facts c Hc) as Fc.
  unfold byte_ok in Fb, Fc.
  repeat (apply andb_elim in Fb; destruct Fb as [Fb ?]).
  repeat (apply andb_elim in Fc; destruct Fc as [Fc ?]).
  repeat match goal with
         | Hx : below _ _ = true |- _ => apply below_spec in Hx
         | Hx : (_ =? _) = true |- _ => apply Z.eqb_eq in Hx
         end.
  assert (J : join_ok 2 4 16 (Z.land b 15) (Z.shiftr c 6) = true)
    by (apply join_facts_16_4; assumption).
  unfold join_ok in J.
  repeat (apply andb_elim in J; destruct J as [J ?]).
  repeat match goal with
         | Hx : (_ =? _) = true |- _ => apply Z.eqb_eq in Hx
         end.
  change (4 - 1) with 3 in *.
  subst z. repeat split;
    first [assumption | congruence
          | unfold is_sextet; apply andb_true_intro; split; assumption].
Qed.

Lemma last_digits (a : Z) :
  is_byte a ->
  is_sextet (Z.shiftr a 2) = true
  /\ is_sextet (Z.shiftl (Z.land a 3) 4) = true
  /\ is_sextet (Z.shiftl (Z.land a 15) 2) = true
  /\ Z.lor (Z.shiftl (Z.shiftr a 2) 2) (Z.shiftr (Z.shiftl (Z.land a 3) 4) 4) = a
  /\ Z.shiftr (Z.shiftl (Z.land a 15) 2) 2 = Z.land a 15
  /\ Z.lor (Z.shiftl (Z.shiftr a 4) 4) (Z.land a 15) = a.
Proof.
  intros Ha.
  pose proof (byte_facts a Ha) as Fa. unfold byte_ok in Fa.
  repeat (apply andb_elim in Fa; destruct Fa as [Fa ?]).
  repeat match goal with
         | Hx : (_ =? _) = true |- _ => apply Z.eqb_eq in Hx
         end.
  repeat split;
    first [assumption | congruence
          | unfold is_sextet; apply andb_true_intro; split; assumption].
Qed.

Lemma sextets_of_range (l : list Z) :
  Forall is_byte l -> Forall (fun v => is_sextet v = true) (sextets_of l).
Proof.
  induction l as [| a | a b | a b c l IH] using triple_ind; intros Hl.
  - constructor.
  - inversion Hl as [|? ? Ha _]; subst.
    destruct (last_digits a Ha) as (? & ? & _).
    repeat constructor; assumption.
  - inversion Hl as [|? ? Ha Hl1]; subst. inversion Hl1 as [|? ? Hb _]; subst.
    destruct (first_digit_pair a b Ha Hb) as (? & ? & _).
    destruct (last_digits b Hb) as (_ & _ & ? & _).
    repeat constructor; assumption.
  - inversion Hl as [|? ? Ha Hl1]; subst. inversion Hl1 as [|? ? Hb Hl2]; subst.
    inversion Hl2 as [|? ? Hc Hl3]; subst.
    destruct (first_digit_pair a b Ha Hb) as (? & ? & _).
    destruct (second_digit_pair b c Hb Hc) as (? & ? & _).
    cbn [sextets_of]. repeat constructor; auto.
Qed.

Lemma decode_sextets_of (l : list Z) :
  Forall is_byte l -> Base64.decode (sextets_of l) = l.
Proof.
  induction l as [| a | a b | a b c l IH] using triple_ind; intros Hl.
  - reflexivity.
  - inversion Hl as [|? ? Ha _]; subst.
    destruct (last_digits a Ha) as (_ & _ & _ & E & _).
    cbn [sextets_of Base64.decode]. rewrite E. reflexivity.
  - inversion Hl as [|? ? Ha Hl1]; subst. inversion Hl1 as [|? ? Hb _]; subst.
    destruct (first_digit_pair a b Ha Hb) as (_ & _ & E1 & E2).
    destruct (last_digits b Hb) as (_ & _ & _ & _ & E3 & E4).
    cbn [sextets_of Base64.decode]. rewrite E1, E2, E3, E4. reflexivity.
  - inversion Hl as [|? ? Ha Hl1]; subst. inversion Hl1 as [|? ? Hb Hl2]; subst.
    inversion Hl2 as [|? ? Hc Hl3]; subst.
    destruct (first_digit_pair a b Ha Hb) as (_ & _ & E1 & E2).
    destruct (second_digit_pair b c Hb Hc) as (_ & _ & E3 & E4 & E5).
    cbn [sextets_of Base64.decode]. rewrite E1, E2, E3, E4, E5, (IH Hl3).
    reflexivity.
Qed.

Lemma digit_props (v : Z) :
  is_sextet v = true ->
  Base64.value_of (Base64.digit v) = Some v
  /\ Base64.is_space (Base64.digit v) = false
  /\ Ascii.eqb (Base64.digit v) "="%char = false
  /\ Ascii.eqb (to_url (Base64.digit v)) "="%char = false
  /\ Ascii.eqb (to_url (Base64.digit v)) "."%char = false
  /\ from_url (to_url (Base64.digit v)) = Base64.digit v
  /\ PKCEHelper.unreserved (to_url (Base64.digit v)) = true
  /\ base64url_char (to_url (Base64.digit v)) = true.
Proof.
  intros Hv. pose proof (digit_facts v Hv) as F. unfold digit_ok in F.
  cbv zeta in F.
  repeat (apply andb_elim in F; destruct F as [F ?]).
  repeat match goal with
         | Hx : negb _ = true |- _ => apply negb_true_iff in Hx
         | Hx : Ascii.eqb _ _ = true |- _ => apply Ascii.eqb_eq in Hx
         end.
  repeat split; try assumption.
  destruct (Base64.value_of (Base64.digit v)) as [w|]; [|discriminate].
  cbn in F. apply Z.eqb_eq in F. congruence.
Qed.

Lemma sextets_of_digits (vs : list Z) :
  Forall (fun v => is_sextet v = true) vs ->
  Base64.sextets (map Base64.digit vs) = Some vs.
Proof.
  induction 1 as [|v vs Hv _ IH]; [reflexivity|].
  cbn [map Base64.sextets].
  destruct (digit_props v Hv) as (-> & _). rewrite IH. reflexivity.
Qed.

(** Characters of a string are bytes, and the byte of a character gives it
    back. *)
Lemma code_is_byte (c : ascii) : is_byte (Str.code c).
Proof.
  unfold is_byte, Str.code. pose proof (N_ascii_bounded c). lia.
Qed.

Lemma of_code_code (c : ascii) : Str.of_code (Str.code c) = c.
Proof.
  unfold Str.of_code, Str.code. rewrite N2Z.id. apply ascii_N_embedding.
Qed.

Lemma code_of_code (x : Z) : is_byte x -> Str.code (Str.of_code x) = x.
Proof.
  unfold is_byte, Str.of_code, Str.code. intros Hx.
  rewrite N_ascii_embedding by lia. lia.
Qed.

Lemma map_of_code_code (l : list ascii) : map Str.of_code (map Str.code l) = l.
Proof.
  induction l as [|c l IH]; [reflexivity|].
  cbn [map]. rewrite of_code_code, IH. reflexivity.
Qed.

Lemma map_code_of_code (l : list Z) :
  Forall is_byte l -> map Str.code (map Str.of_code l) = l.
Proof.
  induction 1 as [|x l Hx _ IH]; [reflexivity|].
  cbn [map]. rewrite code_of_code, IH by assumption. reflexivity.
Qed.

Lemma codes_are_bytes (l : list ascii) : Forall is_byte (map Str.code l).
Proof. induction l; constructor; auto using code_is_byte. Qed.

(** Padding: [strip_padding] removes what [encode] appended. *)
Lemma strip_unpadded (l : list ascii) :
  Forall (fun c => Ascii.eqb c "="%char = false) l ->
  match rev l with
  | "="%char :: "="%char :: r => rev r
  | "="%char :: r => rev r
  | _ => l
  end = l.
Proof.
  intros Hl.
  assert (Hr : Forall (fun c => Ascii.eqb c "="%char = false) (rev l))
    by (apply List.Forall_rev; exact Hl).
  destruct (rev l) as [|c r]; [reflexivity|].
  inversion Hr as [|? ? Hc _]; subst.
  destruct c as [[] [] [] [] [] [] [] []]; try reflexivity; discriminate Hc.
Qed.

Lemma strip_one_pad (l : list ascii) :
  Forall (fun c => Ascii.eqb c "="%char = false) l ->
  match rev (l ++ ["="%char]) with
  | "="%char :: "="%char :: r => rev r
  | "="%char :: r => rev r
  | _ => (l ++ ["="%char])%list
  end = l.
Proof.
  intros Hl.
  assert (Hr : Forall (fun c => Ascii.eqb c "="%char = false) (rev l))
    by (apply List.Forall_rev; exact Hl).
  rewrite rev_app_distr. cbn [rev app].
  rewrite <- (rev_involutive l) at 2.
  destruct (rev l) as [|c r]; [reflexivity|].
  inversion Hr as [|? ? Hc _]; subst.
  destruct c as [[] [] [] [] [] [] [] []]; try reflexivity; discriminate Hc.
Qed.

Lemma strip_padding_encoded (body : list ascii) (k q : nat) :
  Forall (fun c => Ascii.eqb c "="%char = false) body ->
  (k <= 2)%nat -> (List.length body + k = 4 * q)%nat ->
  Base64.strip_padding (body ++ repeat "="%char k)%list = body.
Proof.
  intros Hb Hk Hlen. unfold Base64.strip_padding.
  destruct k as [|[|[|k]]]; [| | |lia].
  - cbn [repeat]. rewrite app_nil_r, (strip_unpadded body Hb).
    destruct (_ && _); reflexivity.
  - cbn [repeat].
    assert (Hn : List.length (body ++ ["="%char]) = (4 * q)%nat)
      by (rewrite length_app; cbn [List.length]; lia).
    rewrite Hn, (strip_one_pad body Hb).
    replace (Z.of_nat (4 * q)) with (Z.of_nat q * 4) by lia.
    rewrite Z_mod_mult.
    destruct q; [lia|]. reflexivity.
  - cbn [repeat].
    assert (Hn : List.length (body ++ ["="%char; "="%char]) = (4 * q)%nat)
      by (rewrite length_app; cbn [List.length]; lia).
    rewrite Hn.
    replace (Z.of_nat (4 * q)) with (Z.of_nat q * 4) by lia.
    rewrite Z_mod_mult.
    destruct q; [lia|]. cbn [Z.eqb Nat.eqb Nat.mul Nat.add negb andb].
    rewrite rev_app_distr. cbn [rev app]. apply rev_involutive.
Qed.

Lemma filter_all {A : Type} (f : A -> bool) (l : list A) :
  Forall (fun x => f x = true) l -> List.filter f l = l.
Proof.
  induction 1 as [|x l Hx _ IH]; [reflexivity|].
  cbn [List.filter]. rewrite Hx, IH. reflexivity.
Qed.

Lemma filter_none {A : Type} (f : A -> bool) (l : list A) :
  Forall (fun x => f x = false) l -> List.filter f l = [].
Proof.
  induction 1 as [|x l Hx _ IH]; [reflexivity|].
  cbn [List.filter]. rewrite Hx, IH. reflexivity.
Qed.

Lemma pads_are_pads (k : nat) :
  Forall (fun c => negb (Ascii.eqb c "="%char) = false) (repeat "="%char k).
Proof. induction k; constructor; auto. Qed.

Lemma pads_are_not_spaces (k : nat) :
  Forall (fun c => negb (Base64.is_space c) = true) (repeat "="%char k).
Proof. induction k; constructor; auto. Qed.

Lemma digits_facts (vs : list Z) :
  Forall (fun v => is_sextet v = true) vs ->
  Forall (fun c => negb (Base64.is_space c) = true) (map Base64.digit vs)
  /\ Forall (fun c => Ascii.eqb c "="%char = false) (map Base64.digit vs)
  /\ Forall (fun c => negb (Ascii.eqb c "="%char) = true)
            (map to_url (map Base64.digit vs))
  /\ Forall (fun c => PKCEHelper.unreserved c = true)
            (map to_url (map Base64.digit vs))
  /\ Forall (fun c => Ascii.eqb c "."%char = false)
            (map to_url (map Base64.digit vs))
  /\ map from_url (map to_url (map Base64.digit vs)) = map Base64.digit vs
  /\ Forall (fun c => base64url_char c = true)
            (map to_url (map Base64.digit vs)).
Proof.
  induction 1 as [|v vs Hv _ (I1 & I2 & I3 & I4 & I5 & I6 & I7)].
  - repeat split; constructor.
  - destruct (digit_props v Hv) as (_ & P1 & P2 & P3 & P4 & P5 & P6 & P7).
    cbn [map]. repeat split; try constructor; auto.
    + rewrite P1. reflexivity.
    + rewrite P3. reflexivity.
    + rewrite P5, I6. reflexivity.
Qed.

(** [atob] undoes [Base64.encode] on bytes. *)
Lemma atob_encode (l : list Z) :
  Forall is_byte l ->
  Base64.atob (Str.of_chars (Base64.encode l))
  = Some (Str.of_chars (map Str.of_code l)).
Proof.
  intros Hl.
  destruct (encode_shape l) as (k & q & He & Hk & Hlen & _).
  pose proof (sextets_of_range l Hl) as Hs.
  destruct (digits_facts _ Hs) as (F1 & F2 & _).
  unfold Base64.atob. rewrite chars_of_chars, He.
  rewrite filter_all
    by (apply Forall_app; split; [exact F1 | apply pads_are_not_spaces]).
  rewrite (strip_padding_encoded _ k q F2 Hk)
    by (rewrite length_map; exact Hlen).
  rewrite sextets_of_digits by assumption.
  rewrite decode_sextets_of by assumption.
  rewrite length_map.
  destruct (Z.of_nat (List.length (sextets_of l)) mod 4 =? 1) eqn:E; [|reflexivity].
  apply Z.eqb_eq in E. exfalso.
  assert (Hz : Z.of_nat (List.length (sextets_of l)) = 4 * Z.of_nat q - Z.of_nat k)
    by lia.
  rewrite Hz in E.
  assert (Hk' : (k = 0 \/ k = 1 \/ k = 2)%nat) by lia.
  destruct Hk' as [-> | [-> | ->]];
    [ replace (4 * Z.of_nat q - Z.of_nat 0) with (Z.of_nat q * 4 + 0) in E by lia
    | replace (4 * Z.of_nat q - Z.of_nat 1) with ((Z.of_nat q - 1) * 4 + 3) in E by lia
    | replace (4 * Z.of_nat q - Z.of_nat 2) with ((Z.of_nat q - 1) * 4 + 2) in E by lia ];
    rewrite Z.add_comm, Z_mod_plus_full in E; discriminate E.
Qed.

(** The URL-safe form: the two substitutions, and the padding removed. *)
Lemma url_form (l : list Z) :
  Forall is_byte l ->
  Str.remove_all "="%char
    (Str.replace_all "/"%char "_"%char
       (Str.replace_all "+"%char "-"%char (Str.of_chars (Base64.encode l))))
  = Str.of_chars (map to_url (map Base64.digit (sextets_of l))).
Proof.
  intros Hl.
  destruct (encode_shape l) as (k & q & He & _).
  pose proof (sextets_of_range l Hl) as Hs.
  destruct (digits_facts _ Hs) as (_ & _ & F3 & _).
  unfold Str.remove_all, Str.replace_all.
  rewrite !chars_of_chars, map_map, He.
  change (fun x : ascii =>
            if Ascii.eqb (if Ascii.eqb x "+"%char then "-"%char else x) "/"%char
            then "_"%char
            else if Ascii.eqb x "+"%char then "-"%char else x)
    with to_url.
  rewrite map_app, List.filter_app.
  rewrite (filter_all _ _ F3).
  rewrite map_repeat. change (to_url "="%char) with "="%char.
  rewrite (filter_none _ _ (pads_are_pads k)), app_nil_r. reflexivity.
Qed.

(** Back from the URL-safe form: the substitutions undone and the padding
    restored gives the base64 text again. *)
Lemma url_form_padded (l : list Z) :
  Forall is_byte l ->
  let base64 :=
    Str.replace_all "_"%char "/"%char
      (Str.replace_all "-"%char "+"%char
         (Str.of_chars (map to_url (map Base64.digit (sextets_of l))))) in
  base64 +:+ Str.of_chars
    (repeat "="%char (Z.to_nat ((4 - Str.length base64 mod 4) mod 4)))
  = Str.of_chars (Base64.encode l).
Proof.
  intros Hl base64.
  destruct (encode_shape l) as (k & q & He & Hk & Hlen & _).
  pose proof (sextets_of_range l Hl) as Hs.
  destruct (digits_facts _ Hs) as (_ & _ & _ & _ & _ & F6 & _).
  assert (Hb : base64 = Str.of_chars (map Base64.digit (sextets_of l))).
  { subst base64. unfold Str.replace_all.
    rewrite !chars_of_chars, map_map.
    change (fun x : ascii =>
              if Ascii.eqb (if Ascii.eqb x "-"%char then "+"%char else x) "_"%char
              then "/"%char
              else if Ascii.eqb x "-"%char then "+"%char else x)
      with from_url.
    rewrite F6. reflexivity. }
  rewrite Hb. unfold Str.length. rewrite length_of_chars, length_map.
  assert (Hpad : (4 - Z.of_nat (List.length (sextets_of l)) mod 4) mod 4
                 = Z.of_nat k).
  { assert (Hz : Z.of_nat (List.length (sextets_of l))
                 = 4 * Z.of_nat q - Z.of_nat k) by lia.
    rewrite Hz. clear Hz Hlen He.
    assert (Hk' : (k = 0 \/ k = 1 \/ k = 2)%nat) by lia.
    destruct Hk' as [-> | [-> | ->]].
    - replace (4 * Z.of_nat q - Z.of_nat 0) with (0 + Z.of_nat q * 4) by lia.
      rewrite Z_mod_plus_full. reflexivity.
    - replace (4 * Z.of_nat q - Z.of_nat 1) with (3 + (Z.of_nat q - 1) * 4) by lia.
      rewrite Z_mod_plus_full. reflexivity.
    - replace (4 * Z.of_nat q - Z.of_nat 2) with (2 + (Z.of_nat q - 1) * 4) by lia.
      rewrite Z_mod_plus_full. reflexivity. }
  rewrite Hpad, Nat2Z.id, <- of_chars_app, He. reflexivity.
Qed.

Lemma sextets_of_length (l : list Z) :
  Z.of_nat (List.length (sextets_of l)) = (4 * Z.of_nat (List.length l) + 2) / 3.
Proof.
  induction l as [| a | a b | a b c l IH] using triple_ind; try reflexivity.
  cbn [sextets_of List.length]. rewrite !Nat2Z.inj_succ, IH.
  replace (4 * Z.succ (Z.succ (Z.succ (Z.of_nat (List.length l)))) + 2)
    with ((4 * Z.of_nat (List.length l) + 2) + 4 * 3) by lia.
  rewrite Z_div_plus_full by lia. lia.
Qed.

End Base64_roundtrip.

Lemma base64Url_round_trip (str : string) :
  JWTUtils.base64UrlDecode (JWTStatus.base64UrlEncode str) = Some str.
Proof.
  unfold JWTUtils.base64UrlDecode, JWTUtils.pad4, JWTStatus.base64UrlEncode,
    Base64.btoa.
  pose proof (codes_are_bytes (Str.chars str)) as Hl.
  rewrite (url_form _ Hl).
  rewrite (url_form_padded _ Hl).
  rewrite (atob_encode _ Hl), map_of_code_code, of_chars_chars. reflexivity.
Qed.

Lemma base64UrlEncode_no_dot (str : string) :
  Forall (fun c => Ascii.eqb c "."%char = false)
         (Str.chars (JWTStatus.base64UrlEncode str)).
Proof.
  unfold JWTStatus.base64UrlEncode, Base64.btoa.
  pose proof (codes_are_bytes (Str.chars str)) as Hl.
  rewrite (url_form _ Hl), chars_of_chars.
  destruct (digits_facts _ (sextets_of_range _ Hl)) as (_ & _ & _ & _ & F5 & _).
  exact F5.
Qed.

(** X1. [JWTUtils.base64UrlDecode] gives back every string that
    [JWTUtils.base64UrlEncode] has encoded: the padding the encoder removes
    is the padding the decoder's loop restores, and the two character
    substitutions undo each other. *)
Theorem jwt_base64Url_decode_encode (str : string) :
  JWTUtils.base64UrlDecode (JWTStatus.base64UrlEncode str) = Some str.
Proof. exact (base64Url_round_trip str). Qed.

(** X2. [PKCEHelper.base64urlDecode] gives back the bytes of every buffer
    that [PKCEHelper.base64urlEncode] has encoded. *)
Theorem pkce_base64url_decode_encode (buffer : list Z) :
  Forall Base64Facts.is_byte buffer ->
  PKCECodec.base64urlDecode (PKCEHelper.base64urlEncode buffer) = Some buffer.
Proof.
  intros Hb.
  unfold PKCECodec.base64urlDecode, PKCEHelper.base64urlEncode,
    PKCEHelper.arrayBufferToBase64, Base64.btoa.
  rewrite chars_of_chars, (map_code_of_code _ Hb).
  rewrite (url_form _ Hb).
  cbv zeta. rewrite (url_form_padded _ Hb).
  rewrite (atob_encode _ Hb), chars_of_chars, (map_code_of_code _ Hb).
  reflexivity.
Qed.

Lemma pkce_base64url_decode_encode_witness :
  Forall Base64Facts.is_byte [0; 255; 62; 63; 251]
  /\ PKCECodec.base64urlDecode (PKCEHelper.base64urlEncode [0; 255; 62; 63; 251])
     = Some [0; 255; 62; 63; 251].
Proof.
  assert (H : Forall Base64Facts.is_byte [0; 255; 62; 63; 251])
    by (repeat constructor; unfold Base64Facts.is_byte; lia).
  split; [exact H | apply (pkce_base64url_decode_encode _ H)].
Defined.

(** ** The shape of what [PKCEHelper.base64urlEncode] produces *)

Section Base64url_shape.

Import Base64Facts PKCEHelper.

Lemma base64urlEncode_chars (buffer : list Z) :
  Forall is_byte buffer ->
  base64urlEncode buffer
  = Str.of_chars (map to_url (map Base64.digit (sextets_of buffer))).
Proof.
  intros Hb. unfold base64urlEncode, arrayBufferToBase64, Base64.btoa.
  rewrite chars_of_chars, (map_code_of_code _ Hb). apply (url_form _ Hb).
Qed.

Lemma be_bytes_length (n : nat) (x : Z) : List.length (SHA256.be_bytes n x) = n.
Proof. induction n as [|n IH]; cbn [SHA256.be_bytes List.length]; congruence. Qed.

Lemma be_bytes_are_bytes (n : nat) (x : Z) : Forall is_byte (SHA256.be_bytes n x).
Proof.
  induction n as [|n IH]; cbn [SHA256.be_bytes]; constructor; [|exact IH].
  unfold is_byte. change 255 with (Z.ones 8). rewrite Z.land_ones by lia.
  pose proof (Z.mod_pos_bound (Z.shiftr x (8 * Z.of_nat n)) (2 ^ 8)). lia.
Qed.

Lemma digest_length (msg : list Z) : List.length (SHA256.digest msg) = 32%nat.
Proof.
  unfold SHA256.digest. cbv zeta.
  rewrite !length_app, !be_bytes_length. reflexivity.
Qed.

Lemma digest_bytes (msg : list Z) : Forall is_byte (SHA256.digest msg).
Proof.
  unfold SHA256.digest. cbv zeta.
  repeat (apply Forall_app; split); apply be_bytes_are_bytes.
Qed.

End Base64url_shape.

(** X3. [PKCEHelper.base64urlEncode] of [n] bytes is a string of
    [ceil(4n/3)] characters, each of the base64url alphabet
    [[A-Za-z0-9\-_]]: no [+], [/] or padding is left. *)
Theorem base64urlEncode_length_and_alphabet (buffer : list Z) :
  Forall Base64Facts.is_byte buffer ->
  Str.length (PKCEHelper.base64urlEncode buffer)
  = (4 * Z.of_nat (List.length buffer) + 2) / 3
  /\ forallb Base64Facts.base64url_char
       (Str.chars (PKCEHelper.base64urlEncode buffer)) = true.
Proof.
  intros Hb. rewrite (base64urlEncode_chars _ Hb).
  destruct (digits_facts _ (sextets_of_range _ Hb))
    as (_ & _ & _ & _ & _ & _ & F7).
  split.
  - unfold Str.length. rewrite length_of_chars, !length_map.
    apply sextets_of_length.
  - rewrite chars_of_chars. apply forallb_forall.
    exact (proj1 (List.Forall_forall _ _) F7).
Qed.

Lemma base64urlEncode_length_and_alphabet_witness :
  Forall Base64Facts.is_byte [251; 255; 190; 7]
  /\ Str.length (PKCEHelper.base64urlEncode [251; 255; 190; 7])
     = (4 * Z.of_nat (List.length [251; 255; 190; 7]) + 2) / 3
  /\ forallb Base64Facts.base64url_char
       (Str.chars (PKCEHelper.base64urlEncode [251; 255; 190; 7])) = true.
Proof.
  assert (H : Forall Base64Facts.is_byte [251; 255; 190; 7])
    by (repeat constructor; unfold Base64Facts.is_byte; lia).
  split; [exact H | apply (base64urlEncode_length_and_alphabet _ H)].
Defined.

(** X4. The S256 challenge of every verifier is 43 characters of the
    base64url alphabet (the unpadded encoding of the 32 bytes of the
    digest). *)
Theorem S256_challenge_is_43_base64url_characters (codeVerifier : string) :
  Str.length (PKCEHelper.generateCodeChallengeS256 codeVerifier) = 43
  /\ forallb Base64Facts.base64url_char
       (Str.chars (PKCEHelper.generateCodeChallengeS256 codeVerifier)) = true.
Proof.
  unfold PKCEHelper.generateCodeChallengeS256.
  generalize (PKCEHelper.encode_utf8 codeVerifier). intros msg.
  pose proof (digest_bytes msg) as Hb. pose proof (digest_length msg) as Hn.
  rewrite (base64urlEncode_chars _ Hb).
  destruct (digits_facts _ (sextets_of_range _ Hb))
    as (_ & _ & _ & _ & _ & _ & F7).
  split.
  - unfold Str.length. rewrite length_of_chars, !length_map.
    rewrite sextets_of_length, Hn. reflexivity.
  - rewrite chars_of_chars. apply forallb_forall.
    exact (proj1 (List.Forall_forall _ _) F7).
Qed.

(** ** PKCE: the verdicts of [validateCodeVerifier] and [verifyCodeChallenge] *)

(** X5. [validateCodeVerifier] accepts exactly the strings of 43 to 128
    unreserved characters; it reports no error exactly when it accepts; and
    it warns exactly for the lengths 43 to 63, whatever the characters. *)
Theorem validateCodeVerifier_verdict (codeVerifier : string) :
  let r := PKCEHelper.validateCodeVerifier codeVerifier in
  (PKCEHelper.valid r = true
   <-> 43 <= Str.length codeVerifier <= 128
       /\ forallb PKCEHelper.unreserved (Str.chars codeVerifier) = true)
  /\ (PKCEHelper.valid r = true <-> PKCEHelper.errors r = [])
  /\ (PKCEHelper.warnings r <> [] <-> 43 <= Str.length codeVerifier < 64).
Proof.
  cbv zeta. split; [|split].
  - split; [apply valid_verifier_shape|].
    intros [Hlen Hall]. apply unreserved_shape_valid; assumption.
  - unfold PKCEHelper.validateCodeVerifier, PKCEHelper.validChars.
    destruct codeVerifier as [|c s]; [cbn; split; discriminate|].
    cbn [Str.is_empty negb andb].
    destruct (forallb PKCEHelper.unreserved (Str.chars (String c s))); cbn [negb];
      destruct (Str.length (String c s) <? 43);
      try (cbn; split; discriminate);
      destruct (Str.length (String c s) >? 128);
      try (cbn; split; discriminate);
      destruct (Str.length (String c s) <? 64); cbn; split;
      try reflexivity; try discriminate.
  - unfold PKCEHelper.validateCodeVerifier, PKCEHelper.validChars.
    destruct codeVerifier as [|c s].
    + change (Str.length EmptyString) with 0. cbn. split; [congruence | lia].
    + cbn [Str.is_empty negb andb].
      assert (Hw : forall (b : bool) (r1 : PKCEHelper.validation) e,
                 PKCEHelper.warnings
                   (if b then PKCEHelper.mkValidation false e (PKCEHelper.warnings r1)
                    else r1)
                 = PKCEHelper.warnings r1) by (intros [] ? ?; reflexivity).
      rewrite Hw.
      destruct (Str.length (String c s) <? 43) eqn:E1;
        [cbn; split; [congruence | lia]|].
      destruct (Str.length (String c s) >? 128) eqn:E2;
        [cbn; split; [congruence | lia]|].
      destruct (Str.length (String c s) <? 64) eqn:E3; cbn; split;
        try congruence; try lia; try discriminate.
Qed.

(** X6. [verifyCodeChallenge] answers true exactly when the verifier is
    not empty and the challenge is the one the method derives from it: the
    S256 challenge for [S256], the verifier itself for [plain]; for every
    other method it answers false. *)
Theorem verifyCodeChallenge_true_iff (codeVerifier codeChallenge method : string) :
  PKCEHelper.verifyCodeChallenge codeVerifier codeChallenge method = true
  <-> Str.is_empty codeVerifier = false
      /\ ((method = "S256"
           /\ codeChallenge = PKCEHelper.generateCodeChallengeS256 codeVerifier)
          \/ (method = "plain" /\ codeChallenge = codeVerifier)).
Proof.
  unfold PKCEHelper.verifyCodeChallenge, PKCEHelper.generateCodeChallenge,
    PKCEHelper.generateCodeChallengePlain, PKCEHelper.includes,
    PKCEHelper.supportedMethods.
  cbn [existsb].
  destruct (Str.is_empty codeVerifier) eqn:Ev.
  - cbn [orb]. split; [discriminate | intros [? _]; discriminate].
  - cbn [orb].
    destruct (String.eqb_spec method "S256") as [-> | Hs].
    + cbn [orb negb].
      destruct (Str.is_empty codeChallenge) eqn:Ec.
      * split; [discriminate|]. intros [_ [[_ ->] | [Hm _]]]; [|discriminate Hm].
        rewrite S256_challenge_nonempty in Ec. discriminate.
      * split.
        -- intros Heq. apply String.eqb_eq in Heq. split; [reflexivity|].
           left. split; [reflexivity | congruence].
        -- intros [_ [[_ ->] | [Hm _]]]; [apply eqb_refl_true | discriminate Hm].
    + destruct (String.eqb_spec method "plain") as [-> | Hp].
      * cbn [orb negb].
        destruct (Str.is_empty codeChallenge) eqn:Ec.
        -- split; [discriminate|]. intros [_ [[Hm _] | [_ ->]]]; [discriminate Hm|].
           congruence.
        -- split.
           ++ intros Heq. apply String.eqb_eq in Heq. split; [reflexivity|].
              right. split; [reflexivity | congruence].
           ++ intros [_ [[Hm _] | [_ ->]]]; [discriminate Hm | apply eqb_refl_true].
      * cbn [orb negb].
        destruct (Str.is_empty codeChallenge);
          (split; [discriminate | intros [_ [[Hm _] | [Hm _]]]; contradiction]).
Qed.

(** ** JWTUtils: durations and the token status *)

Section Status_properties.

Import JWTUtils JWTStatus.
Context `{Platform}.

Lemma duration_parts (s : Z) :
  0 <= s ->
  (s - s mod 60) / 86400 = s / 86400
  /\ ((s - s mod 60) mod 86400) / 3600 = (s mod 86400) / 3600
  /\ ((s - s mod 60) mod 3600) / 60 = (s mod 3600) / 60
  /\ (s - s mod 60) mod 60 = 0.
Proof. intros Hs. repeat split; Z.div_mod_to_equations; lia. Qed.

Lemma duration_some_part (s : Z) :
  60 <= s ->
  0 < s / 86400 \/ 0 < (s mod 86400) / 3600 \/ 0 < (s mod 3600) / 60.
Proof. intros Hs. Z.div_mod_to_equations. lia. Qed.

Lemma push_if_length (c : bool) (x : string) (l : list string) :
  (List.length l <= List.length (push_if c x l))%nat
  /\ (c = true -> (0 < List.length (push_if c x l))%nat).
Proof.
  unfold push_if. destruct c; [rewrite length_app; cbn; lia|].
  split; [lia | discriminate].
Qed.

Lemma claims_of_check_claims (now : Z) (payload : value) :
  claims (check_claims now payload) = payload.
Proof. reflexivity. Qed.

End Status_properties.

(** X7. From one minute on, [formatDuration] leaves the seconds out: a
    duration prints like the whole minutes it contains (61 seconds print
    as one minute). *)
Theorem formatDuration_drops_seconds (seconds : Z) :
  60 <= seconds <= 9007199254740991 ->
  JWTStatus.formatDuration (Some seconds)
  = JWTStatus.formatDuration (Some (seconds - seconds mod 60)).
Proof.
  intros [Hlo _].
  assert (Hs : 0 <= seconds) by lia.
  destruct (duration_parts seconds Hs) as (E1 & E2 & E3 & E4).
  assert (Hs' : 0 <= seconds - seconds mod 60)
    by (Z.div_mod_to_equations; lia).
  unfold JWTStatus.formatDuration.
  replace (seconds <? 0) with false by (symmetry; apply Z.ltb_ge; lia).
  replace (seconds - seconds mod 60 <? 0) with false
    by (symmetry; apply Z.ltb_ge; lia).
  cbv zeta. rewrite E1, E2, E3, E4.
  set (p1 := JWTUtils.push_if (seconds / 86400 >? 0) _ []).
  set (p2 := JWTUtils.push_if (seconds mod 86400 / 3600 >? 0) _ p1).
  set (p3 := JWTUtils.push_if (seconds mod 3600 / 60 >? 0) _ p2).
  assert (Hp3 : Nat.eqb (List.length p3) 0 = false).
  { apply Nat.eqb_neq.
    pose proof (push_if_length (seconds / 86400 >? 0)
                  (Str.of_Z (seconds / 86400) +:+ "d") []) as [L1 N1].
    pose proof (push_if_length (seconds mod 86400 / 3600 >? 0)
                  (Str.of_Z (seconds mod 86400 / 3600) +:+ "h") p1) as [L2 N2].
    pose proof (push_if_length (seconds mod 3600 / 60 >? 0)
                  (Str.of_Z (seconds mod 3600 / 60) +:+ "m") p2) as [L3 N3].
    fold p1 in L1, N1. fold p2 in L2, N2. fold p3 in L3, N3.
    destruct (duration_some_part seconds Hlo) as [D | [D | D]].
    - assert (0 < List.length p1)%nat by (apply N1; apply Z.gtb_lt; exact D). lia.
    - assert (0 < List.length p2)%nat by (apply N2; apply Z.gtb_lt; exact D). lia.
    - assert (0 < List.length p3)%nat by (apply N3; apply Z.gtb_lt; exact D). lia. }
  rewrite Hp3, andb_false_r. reflexivity.
Qed.

Lemma formatDuration_drops_seconds_witness :
  60 <= 3725 <= 9007199254740991
  /\ JWTStatus.formatDuration (Some 3725)
     = JWTStatus.formatDuration (Some (3725 - 3725 mod 60)).
Proof.
  split; [lia | apply (formatDuration_drops_seconds 3725); lia].
Defined.

Section Status_theorems.

Import JWTUtils JWTStatus.
Context `{Platform}.

Lemma in_date_range (x : Z) :
  - max_time <= x <= max_time ->
  date_iso (Some x) = inr (Date_toISOString x).
Proof.
  intros Hx. unfold date_iso.
  replace ((- max_time <=? x) && (x <=? max_time)) with true; [reflexivity|].
  symmetry. apply andb_true_intro. split; apply Z.leb_le; lia.
Qed.

Lemma date_iso_error (t : JS.num) (err : js_error) :
  date_iso t = inl err -> err = RangeError "Invalid time value".
Proof.
  unfold date_iso. destruct t as [ms|]; [destruct (_ && _)|]; congruence.
Qed.

Lemma leb_shift (a b c : Z) : (a - b <=? c) = (a <=? b + c).
Proof. destruct (Z.leb_spec (a - b) c), (Z.leb_spec a (b + c)); auto; lia. Qed.

(** X8. For a token whose payload carries numeric [exp] and [iat] claims
    (within the range of dates), [getTokenStatus] returns a status decided
    by [exp] alone: [expired] when [exp <= now], [expiring_soon] when
    [now < exp <= now + 300], [valid] otherwise, whatever [validateJWT]
    found; the result carries the payload, the validation and the two
    durations. *)
Theorem getTokenStatus_classification
        (now_ms : Z) (s : string) (props : list (string * value)) (exp iat : Z) :
  parseJWT (VStr s) = VObj props ->
  JS.lookup "exp" props = VNum exp ->
  JS.lookup "iat" props = VNum iat ->
  - max_time <= now_ms / 1000 * 1000 <= max_time ->
  - max_time <= iat * 1000 <= max_time ->
  - max_time <= exp * 1000 <= max_time ->
  let now := now_ms / 1000 in
  exists st t,
    getTokenStatus now_ms (VStr s) = inr st
    /\ status st = (if exp <=? now then "expired"
                    else if exp <=? now + 300 then "expiring_soon"
                    else "valid")
    /\ payload st = VObj props
    /\ validation st = validateJWT now_ms (VStr s)
    /\ timing_of st = Some t
    /\ t_timeUntilExpiry t = Some (exp - now)
    /\ t_timeSinceIssued t = Some (now - iat)
    /\ t_expiresIn t = formatDuration (Some (exp - now))
    /\ t_age t = formatDuration (Some (now - iat)).
Proof.
  intros Hp Hexp Hiat Rnow Riat Rexp now. subst now.
  unfold getTokenStatus. cbv zeta.
  rewrite (validateJWT_of_object now_ms s props Hp), !claims_of_check_claims.
  cbn [JS.truthy negb JS.get]. rewrite Hexp, Hiat.
  cbn [Coerce.to_number Num.sub Num.mul Num.lift2 Num.le].
  rewrite (in_date_range _ Rnow), (in_date_range _ Riat),
    (in_date_range _ Rexp).
  eexists. eexists. split; [reflexivity|].
  cbn [status payload validation timing_of t_timeUntilExpiry t_timeSinceIssued
       t_expiresIn t_age].
  repeat split.
  rewrite !leb_shift, Z.add_0_r.
  destruct (exp <=? now_ms / 1000); [reflexivity|].
  destruct (exp <=? now_ms / 1000 + 300); reflexivity.
Qed.

(** X9. For a token whose payload parses but has no numeric [iat] or no
    numeric [exp], [getTokenStatus] does not return a status: formatting
    the invalid date throws a RangeError. *)
Theorem getTokenStatus_throws_without_times
        (now_ms : Z) (s : string) (props : list (string * value)) :
  parseJWT (VStr s) = VObj props ->
  Coerce.to_number (JS.lookup "iat" props) = None
  \/ Coerce.to_number (JS.lookup "exp" props) = None ->
  getTokenStatus now_ms (VStr s) = inl (RangeError "Invalid time value").
Proof.
  intros Hp Hmissing.
  unfold getTokenStatus. cbv zeta.
  rewrite (validateJWT_of_object now_ms s props Hp), !claims_of_check_claims.
  cbn [JS.truthy negb JS.get].
  unfold date_iso at 1.
  destruct ((- max_time <=? now_ms / 1000 * 1000)
            && (now_ms / 1000 * 1000 <=? max_time)); [|reflexivity].
  destruct Hmissing as [-> | Hexp].
  - reflexivity.
  - rewrite Hexp.
    destruct (date_iso (Num.mul (Coerce.to_number (JS.lookup "iat" props))
                          (Some 1000))) as [err | iso] eqn:E; [|reflexivity].
    rewrite (date_iso_error _ _ E). reflexivity.
Qed.

End Status_theorems.

Lemma getTokenStatus_classification_witness :
  exists st t,
    JWTStatus.getTokenStatus Fixtures.now_ms (VStr Fixtures.jwt_soon) = inr st
    /\ JWTStatus.status st = "expiring_soon"
    /\ JWTStatus.payload st = VObj Fixtures.payload_soon
    /\ JWTStatus.validation st
       = JWTUtils.validateJWT Fixtures.now_ms (VStr Fixtures.jwt_soon)
    /\ JWTStatus.timing_of st = Some t
    /\ JWTStatus.t_timeUntilExpiry t = Some 100
    /\ JWTStatus.t_timeSinceIssued t = Some 1000
    /\ JWTStatus.t_expiresIn t = "1m"
    /\ JWTStatus.t_age t = "16m".
Proof.
  apply (getTokenStatus_classification Fixtures.now_ms Fixtures.jwt_soon
           Fixtures.payload_soon 1700000100 1699999000);
    try (vm_compute; reflexivity);
    split; apply Z.leb_le; vm_compute; reflexivity.
Defined.

Lemma getTokenStatus_throws_without_times_witness :
  JWTStatus.getTokenStatus Fixtures.now_ms (VStr Samples.jwt_without_iat)
  = inl (JWTStatus.RangeError "Invalid time value").
Proof.
  apply (getTokenStatus_throws_without_times Fixtures.now_ms
           Samples.jwt_without_iat Samples.parsed_without_iat).
  - vm_compute. reflexivity.
  - left. reflexivity.
Defined.

(** ** JWTUtils: scopes and purposes *)

Section Purpose_properties.

Import JWTUtils JWTStatus.
Context `{Platform}.

Lemma filter_nil_iff {A : Type} (f : A -> bool) (l : list A) :
  List.filter f l = [] <-> forall x, In x l -> f x = false.
Proof.
  induction l as [|a l IH]; cbn [List.filter In].
  - split; [intros _ x [] | reflexivity].
  - destruct (f a) eqn:E.
    + split; [discriminate|]. intros Hall.
      specialize (Hall a (or_introl eq_refl)). congruence.
    + rewrite IH. split.
      * intros Hall x [<- | Hx]; auto.
      * intros Hall x Hx. apply Hall. right. exact Hx.
Qed.

Lemma length_zero_iff {A : Type} (l : list A) :
  Nat.eqb (List.length l) 0 = true <-> l = [].
Proof. destruct l; cbn; split; congruence. Qed.

Lemma strict_eq_string_iff (v : value) (w : string) :
  JS.strict_eq_string v w = true <-> v = VStr w.
Proof.
  destruct v; cbn; try (split; congruence).
  rewrite String.eqb_eq. split; congruence.
Qed.

Lemma fail_if_spec (c : bool) (msg : string) (r : purpose_result) :
  p_errors (fail_if c msg r) = (p_errors r ++ (if c then [msg] else []))%list
  /\ p_warnings (fail_if c msg r) = p_warnings r
  /\ p_valid (fail_if c msg r) = p_valid r && negb c.
Proof.
  unfold fail_if. destruct c; cbn [p_errors p_warnings p_valid].
  - rewrite andb_false_r. auto.
  - rewrite app_nil_r, andb_true_r. auto.
Qed.

Lemma valid_token_has_claims (now_ms : Z) (token : value) :
  valid (validateJWT now_ms token) = true ->
  JS.truthy (claims (validateJWT now_ms token)) = true.
Proof.
  unfold validateJWT.
  destruct (JS.truthy token); cbn [negb]; [|discriminate].
  destruct token; try discriminate.
  destruct (negb (Nat.eqb (List.length (Str.split_on "."%char s)) 3));
    [discriminate|].
  destruct (JS.truthy (parseJWT (VStr s))) eqn:E; cbn [negb]; [|discriminate].
  intros _. rewrite claims_of_check_claims. exact E.
Qed.

Lemma requirement_check (o : option string) (v : value) :
  truthy_string o && negb (JS.strict_eq_string v (text_of o)) = false
  <-> forall x, o = Some x -> Str.is_empty x = false -> v = VStr x.
Proof.
  unfold truthy_string, text_of.
  destruct o as [x|]; [|split; [intros _ ? ?; discriminate | reflexivity]].
  destruct (Str.is_empty x) eqn:Er; cbn [negb andb].
  - split; [|reflexivity]. intros _ x' Heq. injection Heq as <-. congruence.
  - rewrite negb_false_iff, strict_eq_string_iff. split.
    + intros Hg x' Heq _. injection Heq as <-. exact Hg.
    + intros Hall. apply Hall; [reflexivity | exact Er].
Qed.

Lemma fail_if_valid (c : bool) (msg : string) (r : purpose_result) :
  p_valid (fail_if c msg r) = true -> p_valid r = true.
Proof. unfold fail_if. destruct c; [discriminate | auto]. Qed.

Lemma purpose_valid_jwt_valid (now_ms : Z) (token : value) (req : requirements) :
  p_valid (validateForPurpose now_ms token req) = true ->
  valid (validateJWT now_ms token) = true.
Proof.
  unfold validateForPurpose. cbv zeta.
  destruct (req_minRemainingTime req) as [minimum|];
    [destruct (minimum =? 0)|];
    (destruct (req_scopes req) as [scopes|];
     [destruct (JS.truthy (optional_get (claims (validateJWT now_ms token)) "scopes"))|]);
    intros Hv; repeat apply fail_if_valid in Hv; exact Hv.
Qed.

(** X10. [checkScopes] accepts exactly when the token parses, its [scopes]
    claim is an array, and every required scope is an element of it; a
    token without such an array is rejected even when nothing is required.
    The reason is [null] exactly when the check accepts. *)
Theorem checkScopes_verdict (token : value) (required : list string) :
  let r := checkScopes token required in
  (sc_valid r = true
   <-> exists items,
         JS.truthy (parseJWT token) = true
         /\ JS.get (parseJWT token) "scopes" = VArr items
         /\ forall scope, In scope required -> includes_scope items scope = true)
  /\ (sc_valid r = true <-> reason r = None).
Proof.
  cbv zeta. unfold checkScopes.
  destruct (JS.truthy (parseJWT token)) eqn:Et; cbn [negb].
  2:{ cbn. split; split; try discriminate. intros (items & Hf & _). discriminate Hf. }
  destruct (JS.get (parseJWT token) "scopes") as [| | | | | |items|] eqn:Es;
    try (cbn; split; split; try discriminate;
         intros (items & _ & Hf & _); discriminate Hf).
  cbn [sc_valid reason].
  set (missing := List.filter (fun scope => negb (includes_scope items scope)) required).
  split.
  - rewrite length_zero_iff. unfold missing. rewrite filter_nil_iff. split.
    + intros Hall. exists items. repeat split.
      intros scope Hin. specialize (Hall scope Hin).
      apply negb_false_iff in Hall. exact Hall.
    + intros (items' & _ & Heq & Hall) scope Hin.
      injection Heq as <-. apply negb_false_iff. apply Hall. exact Hin.
  - destruct missing; cbn; split; congruence.
Qed.

(** X11. [validateForPurpose] only adds to what [validateJWT] found: its
    errors are those of [validateJWT] followed by the requirement errors,
    its warnings are those of [validateJWT], and it accepts exactly when
    [validateJWT] accepts and no requirement error was added. *)
Theorem validateForPurpose_extends_validateJWT
        (now_ms : Z) (token : value) (req : requirements) :
  let v := validateJWT now_ms token in
  let r := validateForPurpose now_ms token req in
  exists extra,
    p_errors r = (errors v ++ extra)%list
    /\ p_warnings r = warnings v
    /\ p_valid r = valid v && Nat.eqb (List.length extra) 0.
Proof.
  cbv zeta. unfold validateForPurpose. cbv zeta.
  set (r0 := mkPurpose _ _ _).
  assert (I0 : exists extra,
             p_errors r0 = (errors (validateJWT now_ms token) ++ extra)%list
             /\ p_warnings r0 = warnings (validateJWT now_ms token)
             /\ p_valid r0 = valid (validateJWT now_ms token)
                             && Nat.eqb (List.length extra) 0).
  { exists []. subst r0. cbn. rewrite app_nil_r, andb_true_r. auto. }
  assert (Step : forall c msg r,
             (exists extra,
                 p_errors r = (errors (validateJWT now_ms token) ++ extra)%list
                 /\ p_warnings r = warnings (validateJWT now_ms token)
                 /\ p_valid r = valid (validateJWT now_ms token)
                                && Nat.eqb (List.length extra) 0) ->
             exists extra,
               p_errors (fail_if c msg r)
               = (errors (validateJWT now_ms token) ++ extra)%list
               /\ p_warnings (fail_if c msg r) = warnings (validateJWT now_ms token)
               /\ p_valid (fail_if c msg r)
                  = valid (validateJWT now_ms token)
                    && Nat.eqb (List.length extra) 0).
  { intros c msg r (extra & E1 & E2 & E3).
    destruct (fail_if_spec c msg r) as (F1 & F2 & F3).
    exists (extra ++ (if c then [msg] else []))%list.
    rewrite F1, F2, F3, E1, E2, E3, <- app_assoc. repeat split.
    destruct c; cbn [negb].
    - rewrite length_app. cbn [List.length].
      replace (Nat.eqb (List.length extra + 1) 0) with false
        by (symmetry; apply Nat.eqb_neq; lia).
      rewrite !andb_false_r. reflexivity.
    - rewrite app_nil_r, andb_true_r. reflexivity. }
  destruct (req_minRemainingTime req) as [minimum|];
    [destruct (minimum =? 0)|];
    try apply Step;
    (destruct (req_scopes req) as [scopes|];
     [destruct (JS.truthy (optional_get (claims (validateJWT now_ms token)) "scopes"))|]);
    repeat apply Step; exact I0.
Qed.

(** X12. [validateForPurpose] accepts exactly when [validateJWT] accepts
    and each requirement that is present holds: the role and the client
    are the required strings, the remaining time is not below the
    minimum, and the required scopes pass [checkScopes].  The scope
    requirement is only looked at when the token has a truthy [scopes]
    claim: a token without one passes every scope requirement. *)
Theorem validateForPurpose_valid_iff
        (now_ms : Z) (token : value) (req : requirements) :
  let v := validateJWT now_ms token in
  let payload := claims v in
  p_valid (validateForPurpose now_ms token req) = true
  <-> valid v = true
      /\ (forall role, req_role req = Some role -> Str.is_empty role = false ->
                       JS.get payload "role" = VStr role)
      /\ (forall scopes, req_scopes req = Some scopes ->
                         JS.truthy (JS.get payload "scopes") = true ->
                         sc_valid (checkScopes token scopes) = true)
      /\ (forall client, req_clientId req = Some client ->
                         Str.is_empty client = false ->
                         JS.get payload "clientId" = VStr client)
      /\ (forall minimum exp,
             req_minRemainingTime req = Some minimum -> minimum <> 0 ->
             Coerce.to_number (JS.get payload "exp") = Some exp ->
             minimum <= exp - now_ms / 1000).
Proof.
  cbv zeta.
  destruct (valid (validateJWT now_ms token)) eqn:Ev.
  2:{ split; [|intros [Hf _]; discriminate Hf].
      intros Hv. apply purpose_valid_jwt_valid in Hv. congruence. }
  pose proof (valid_token_has_claims now_ms token Ev) as Hc.
  unfold validateForPurpose. cbv zeta.
  set (payload := claims (validateJWT now_ms token)) in *.
  assert (Hopt : forall key, optional_get payload key = JS.get payload key).
  { intros key. unfold optional_get.
    destruct payload; try discriminate Hc; reflexivity. }
  rewrite !Hopt, Hc, Ev.
  set (r0 := mkPurpose true _ _).
  set (c1 := truthy_string (req_role req) && _).
  set (m1 := "Required role: " +:+ _).
  set (c3 := truthy_string (req_clientId req) && _).
  set (m3 := "Required client: " +:+ _).
  set (r2 := match req_scopes req with Some _ => _ | None => _ end).
  assert (H1 : c1 = false
               <-> forall role, req_role req = Some role ->
                                Str.is_empty role = false ->
                                JS.get payload "role" = VStr role).
  { apply requirement_check. }
  assert (H3 : c3 = false
               <-> forall client, req_clientId req = Some client ->
                                  Str.is_empty client = false ->
                                  JS.get payload "clientId" = VStr client).
  { apply requirement_check. }
  assert (H2 : p_valid r2 = true
               <-> c1 = false
                   /\ forall scopes, req_scopes req = Some scopes ->
                                     JS.truthy (JS.get payload "scopes") = true ->
                                     sc_valid (checkScopes token scopes) = true).
  { subst r2.
    assert (B1 : p_valid (fail_if c1 m1 r0) = true <-> c1 = false).
    { destruct (fail_if_spec c1 m1 r0) as (_ & _ & ->). subst r0.
      cbn [p_valid andb]. apply negb_true_iff. }
    destruct (req_scopes req) as [scopes|].
    - destruct (JS.truthy (JS.get payload "scopes")).
      + destruct (fail_if_spec (negb (sc_valid (checkScopes token scopes)))
                    (text_of (reason (checkScopes token scopes)))
                    (fail_if c1 m1 r0)) as (_ & _ & ->).
        rewrite andb_true_iff, B1, negb_involutive. split.
        * intros [A B]. split; [exact A|]. intros sc Heq _.
          injection Heq as <-. exact B.
        * intros [A B]. split; [exact A|]. apply B; reflexivity.
      + rewrite B1. split; [|tauto]. intros A. split; [exact A|].
        intros ? _ Hf. discriminate Hf.
    - rewrite B1. split; [|tauto]. intros A. split; [exact A|].
      intros ? Hf. discriminate Hf. }
  assert (H23 : p_valid (fail_if c3 m3 r2) = true
                <-> p_valid r2 = true /\ c3 = false).
  { destruct (fail_if_spec c3 m3 r2) as (_ & _ & ->).
    rewrite andb_true_iff, negb_true_iff. reflexivity. }
  destruct (req_minRemainingTime req) as [minimum|].
  - destruct (Z.eqb_spec minimum 0) as [-> | Hm].
    + rewrite H23, H2, H1, H3. split.
      * intros [[A B] C]. repeat split; auto.
        intros m e Heq Hne. injection Heq as <-. contradiction.
      * intros (_ & A & B & C & _). auto.
    + match goal with
      | |- p_valid (fail_if ?c ?m ?r) = true <-> _ =>
          destruct (fail_if_spec c m r) as (_ & _ & ->)
      end.
      rewrite andb_true_iff, H23, H2, H1, H3, negb_true_iff.
      cbn [Num.sub Num.lift2].
      destruct (Coerce.to_number (JS.get payload "exp")) as [e|];
        cbn [Num.sub Num.lift2].
      * rewrite Z.ltb_ge. split.
        -- intros [[[A B] C] D]. repeat split; auto.
           intros m e' Heq _ He. injection Heq as <-. injection He as <-. exact D.
        -- intros (_ & A & B & C & D). repeat split; auto.
      * split.
        -- intros [[[A B] C] _]. repeat split; auto.
           intros m e' _ _ He. discriminate He.
        -- intros (_ & A & B & C & _). repeat split; auto.
  - rewrite H23, H2, H1, H3. split.
    + intros [[A B] C]. repeat split; auto.
      intros m e Heq. discriminate Heq.
    + intros (_ & A & B & C & _). auto.
Qed.

End Purpose_properties.

Section Purpose_examples.

Import JWTStatus.

Example scoped_token_misses_a_scope :
  checkScopes (VStr Samples.jwt_scoped) ["read"; "admin"]
  = mkScopeCheck false (Some [VStr "read"; VStr "write"]) (Some ["read"; "admin"])
      (Some ["admin"]) (Some "Missing scopes: admin").
Proof. vm_compute. reflexivity. Qed.

Example unscoped_token_passes_a_scope_requirement :
  p_valid (validateForPurpose Fixtures.now_ms (VStr Samples.jwt_unscoped)
             (mkRequirements (Some "customer") (Some ["admin"]) (Some "web-app")
                (Some 600)))
  = true
  /\ sc_valid (checkScopes (VStr Samples.jwt_unscoped) []) = false
  /\ p_errors (validateForPurpose Fixtures.now_ms (VStr Samples.jwt_scoped)
                 (mkRequirements (Some "admin") (Some ["admin"]) None (Some 7200)))
     = ["Required role: admin, actual: customer"; "Missing scopes: admin";
        "Token expires too soon (1h remaining)"].
Proof. vm_compute. repeat split. Qed.

End Purpose_examples.

(** ** JWTUtils: what [parseJWT] returns *)

Section Parse_properties.

Import JWTUtils.
Context `{Platform}.

Lemma split_on_part (part rest : string) :
  Samples.no_dot part ->
  Str.split_on "."%char (part +:+ "." +:+ rest)
  = part :: Str.split_on "."%char rest.
Proof.
  unfold Samples.no_dot.
  induction part as [|c part IH]; intros Hp.
  - reflexivity.
  - inversion Hp as [|? ? Hc Hrest]; subst.
    change (String c part +:+ "." +:+ rest)
      with (String c (part +:+ "." +:+ rest)).
    cbn [Str.split_on]. rewrite Hc, (IH Hrest). reflexivity.
Qed.

Lemma split_on_last (part : string) :
  Samples.no_dot part -> Str.split_on "."%char part = [part].
Proof.
  unfold Samples.no_dot.
  induction part as [|c part IH]; intros Hp.
  - reflexivity.
  - inversion Hp as [|? ? Hc Hrest]; subst.
    cbn [Str.split_on]. rewrite Hc, (IH Hrest). reflexivity.
Qed.

Lemma assemble_not_empty (header text signature : string) :
  Str.is_empty (Samples.assemble header text signature) = false.
Proof. unfold Samples.assemble. destruct header; reflexivity. Qed.

End Parse_properties.

(** X13. [parseJWT] recovers the payload of every token put together as
    [header.base64url(text).signature]: when the text is JSON for a value,
    the result is that value with the dates attached ([null] stays
    [null]). *)
Theorem parseJWT_of_assembled_token `{Platform}
        (header text signature : string) (parsed : value) :
  Samples.no_dot header -> Samples.no_dot signature ->
  Str.is_empty text = false ->
  JSON_parse text = Some parsed ->
  JWTUtils.parseJWT (VStr (Samples.assemble header text signature))
  = JWTUtils.add_date "nbf" "nbfDate"
      (JWTUtils.add_date "exp" "expDate"
         (JWTUtils.add_date "iat" "iatDate" parsed)).
Proof.
  intros Hh Hs Ht Hparse.
  unfold JWTUtils.parseJWT. rewrite assemble_not_empty.
  unfold Samples.assemble.
  rewrite (split_on_part header _ Hh).
  rewrite (split_on_part (JWTStatus.base64UrlEncode text) signature
             (base64UrlEncode_no_dot text)).
  rewrite (split_on_last signature Hs).
  rewrite base64Url_round_trip, Ht, Hparse.
  destruct parsed; reflexivity.
Qed.

Lemma parseJWT_of_assembled_token_witness :
  JWTUtils.parseJWT
    (VStr (Samples.assemble "eyJhbGciOiJIUzI1NiJ9"
             (Reference.stringify Samples.claims_without_iat) "sig"))
  = JWTUtils.add_date "nbf" "nbfDate"
      (JWTUtils.add_date "exp" "expDate"
         (JWTUtils.add_date "iat" "iatDate" Samples.claims_without_iat)).
Proof.
  apply (parseJWT_of_assembled_token "eyJhbGciOiJIUzI1NiJ9"
           (Reference.stringify Samples.claims_without_iat) "sig"
           Samples.claims_without_iat).
  - unfold Samples.no_dot. vm_compute. repeat constructor.
  - unfold Samples.no_dot. vm_compute. repeat constructor.
  - vm_compute. reflexivity.
  - vm_compute. reflexivity.
Defined.

(** ** The refresh timer over the life of a page *)

Section Timer_invariant.

Import TokenManager API Page.
Context `{Platform}.

Lemma inv_same (e e' : env) :
  timers e' = timers e ->
  refreshTimer (this e') = refreshTimer (this e) ->
  at_most_one_timer e -> at_most_one_timer e'.
Proof.
  unfold at_most_one_timer. intros -> ->. auto.
Qed.

Lemma inv_with_this (f : t -> t) (e : env) :
  refreshTimer (f (this e)) = refreshTimer (this e) ->
  at_most_one_timer e -> at_most_one_timer (with_this f e).
Proof. intros Hf. apply inv_same; [reflexivity | exact Hf]. Qed.

Lemma inv_updateUI (e : env) :
  at_most_one_timer e -> at_most_one_timer (updateUI e).
Proof. apply inv_same; reflexivity. Qed.

Lemma clearRefreshTimer_no_timer (e : env) :
  at_most_one_timer e ->
  timers (clearRefreshTimer e) = []
  /\ refreshTimer (this (clearRefreshTimer e)) = None.
Proof.
  unfold at_most_one_timer, clearRefreshTimer.
  intros [Hnil | (h & delay & Ht & Hr)].
  - destruct (refreshTimer (this e)) as [h|] eqn:E; [|auto].
    cbn. rewrite Hnil. auto.
  - rewrite Hr. cbn. rewrite Ht. cbn. rewrite Nat.eqb_refl. auto.
Qed.

Lemma inv_clearRefreshTimer (e : env) :
  at_most_one_timer e -> at_most_one_timer (clearRefreshTimer e).
Proof.
  intros He. left. apply (clearRefreshTimer_no_timer e He).
Qed.

Lemma inv_scheduleRefreshCheck (now_ms : Z) (e : env) :
  at_most_one_timer e -> at_most_one_timer (scheduleRefreshCheck now_ms e).
Proof.
  intros He. unfold scheduleRefreshCheck. cbv zeta.
  pose proof (inv_clearRefreshTimer e He) as H1.
  destruct (clearRefreshTimer_no_timer e He) as [Hnil _].
  destruct (negb (JS.truthy (accessToken (this (clearRefreshTimer e))))); [exact H1|].
  destruct (getTokenExpirationInfo now_ms (this (clearRefreshTimer e)))
    as [expInfo|]; [|exact H1].
  destruct (isExpired expInfo); [exact H1|].
  right. eexists. eexists. cbn. rewrite Hnil. split; reflexivity.
Qed.

Lemma refreshTimer_loadTokensFromStorage (tm : t) :
  refreshTimer (fst (loadTokensFromStorage tm)) = refreshTimer tm.
Proof.
  unfold loadTokensFromStorage. cbv zeta.
  destruct (parse_stored "sessionData" _); [|reflexivity].
  destruct (parse_stored "userData" _); reflexivity.
Qed.

Lemma inv_setTokens (now_ms : Z) (a r s u : value) (e : env) :
  at_most_one_timer e -> at_most_one_timer (setTokens now_ms a r s u e).
Proof.
  intros He. unfold setTokens. cbv zeta.
  apply inv_updateUI.
  apply inv_scheduleRefreshCheck.
  apply inv_with_this; [apply refreshTimer_saveToStorage|].
  apply inv_with_this; [reflexivity | exact He].
Qed.

Lemma inv_clearTokens (e : env) :
  at_most_one_timer e -> at_most_one_timer (clearTokens e).
Proof.
  intros He. unfold clearTokens. cbv zeta.
  apply inv_updateUI.
  apply inv_clearRefreshTimer.
  apply inv_with_this; [reflexivity|].
  apply inv_with_this; [reflexivity | exact He].
Qed.

Lemma inv_init (now_ms : Z) (e : env) :
  at_most_one_timer e -> at_most_one_timer (fst (init now_ms e)).
Proof.
  intros He. unfold init.
  pose proof (refreshTimer_loadTokensFromStorage (this e)) as Hl.
  destruct (loadTokensFromStorage (this e)) as [tm [err|]]; cbn [fst] in *.
  - apply inv_with_this; assumption.
  - apply inv_scheduleRefreshCheck. apply inv_with_this; assumption.
Qed.

Lemma inv_on_storage_event (key : string) (store : gmap string string) (e : env) :
  at_most_one_timer e -> at_most_one_timer (fst (on_storage_event key store e)).
Proof.
  intros He. unfold on_storage_event. cbv zeta.
  assert (H1 : at_most_one_timer (with_this (set_storage store) e))
    by (apply inv_with_this; [reflexivity | exact He]).
  destruct (String.eqb key "accessToken" || String.eqb key "refreshToken");
    [|exact H1].
  pose proof (refreshTimer_loadTokensFromStorage
                (this (with_this (set_storage store) e))) as Hl.
  destruct (loadTokensFromStorage (this (with_this (set_storage store) e)))
    as [tm [err|]]; cbn [fst] in *.
  - apply inv_with_this; assumption.
  - apply inv_updateUI.
    apply inv_with_this; assumption.
Qed.

Lemma inv_refresh_try (now_ms : Z) (o : fetch_outcome) (e : env)
      (r : value) (e' : env) :
  refresh_try now_ms o e = inr (r, e') ->
  at_most_one_timer e -> at_most_one_timer e'.
Proof.
  unfold refresh_try. intros Hr He.
  destruct o as [err | status body]; [discriminate|].
  destruct (negb (ok status)); [discriminate|].
  destruct body as [data|]; [|discriminate].
  destruct (JS.is_nullish data); [discriminate|].
  destruct (JS.truthy (JS.get data "success")
            && JS.truthy (JS.get data "access_token")); [|discriminate].
  destruct (stamp_session now_ms (sessionData (this e))) as [err | s];
    [discriminate|].
  cbv zeta in Hr. injection Hr as _ <-.
  apply inv_updateUI.
  apply inv_scheduleRefreshCheck.
  apply inv_with_this; [apply refreshTimer_saveToStorage|].
  apply inv_with_this; [reflexivity | exact He].
Qed.

Lemma inv_refreshToken_settle (now_ms : Z) (o : fetch_outcome) (e : env) :
  at_most_one_timer e ->
  at_most_one_timer (snd (refreshToken_settle now_ms o e)).
Proof.
  intros He. unfold refreshToken_settle, performTokenRefresh_finish.
  destruct (refresh_try now_ms o e) as [err | [r e']] eqn:E; cbn [snd].
  - apply inv_with_this; [reflexivity|]. apply inv_clearTokens. exact He.
  - apply inv_with_this; [reflexivity|]. exact (inv_refresh_try _ _ _ _ _ E He).
Qed.

Lemma inv_showNotification (msg type : string) (e : env) :
  at_most_one_timer e -> at_most_one_timer (showNotification msg type e).
Proof. apply inv_same; reflexivity. Qed.

Lemma inv_navigate (path : string) (e : env) :
  at_most_one_timer e -> at_most_one_timer (navigate path e).
Proof. apply inv_same; reflexivity. Qed.

Lemma inv_log_fetch (c : fetch_call) (e : env) :
  at_most_one_timer e -> at_most_one_timer (log_fetch c e).
Proof. apply inv_same; reflexivity. Qed.

Lemma inv_forceRefresh (e : env) :
  at_most_one_timer e -> at_most_one_timer (snd (forceRefresh e)).
Proof. rewrite forceRefresh_eq. apply inv_showNotification. Qed.

Lemma autoRefresh_env (now_ms : Z) (e : env) : snd (autoRefresh now_ms e) = e.
Proof.
  unfold autoRefresh. rewrite call_refreshToken_throws.
  destruct (isRefreshing (this e) || negb (needsRefresh now_ms (this e)));
    reflexivity.
Qed.

Lemma inv_fire_timer (now_ms : Z) (h : nat) (e : env) :
  at_most_one_timer e -> at_most_one_timer (snd (fire_timer now_ms h e)).
Proof.
  intros He. unfold fire_timer. rewrite autoRefresh_env.
  unfold at_most_one_timer in *. cbn [timers this].
  destruct He as [-> | (h' & delay & -> & Hr)]; [left; reflexivity|].
  cbn [List.filter fst]. destruct (Nat.eqb h' h); cbn [negb]; [left; reflexivity|].
  right. eauto.
Qed.

Lemma inv_handleAuthenticationFailure (errorData : value) (e : env) :
  at_most_one_timer e ->
  at_most_one_timer (snd (handleAuthenticationFailure errorData e)).
Proof.
  intros He. unfold handleAuthenticationFailure. cbv zeta.
  pose proof (inv_clearTokens e He) as H1.
  destruct (route (clearTokens e)) as [r|]; [|exact H1].
  destruct (String.eqb r "/login"); [exact H1|].
  destruct (JS.is_nullish _); cbn [snd].
  - apply inv_navigate. exact H1.
  - apply inv_showNotification, inv_navigate. exact H1.
Qed.

Lemma inv_request (endpoint : string) (o : options) (answers : list fetch_outcome) :
  forall e, at_most_one_timer e ->
            at_most_one_timer (snd (request endpoint o answers e)).
Proof.
  induction answers as [|a rest IH]; intros e He.
  - cbn [request snd]. apply inv_log_fetch. exact He.
  - pose proof (inv_log_fetch (request_call endpoint o e) e He) as H0.
    cbn [request]. cbv zeta.
    destruct a as [err | status body]; [exact H0|].
    destruct (status =? 401).
    + destruct (negb (Str.starts_with "/auth/" endpoint)
                && JS.truthy (getToken (log_fetch (request_call endpoint o e) e))
                && JS.truthy (getRefreshToken
                                (this (log_fetch (request_call endpoint o e) e)))).
      * rewrite forceRefresh_eq.
        specialize (IH _ (inv_showNotification
                            ("Token refresh failed: " +:+ message not_a_function)
                            "error" _ H0)).
        destruct (request endpoint o rest _) as [[data | err |] e2];
          cbn [snd] in *; try exact IH.
        pose proof (inv_handleAuthenticationFailure (VObj []) e2 IH) as H2.
        destruct (handleAuthenticationFailure (VObj []) e2) as [x e3].
        exact H2.
      * pose proof (inv_handleAuthenticationFailure
                      (match body with Some v => v | None => VObj [] end) _ H0) as H2.
        destruct (handleAuthenticationFailure _ _) as [[err|] e1];
          cbn [snd] in *; [exact H2|].
        destruct (JS.is_nullish _); exact H2.
    + destruct (negb (ok status)).
      * destruct (JS.is_nullish _); [exact H0|].
        destruct (JS.is_primitive _ && _); exact H0.
      * destruct body; exact H0.
Qed.

Lemma inv_login (now_ms : Z) (email password clientId : string)
      (answers : list fetch_outcome) (e : env) :
  at_most_one_timer e ->
  at_most_one_timer (snd (Client.login now_ms email password clientId answers e)).
Proof.
  intros He. unfold Client.login. cbv zeta.
  match goal with
  | |- context [request ?ep ?op answers e] =>
      pose proof (inv_request ep op answers e He) as H1;
      destruct (request ep op answers e) as [[response | err |] e1]
  end; cbn [snd] in *; try exact H1.
  destruct (JS.is_nullish response); [exact H1|].
  destruct (JS.truthy (JS.get response "success")
            && JS.truthy (JS.get response "access_token")); cbn [snd];
    [apply inv_setTokens|]; exact H1.
Qed.

Lemma inv_logout (answers : list fetch_outcome) (e : env) :
  at_most_one_timer e -> at_most_one_timer (snd (Client.logout answers e)).
Proof.
  intros He. unfold Client.logout. cbv zeta.
  destruct (JS.truthy (getToken e) || JS.truthy (getRefreshToken (this e)));
    [|apply inv_clearTokens; exact He].
  match goal with
  | |- context [request ?ep ?op answers e] =>
      pose proof (inv_request ep op answers e He) as H1;
      destruct (request ep op answers e) as [[response | err |] e1]
  end; cbn [snd] in *; try exact H1; apply inv_clearTokens; exact H1.
Qed.

Lemma inv_extendSession (e : env) :
  at_most_one_timer e -> at_most_one_timer (snd (Client.extendSession e)).
Proof.
  intros He. unfold Client.extendSession. rewrite forceRefresh_eq.
  pose proof (inv_showNotification
                ("Token refresh failed: " +:+ message not_a_function) "error" e He)
    as H1.
  destruct (route _); cbn [snd].
  - apply inv_showNotification, inv_navigate. exact H1.
  - apply inv_showNotification. exact H1.
Qed.

Lemma inv_step (e : env) (ev : event) :
  at_most_one_timer e -> at_most_one_timer (step e ev).
Proof.
  intros He. destruct ev; cbn [step].
  - apply inv_setTokens; exact He.
  - apply inv_clearTokens; exact He.
  - apply inv_refreshToken_settle; exact He.
  - apply inv_forceRefresh; exact He.
  - rewrite autoRefresh_env. exact He.
  - apply inv_fire_timer; exact He.
  - apply inv_on_storage_event; exact He.
  - apply inv_request; exact He.
  - apply inv_login; exact He.
  - apply inv_logout; exact He.
  - apply inv_extendSession; exact He.
Qed.

Lemma inv_run (events : list event) :
  forall e, at_most_one_timer e -> at_most_one_timer (run events e).
Proof.
  induction events as [|ev events IH]; intros e He; [exact He|].
  cbn [run fold_left]. apply IH. apply inv_step. exact He.
Qed.

(** X15. On a page opened over any stored session, whatever happens next
    (tokens set or cleared, refreshes answered, timers firing, storage
    changed by another tab, requests, login, logout), at most one refresh
    timer is pending at any time, and it is the one whose handle the
    token manager holds: a timer is never leaked. *)
Theorem at_most_one_refresh_timer
        (now_ms : Z) (store : gmap string string) (r : option string)
        (events : list event) :
  at_most_one_timer (run events (opened now_ms store r)).
Proof.
  apply inv_run. unfold opened. apply inv_init. left. reflexivity.
Qed.

End Timer_invariant.

(** ** The stored session *)

Section Storage_round_trip.

Import TokenManager Page.
Context `{Platform}.

Lemma storage_of_setTokens (now_ms : Z) (a r s u : value) (e : env) :
  storage (this (setTokens now_ms a r s u e))
  = storage (saveToStorage (set_tokens a r s u (this e))).
Proof.
  unfold setTokens. cbv zeta.
  change (this (updateUI ?x)) with (this x).
  destruct (scheduleRefreshCheck_this now_ms
              (with_this saveToStorage (with_this (set_tokens a r s u) e)))
    as [h ->].
  reflexivity.
Qed.

Lemma loadTokensFromStorage_of_entries
      (tm : t) (access refresh session_text user_text : string)
      (metadata usr : value) :
  storage tm !! "accessToken" = Some access ->
  storage tm !! "refreshToken" = Some refresh ->
  storage tm !! "sessionData" = Some session_text ->
  storage tm !! "userData" = Some user_text ->
  Str.is_empty session_text = false -> Str.is_empty user_text = false ->
  JSON_parse session_text = Some metadata -> JSON_parse user_text = Some usr ->
  loadTokensFromStorage tm
  = (set_tokens (VStr access) (VStr refresh) metadata usr tm, None).
Proof.
  intros Ha Hr Hs Hu Es Eu Ps Pu.
  unfold loadTokensFromStorage, parse_stored, storage_get. cbv zeta.
  rewrite Ha, Hr.
  change (storage (set_access_refresh ?a ?r tm)) with (storage tm).
  rewrite Hs, Es, Ps.
  change (storage (set_sessionData ?s ?x)) with (storage tm).
  rewrite Hu, Eu, Pu. reflexivity.
Qed.

End Storage_round_trip.

(** X16. What [setTokens] has stored is what a page opened later over the
    same storage loads: for non-empty token strings and truthy session and
    user values that survive [JSON.stringify] and [JSON.parse], the new
    token manager holds the same four values and is authenticated. *)
Theorem stored_session_is_reloaded `{Platform}
        (now_ms later_ms : Z) (access refresh : string) (metadata usr : value)
        (e : TokenManager.env) (r : option string) :
  Str.is_empty access = false -> Str.is_empty refresh = false ->
  JS.truthy metadata = true -> JS.truthy usr = true ->
  Str.is_empty (JSON_stringify metadata) = false ->
  Str.is_empty (JSON_stringify usr) = false ->
  JSON_parse (JSON_stringify metadata) = Some metadata ->
  JSON_parse (JSON_stringify usr) = Some usr ->
  let store :=
    TokenManager.storage
      (TokenManager.this
         (TokenManager.setTokens now_ms (VStr access) (VStr refresh) metadata usr e)) in
  let tm := TokenManager.this (Page.opened later_ms store r) in
  TokenManager.accessToken tm = VStr access
  /\ TokenManager.refreshToken tm = VStr refresh
  /\ TokenManager.sessionData tm = metadata
  /\ TokenManager.user tm = usr
  /\ TokenManager.isAuthenticated tm = true.
Proof.
  intros Ea Er Ts Tu Es Eu Ps Pu store tm.
  assert (Hstore : store !! "accessToken" = Some access
                   /\ store !! "refreshToken" = Some refresh
                   /\ store !! "sessionData" = Some (JSON_stringify metadata)
                   /\ store !! "userData" = Some (JSON_stringify usr)).
  { subst store. rewrite storage_of_setTokens.
    destruct (saveToStorage_entries
                (TokenManager.set_tokens (VStr access) (VStr refresh) metadata usr
                   (TokenManager.this e))) as (S1 & S2 & S3 & S4).
    cbn [TokenManager.set_tokens TokenManager.accessToken TokenManager.refreshToken
         TokenManager.sessionData TokenManager.user JS.truthy] in S1, S2, S3, S4.
    rewrite Ea in S1. rewrite Er in S2. rewrite Ts in S3. rewrite Tu in S4.
    auto. }
  destruct Hstore as (S1 & S2 & S3 & S4).
  assert (Hload :
            TokenManager.loadTokensFromStorage (TokenManager.constructed store)
            = (TokenManager.set_tokens (VStr access) (VStr refresh) metadata usr
                 (TokenManager.constructed store), None)).
  { apply (loadTokensFromStorage_of_entries (TokenManager.constructed store)
             access refresh (JSON_stringify metadata) (JSON_stringify usr));
      assumption. }
  subst tm. unfold Page.opened, TokenManager.init.
  cbn [TokenManager.this]. rewrite Hload. cbn [fst].
  match goal with
  | |- context [TokenManager.scheduleRefreshCheck ?n ?x] =>
      destruct (scheduleRefreshCheck_this n x) as [h ->]
  end.
  unfold TokenManager.isAuthenticated.
  cbn. rewrite Ea, Tu. auto.
Qed.

Lemma stored_session_is_reloaded_witness :
  let store :=
    TokenManager.storage
      (TokenManager.this
         (TokenManager.setTokens Fixtures.now_ms (VStr Fixtures.jwt_valid) (VStr "R0")
            Fixtures.session Fixtures.customer Fixtures.fresh)) in
  let tm := TokenManager.this (Page.opened (Fixtures.now_ms + 60000) store None) in
  TokenManager.accessToken tm = VStr Fixtures.jwt_valid
  /\ TokenManager.refreshToken tm = VStr "R0"
  /\ TokenManager.sessionData tm = Fixtures.session
  /\ TokenManager.user tm = Fixtures.customer
  /\ TokenManager.isAuthenticated tm = true.
Proof.
  apply (stored_session_is_reloaded Fixtures.now_ms (Fixtures.now_ms + 60000)
           Fixtures.jwt_valid "R0" Fixtures.session Fixtures.customer
           Fixtures.fresh None);
    vm_compute; reflexivity.
Defined.

(** ** The request client: answers other than a retried 401 *)

Section Client_properties.

Import TokenManager API.
Context `{Platform}.

Lemma clearRefreshTimer_frame (e : env) :
  fetches (clearRefreshTimer e) = fetches e
  /\ route (clearRefreshTimer e) = route e
  /\ navigations (clearRefreshTimer e) = navigations e
  /\ notifications (clearRefreshTimer e) = notifications e.
Proof.
  unfold clearRefreshTimer. destruct (refreshTimer (this e)); auto.
Qed.

Lemma clearTokens_frame (e : env) :
  fetches (clearTokens e) = fetches e
  /\ route (clearTokens e) = route e
  /\ navigations (clearTokens e) = navigations e
  /\ notifications (clearTokens e) = notifications e.
Proof.
  unfold clearTokens. cbv zeta.
  match goal with
  | |- context [clearRefreshTimer ?x] =>
      destruct (clearRefreshTimer_frame x) as (F1 & F2 & F3 & F4)
  end.
  change (fetches (updateUI ?x)) with (fetches x).
  change (route (updateUI ?x)) with (route x).
  change (navigations (updateUI ?x)) with (navigations x).
  change (notifications (updateUI ?x)) with (notifications x).
  rewrite F1, F2, F3, F4. auto.
Qed.

(** [handleAuthenticationFailure] clears the session, sends no request, and
    goes to the login page unless the page is already there (or there is
    no router). *)
Lemma handleAuthenticationFailure_effect (errorData : value) (e : env) :
  let e' := snd (handleAuthenticationFailure errorData e) in
  this e' = this (clearTokens e)
  /\ fetches e' = fetches e
  /\ (forall r, route e = Some r -> r <> "/login" ->
                navigations e' = (navigations e ++ ["/login"])%list)
  /\ (route e = None \/ route e = Some "/login" -> navigations e' = navigations e).
Proof.
  cbv zeta. unfold handleAuthenticationFailure. cbv zeta.
  destruct (clearTokens_frame e) as (F1 & F2 & F3 & F4).
  destruct (route (clearTokens e)) as [r|] eqn:Er.
  - destruct (String.eqb_spec r "/login") as [-> | Hne].
    + cbn [snd]. repeat split; auto.
      intros r Hr Hne. congruence.
    + assert (Hnav : (if decide (route (clearTokens e) = Some "/login")
                      then navigations (clearTokens e)
                      else (navigations (clearTokens e) ++ ["/login"])%list)
                     = (navigations e ++ ["/login"])%list).
      { rewrite Er, F3.
        destruct (decide (Some r = Some "/login")) as [Heq | _];
          [congruence | reflexivity]. }
      destruct (JS.is_nullish _); cbn [snd];
        unfold showNotification, navigate; cbn [this fetches navigations];
        (split; [reflexivity|]; split; [exact F1|]; split;
         [intros r' Hr' _; exact Hnav
         | intros [Hn | Hl]; congruence]).
  - cbn [snd]. repeat split; auto.
    intros r Hr _. congruence.
Qed.

Lemma not_401 (a : fetch_outcome) :
  (forall body, a <> Response 401 body) ->
  match a with
  | NetworkFailure _ => True
  | Response status _ => (status =? 401) = false
  end.
Proof.
  intros Ha. destruct a as [err | status body]; [exact I|].
  destruct (Z.eqb_spec status 401) as [-> | Hne]; [|reflexivity].
  exfalso. exact (Ha body eq_refl).
Qed.

Lemma request_plain_answer
      (endpoint : string) (o : options) (a : fetch_outcome)
      (rest : list fetch_outcome) (e : env) :
  (forall body, a <> Response 401 body) ->
  let res := request endpoint o (a :: rest) e in
  snd res = log_fetch (request_call endpoint o e) e
  /\ (forall data, fst res = Returned data
                   <-> exists status, a = Response status (Some data)
                                      /\ ok status = true)
  /\ ((forall data, fst res <> Returned data) -> exists err, fst res = Thrown err).
Proof.
  intros Ha. pose proof (not_401 a Ha) as H401. cbv zeta.
  destruct a as [err | status body]; cbn [request]; cbv zeta.
  - cbn [fst snd]. repeat split.
    + discriminate.
    + intros (status & Hf & _). discriminate Hf.
    + intros _. eauto.
  - rewrite H401.
    destruct (ok status) eqn:Eok; cbn [negb].
    + destruct body as [data|]; cbn [fst snd].
      * repeat split.
        -- intros Hd. injection Hd as <-. eauto.
        -- intros (status' & Heq & _). injection Heq as _ <-. reflexivity.
        -- intros Hno. exfalso. exact (Hno data eq_refl).
      * repeat split.
        -- discriminate.
        -- intros (status' & Heq & _). discriminate Heq.
        -- intros _. eauto.
    + assert (Hnot : forall data,
                 (exists status', Response status body = Response status' (Some data)
                                  /\ ok status' = true) -> False).
      { intros data (status' & Heq & Hok). injection Heq as <- _. congruence. }
      destruct (JS.is_nullish _); [|destruct (JS.is_primitive _ && _)];
        cbn [fst snd];
        (repeat split;
         [discriminate | intros Hx; exfalso; exact (Hnot _ Hx) | intros _; eauto]).
Qed.

(** X17. An answer other than 401 ends [request] after its one [fetch]:
    the token manager is left as it was, and the call returns exactly when
    the answer is a 2xx response with a JSON body, which it returns; every
    other answer is thrown as an error. *)
Theorem request_answer_other_than_401
        (endpoint : string) (o : options) (a : fetch_outcome)
        (rest : list fetch_outcome) (e : env) :
  (forall body, a <> Response 401 body) ->
  let res := request endpoint o (a :: rest) e in
  snd res = log_fetch (request_call endpoint o e) e
  /\ (forall data, fst res = Returned data
                   <-> exists status, a = Response status (Some data)
                                      /\ ok status = true)
  /\ ((forall data, fst res <> Returned data) -> exists err, fst res = Thrown err).
Proof. exact (request_plain_answer endpoint o a rest e). Qed.

Lemma request_terminal_401
      (endpoint : string) (o : options) (body : option value)
      (rest : list fetch_outcome) (e : env) :
  Str.starts_with "/auth/" endpoint = true
  \/ JS.truthy (accessToken (this e)) = false
  \/ JS.truthy (refreshToken (this e)) = false ->
  let res := request endpoint o (Response 401 body :: rest) e in
  (exists err, fst res = Thrown err)
  /\ this (snd res) = this (clearTokens e)
  /\ isAuthenticated (this (snd res)) = false
  /\ fetches (snd res) = (fetches e ++ [request_call endpoint o e])%list
  /\ (forall r, route e = Some r -> r <> "/login" ->
                navigations (snd res) = (navigations e ++ ["/login"])%list).
Proof.
  intros Hno. cbv zeta. cbn [request]. cbv zeta.
  change (401 =? 401) with true. cbv iota.
  unfold getToken, getAccessToken, getRefreshToken.
  change (this (log_fetch ?c ?x)) with (this x).
  replace (negb (Str.starts_with "/auth/" endpoint)
           && JS.truthy (accessToken (this e))
           && JS.truthy (refreshToken (this e))) with false.
  2:{ destruct Hno as [-> | [-> | ->]]; cbn [negb andb];
        rewrite ?andb_false_r; reflexivity. }
  set (e0 := log_fetch (request_call endpoint o e) e).
  set (errorData := match body with Some v => v | None => VObj [] end).
  destruct (handleAuthenticationFailure_effect errorData e0) as (E1 & E2 & E3 & E4).
  cbv zeta in E1, E2, E3, E4.
  assert (Hthis : this (clearTokens e0) = this (clearTokens e)).
  { rewrite !clearTokens_this. reflexivity. }
  assert (Hall : forall res : outcome * env,
             snd res = snd (handleAuthenticationFailure errorData e0) ->
             (exists err, fst res = Thrown err) ->
             (exists err, fst res = Thrown err)
             /\ this (snd res) = this (clearTokens e)
             /\ isAuthenticated (this (snd res)) = false
             /\ fetches (snd res) = (fetches e ++ [request_call endpoint o e])%list
             /\ (forall r, route e = Some r -> r <> "/login" ->
                           navigations (snd res) = (navigations e ++ ["/login"])%list)).
  { intros res Hs Ht. rewrite Hs, E1, Hthis, E2.
    split; [exact Ht|]. split; [reflexivity|].
    split; [apply (clearTokens_clears e)|].
    split; [reflexivity|]. exact E3. }
  destruct (handleAuthenticationFailure errorData e0) as [[err|] e1].
  - apply Hall; cbn [fst snd]; eauto.
  - destruct (JS.is_nullish errorData); apply Hall; cbn [fst snd]; eauto.
Qed.

(** X18. A 401 that cannot be retried (an authentication endpoint, or no
    access token, or no refresh token in the store) is terminal: [request]
    throws after its one [fetch], the session is cleared in memory and in
    storage, and the page is sent to the login page unless it is there. *)
Theorem request_401_without_retry_is_terminal
        (endpoint : string) (o : options) (body : option value)
        (rest : list fetch_outcome) (e : env) :
  Str.starts_with "/auth/" endpoint = true
  \/ JS.truthy (accessToken (this e)) = false
  \/ JS.truthy (refreshToken (this e)) = false ->
  let res := request endpoint o (Response 401 body :: rest) e in
  (exists err, fst res = Thrown err)
  /\ this (snd res) = this (clearTokens e)
  /\ isAuthenticated (this (snd res)) = false
  /\ fetches (snd res) = (fetches e ++ [request_call endpoint o e])%list
  /\ (forall r, route e = Some r -> r <> "/login" ->
                navigations (snd res) = (navigations e ++ ["/login"])%list).
Proof. exact (request_terminal_401 endpoint o body rest e). Qed.

End Client_properties.

Section Client_examples.

Import TokenManager API.

Lemma request_answer_other_than_401_witness :
  let res := request "/customer/profile" (mkOptions None None)
               [Response 200 (Some Fixtures.profile_data)] Fixtures.logged_in in
  snd res = log_fetch (request_call "/customer/profile" (mkOptions None None)
                         Fixtures.logged_in) Fixtures.logged_in
  /\ (forall data, fst res = Returned data
                   <-> exists status,
                         Response 200 (Some Fixtures.profile_data)
                         = Response status (Some data)
                         /\ ok status = true)
  /\ ((forall data, fst res <> Returned data) -> exists err, fst res = Thrown err).
Proof.
  apply (request_answer_other_than_401 "/customer/profile" (mkOptions None None)
           (Response 200 (Some Fixtures.profile_data)) [] Fixtures.logged_in).
  intros body. discriminate.
Defined.

Lemma request_401_without_retry_is_terminal_witness :
  let res := request "/auth/profile" (mkOptions None None)
               [Response 401 None] Fixtures.logged_in in
  (exists err, fst res = Thrown err)
  /\ this (snd res) = this (clearTokens Fixtures.logged_in)
  /\ isAuthenticated (this (snd res)) = false
  /\ fetches (snd res)
     = (fetches Fixtures.logged_in
        ++ [request_call "/auth/profile" (mkOptions None None) Fixtures.logged_in])%list
  /\ (forall r, route Fixtures.logged_in = Some r -> r <> "/login" ->
                navigations (snd res)
                = (navigations Fixtures.logged_in ++ ["/login"])%list).
Proof.
  apply (request_401_without_retry_is_terminal "/auth/profile" (mkOptions None None)
           None [] Fixtures.logged_in).
  left. reflexivity.
Defined.

End Client_examples.

(** ** Login, logout and batches *)

Section Session_properties.

Import TokenManager API.
Context `{Platform}.

(** On an authentication endpoint [request] makes one [fetch] and never
    retries; it is still awaiting only when there is no answer. *)
Lemma request_auth_endpoint
      (endpoint : string) (o : options) (answers : list fetch_outcome) (e : env) :
  Str.starts_with "/auth/" endpoint = true ->
  fetches (snd (request endpoint o answers e))
  = (fetches e ++ [request_call endpoint o e])%list
  /\ (fst (request endpoint o answers e) = Pending <-> answers = []).
Proof.
  intros Hep.
  destruct answers as [|a rest].
  - cbn [request fst snd]. split; [reflexivity | tauto].
  - assert (Hne : a :: rest = [] <-> False) by (split; [discriminate | tauto]).
    rewrite Hne.
    destruct a as [err | status body]; cbn [request]; cbv zeta.
    + cbn [fst snd]. split; [reflexivity|]. split; [discriminate | tauto].
    + rewrite Hep. cbn [negb andb].
      destruct (status =? 401).
      * set (e0 := log_fetch (request_call endpoint o e) e).
        set (errorData := match body with Some v => v | None => VObj [] end).
        destruct (handleAuthenticationFailure_effect errorData e0) as (_ & E2 & _).
        cbv zeta in E2.
        destruct (handleAuthenticationFailure errorData e0) as [[err|] e1];
          cbn [fst snd] in *.
        -- split; [exact E2|]. split; [discriminate | tauto].
        -- destruct (JS.is_nullish errorData); cbn [fst snd];
             (split; [exact E2|]; split; [discriminate | tauto]).
      * destruct (negb (ok status)).
        -- destruct (JS.is_nullish _); [|destruct (JS.is_primitive _ && _)];
             cbn [fst snd];
             (split; [reflexivity|]; split; [discriminate | tauto]).
        -- destruct body; cbn [fst snd];
             (split; [reflexivity|]; split; [discriminate | tauto]).
Qed.

(** X19. [logout] never throws and, once its request has been answered
    (in whatever way), leaves nothing of the session: the four values are
    [null], the four storage entries are removed, no refresh timer is set.
    It sends one request when there is a token to revoke and none
    otherwise. *)
Theorem logout_clears_the_session (answers : list fetch_outcome) (e : env) :
  let res := Client.logout answers e in
  let tm := this (snd res) in
  (fst res = false
   <-> answers = []
       /\ (JS.truthy (accessToken (this e)) = true
           \/ JS.truthy (refreshToken (this e)) = true))
  /\ (fst res = true ->
      accessToken tm = VNull /\ refreshToken tm = VNull
      /\ sessionData tm = VNull /\ user tm = VNull
      /\ storage tm !! "accessToken" = None /\ storage tm !! "refreshToken" = None
      /\ storage tm !! "sessionData" = None /\ storage tm !! "userData" = None
      /\ refreshTimer tm = None
      /\ isAuthenticated tm = false)
  /\ (JS.truthy (accessToken (this e)) = false ->
      JS.truthy (refreshToken (this e)) = false ->
      fetches (snd res) = fetches e)
  /\ (List.length (fetches (snd res)) <= S (List.length (fetches e)))%nat.
Proof.
  cbv zeta. unfold Client.logout. cbv zeta.
  unfold getToken, getAccessToken, getRefreshToken.
  destruct (clearTokens_frame e) as (F1 & _).
  destruct (JS.truthy (accessToken (this e)) || JS.truthy (refreshToken (this e)))
    eqn:Etok.
  - assert (Hsome : JS.truthy (accessToken (this e)) = true
                    \/ JS.truthy (refreshToken (this e)) = true)
      by (apply orb_true_iff; exact Etok).
    assert (Hnot : JS.truthy (accessToken (this e)) = false ->
                   JS.truthy (refreshToken (this e)) = false -> False)
      by (intros Hx Hy; rewrite Hx, Hy in Etok; discriminate Etok).
    match goal with
    | |- context [request ?ep ?op answers e] =>
        destruct (request_auth_endpoint ep op answers e eq_refl) as [Hf Hp];
        destruct (request ep op answers e) as [[data | err |] e1] eqn:Ereq
    end; cbn [fst snd] in *.
    + destruct (clearTokens_frame e1) as (G1 & _).
      split; [|split; [|split]].
      * split; [discriminate|]. intros [Hn _]. apply Hp in Hn. discriminate Hn.
      * intros _. apply (clearTokens_clears e1).
      * intros Hx Hy. destruct (Hnot Hx Hy).
      * rewrite G1, Hf, length_app. cbn [List.length]. lia.
    + destruct (clearTokens_frame e1) as (G1 & _).
      split; [|split; [|split]].
      * split; [discriminate|]. intros [Hn _]. apply Hp in Hn. discriminate Hn.
      * intros _. apply (clearTokens_clears e1).
      * intros Hx Hy. destruct (Hnot Hx Hy).
      * rewrite G1, Hf, length_app. cbn [List.length]. lia.
    + split; [|split; [|split]].
      * split; [|reflexivity]. intros _. split; [|exact Hsome].
        apply Hp. reflexivity.
      * discriminate.
      * intros Hx Hy. destruct (Hnot Hx Hy).
      * rewrite Hf, length_app. cbn [List.length]. lia.
  - apply orb_false_iff in Etok. destruct Etok as [Ea Er].
    cbn [fst snd]. rewrite F1.
    split; [|split; [|split]].
    + split; [discriminate|]. intros [_ [Hf | Hf]]; congruence.
    + intros _. apply (clearTokens_clears e).
    + reflexivity.
    + lia.
Qed.

End Session_properties.

Section Login_properties.

Import TokenManager API.
Context `{Platform}.

Lemma setTokens_fields (now_ms : Z) (a r s u : value) (e : env) :
  let tm := this (setTokens now_ms a r s u e) in
  accessToken tm = a /\ refreshToken tm = r /\ sessionData tm = s /\ user tm = u.
Proof.
  cbv zeta. unfold setTokens. cbv zeta.
  change (this (updateUI ?x)) with (this x).
  destruct (scheduleRefreshCheck_this now_ms
              (with_this saveToStorage (with_this (set_tokens a r s u) e)))
    as [h ->].
  destruct (saveToStorage_tokens (set_tokens a r s u (this e)))
    as (S1 & S2 & S3 & S4).
  rewrite !with_this_this.
  cbn [set_refreshTimer accessToken refreshToken sessionData user].
  rewrite S1, S2, S3, S4. auto.
Qed.

(** X20. [login] returns, and stores a session, exactly when the server's
    answer is a 2xx response whose body has a truthy [success] and a truthy
    [access_token]; the token manager then holds the four fields of the
    response.  Every other answer makes [login] throw, and the store is
    then as it was before the call, or cleared (after a 401). *)
Theorem login_stores_a_session_only_on_success
        (now_ms : Z) (email password clientId : string)
        (a : fetch_outcome) (rest : list fetch_outcome) (e : env) :
  let res := Client.login now_ms email password clientId (a :: rest) e in
  let tm := this (snd res) in
  (forall response,
      fst res = Returned response
      <-> exists status,
            a = Response status (Some response) /\ ok status = true
            /\ JS.truthy (JS.get response "success") = true
            /\ JS.truthy (JS.get response "access_token") = true)
  /\ (forall response,
         fst res = Returned response ->
         accessToken tm = JS.get response "access_token"
         /\ refreshToken tm = JS.get response "refresh_token"
         /\ sessionData tm = JS.get response "session"
         /\ user tm = JS.get response "user")
  /\ ((forall response, fst res <> Returned response) ->
      (exists err, fst res = Thrown err)
      /\ (tm = this e \/ tm = this (clearTokens e))).
Proof.
  cbv zeta. unfold Client.login. cbv zeta.
  set (body := JSON_stringify _).
  set (op := mkOptions (Some "POST") (Some body)).
  destruct a as [err | status payload].
  - cbn [request fst snd].
    split; [|split].
    + intros response. split; [discriminate|].
      intros (status & Hf & _). discriminate Hf.
    + intros response Hf. discriminate Hf.
    + intros _. split; [eauto | left; reflexivity].
  - destruct (Z.eqb_spec status 401) as [-> | H401].
    + destruct (request_terminal_401 "/auth/login" op payload rest e
                  (or_introl eq_refl)) as ((err & Ht) & Hthis & _).
      cbv zeta in Ht, Hthis.
      destruct (request "/auth/login" op (Response 401 payload :: rest) e)
        as [out e1]. cbn [fst snd] in *. subst out.
      cbn [fst snd].
      split; [|split].
      * intros response. split; [discriminate|].
        intros (status & Heq & Hok & _). injection Heq as <- _. discriminate Hok.
      * intros response Hf. discriminate Hf.
      * intros _. split; [eauto | right; exact Hthis].
    + destruct (request_plain_answer "/auth/login" op (Response status payload) rest e)
        as (Hs & Hret & Hthrow).
      { intros b Hb. injection Hb as Hb _. contradiction. }
      cbv zeta in Hs, Hret, Hthrow.
      destruct (request "/auth/login" op (Response status payload :: rest) e)
        as [out e1]. cbn [fst snd] in *. subst e1.
      destruct out as [response | err |].
      * destruct (proj1 (Hret response) eq_refl) as (status' & Heq & Hok).
        injection Heq as <- ->.
        destruct (JS.is_nullish response) eqn:En.
        { cbn [fst snd]. split; [|split].
          - intros r. split; [discriminate|].
            intros (st & Heq & _ & Hsucc & _). injection Heq as _ <-.
            destruct response; try discriminate En; discriminate Hsucc.
          - intros r Hf. discriminate Hf.
          - intros _. split; [eauto | left; reflexivity]. }
        destruct (JS.truthy (JS.get response "success")
                  && JS.truthy (JS.get response "access_token")) eqn:Eacc;
          cbn [fst snd].
        -- apply andb_true_iff in Eacc. destruct Eacc as [Hsucc Htok].
           split; [|split].
           ++ intros r. split.
              ** intros Hr. injection Hr as <-. eauto.
              ** intros (st & Heq & _). injection Heq as _ <-. reflexivity.
           ++ intros r Hr. injection Hr as <-. apply setTokens_fields.
           ++ intros Hno. exfalso. exact (Hno response eq_refl).
        -- split; [|split].
           ++ intros r. split; [discriminate|].
              intros (st & Heq & _ & Hsucc & Htok). injection Heq as _ <-.
              rewrite Hsucc, Htok in Eacc. discriminate Eacc.
           ++ intros r Hf. discriminate Hf.
           ++ intros _. split; [eauto | left; reflexivity].
      * cbn [fst snd]. split; [|split].
        -- intros r. split; [discriminate|].
           intros (st & Heq & Hok & _). injection Heq as <- ->.
           pose proof (proj2 (Hret r) (ex_intro _ status (conj eq_refl Hok))) as Hbad.
           discriminate Hbad.
        -- intros r Hf. discriminate Hf.
        -- intros _. split; [eauto | left; reflexivity].
      * destruct (Hthrow ltac:(intros d; discriminate)) as (err & Hf).
        discriminate Hf.
Qed.

End Login_properties.

Section Batch_properties.

Import TokenManager API.
Context `{Platform}.

Lemma fetches_handleAuthenticationFailure (errorData : value) (e : env) :
  fetches (snd (handleAuthenticationFailure errorData e)) = fetches e.
Proof. apply (handleAuthenticationFailure_effect errorData e). Qed.

(** Every call of [request] issues its [fetch] first. *)
Lemma request_logs_a_fetch
      (endpoint : string) (o : options) (answers : list fetch_outcome) :
  forall e, (List.length (fetches e)
             < List.length (fetches (snd (request endpoint o answers e))))%nat.
Proof.
  induction answers as [|a rest IH]; intros e.
  - cbn [request snd]. rewrite log_fetch_length. lia.
  - pose proof (log_fetch_length (request_call endpoint o e) e) as H0.
    cbn [request]. cbv zeta.
    destruct a as [err | status body]; [cbn [snd]; lia|].
    destruct (status =? 401).
    + destruct (negb (Str.starts_with "/auth/" endpoint)
                && JS.truthy (getToken (log_fetch (request_call endpoint o e) e))
                && JS.truthy (getRefreshToken
                                (this (log_fetch (request_call endpoint o e) e)))).
      * rewrite forceRefresh_eq.
        match goal with
        | |- context [request endpoint o rest ?x] =>
            specialize (IH x);
            change (fetches x) with (fetches (log_fetch (request_call endpoint o e) e))
              in IH;
            destruct (request endpoint o rest x) as [[data | err |] e2]
        end; cbn [snd] in *; try lia.
        pose proof (fetches_handleAuthenticationFailure (VObj []) e2) as H2.
        destruct (handleAuthenticationFailure (VObj []) e2) as [x e3].
        cbn [snd] in *. rewrite H2. lia.
      * match goal with
        | |- context [handleAuthenticationFailure ?d ?x] =>
            pose proof (fetches_handleAuthenticationFailure d x) as H2;
            destruct (handleAuthenticationFailure d x) as [[err|] e1]
        end; cbn [snd] in *; [rewrite H2; lia|].
        destruct (JS.is_nullish _); cbn [snd]; rewrite H2; lia.
    + destruct (negb (ok status)).
      * destruct (JS.is_nullish _); [cbn [snd]; lia|].
        destruct (JS.is_primitive _ && _); cbn [snd]; lia.
      * destruct body; cbn [snd]; lia.
Qed.

(** A call of [request] that has ended took one answer per [fetch] it
    issued, in order, and no other: this is what [Client.answers_left]
    relies on. *)
Lemma request_takes_one_answer_per_fetch
      (endpoint : string) (o : options) (answers : list fetch_outcome) :
  forall e,
    fst (request endpoint o answers e) <> Pending ->
    let k := (List.length (fetches (snd (request endpoint o answers e)))
              - List.length (fetches e))%nat in
    (k <= List.length answers)%nat
    /\ forall others,
         request endpoint o (firstn k answers ++ others)%list e
         = request endpoint o answers e.
Proof.
  induction answers as [|a rest IH]; intros e Hend; cbv zeta.
  - exfalso. apply Hend. reflexivity.
  - pose proof (log_fetch_length (request_call endpoint o e) e) as H0.
    assert (Hone : forall res : outcome * env,
               request endpoint o (a :: rest) e = res ->
               fetches (snd res) = fetches (log_fetch (request_call endpoint o e) e) ->
               (forall others,
                   request endpoint o (a :: others) e = res) ->
               ((List.length (fetches (snd res)) - List.length (fetches e))%nat
                <= List.length (a :: rest))%nat
               /\ forall others,
                    request endpoint o
                      (firstn (List.length (fetches (snd res))
                               - List.length (fetches e)) (a :: rest) ++ others)%list e
                    = res).
    { intros res _ Hf Hsame. rewrite Hf, H0.
      replace (S (List.length (fetches e)) - List.length (fetches e))%nat
        with 1%nat by lia.
      cbn [List.length firstn app]. split; [lia | exact Hsame]. }
    revert Hend. cbn [request]. cbv zeta.
    destruct a as [err | status body].
    { intros _. apply (Hone _ eq_refl eq_refl). intros others. reflexivity. }
    destruct (status =? 401) eqn:E401.
    + destruct (negb (Str.starts_with "/auth/" endpoint)
                && JS.truthy (getToken (log_fetch (request_call endpoint o e) e))
                && JS.truthy (getRefreshToken
                                (this (log_fetch (request_call endpoint o e) e))))
        eqn:Eretry.
      * rewrite forceRefresh_eq.
        set (e1 := showNotification _ "error" (log_fetch (request_call endpoint o e) e)).
        assert (Hf1 : List.length (fetches e1) = S (List.length (fetches e)))
          by exact H0.
        specialize (IH e1). cbv zeta in IH.
        pose proof (request_logs_a_fetch endpoint o rest e1) as Hgrow.
        destruct (request endpoint o rest e1) as [[data | err |] e2] eqn:Ereq;
          cbn [fst snd] in *.
        -- intros _. destruct (IH ltac:(discriminate)) as [Hk Hothers].
           replace (List.length (fetches e2) - List.length (fetches e))%nat
             with (S (List.length (fetches e2) - List.length (fetches e1)))
             by lia.
           split; [cbn [List.length]; lia|].
           intros others. cbn [firstn app request]. cbv zeta.
           rewrite E401, Eretry, forceRefresh_eq. fold e1.
           rewrite Hothers. reflexivity.
        -- intros _. destruct (IH ltac:(discriminate)) as [Hk Hothers].
           pose proof (fetches_handleAuthenticationFailure (VObj []) e2) as H2.
           destruct (handleAuthenticationFailure (VObj []) e2) as [x e3] eqn:Eh.
           cbn [fst snd] in *. rewrite H2.
           replace (List.length (fetches e2) - List.length (fetches e))%nat
             with (S (List.length (fetches e2) - List.length (fetches e1)))
             by lia.
           split; [cbn [List.length]; lia|].
           intros others. cbn [firstn app request]. cbv zeta.
           rewrite E401, Eretry, forceRefresh_eq. fold e1.
           rewrite Hothers, Eh. reflexivity.
        -- intros Hend. exfalso. apply Hend. reflexivity.
      * intros _.
        match goal with
        | |- context [handleAuthenticationFailure ?d ?x] =>
            pose proof (fetches_handleAuthenticationFailure d x) as H2;
            destruct (handleAuthenticationFailure d x) as [[err|] e1] eqn:Eh
        end; cbn [snd] in H2.
        -- apply (Hone _ ltac:(cbn [request]; cbv zeta; rewrite E401, Eretry, Eh;
                                 reflexivity) H2).
           intros others. cbn [request]. cbv zeta.
           rewrite E401, Eretry, Eh. reflexivity.
        -- destruct (JS.is_nullish _) eqn:En;
             (apply (Hone _ ltac:(cbn [request]; cbv zeta;
                                  rewrite E401, Eretry, Eh, En; reflexivity) H2);
              intros others; cbn [request]; cbv zeta;
              rewrite E401, Eretry, Eh, En; reflexivity).
    + intros _.
      apply (Hone _ ltac:(cbn [request]; cbv zeta; rewrite E401; reflexivity)).
      * destruct (negb (ok status)).
        -- destruct (JS.is_nullish _); [reflexivity|].
           destruct (JS.is_primitive _ && _); reflexivity.
        -- destruct body; reflexivity.
      * intros others. cbn [request]. cbv zeta. rewrite E401. reflexivity.
Qed.

(** X21. [batch] never throws: it collects one entry per request, in
    order, a failure becoming an entry like a success; when the loop has
    ended there are as many entries as requests and at least as many
    fetches were issued; while a request is awaited there are fewer. *)
Theorem batch_collects_one_entry_per_request
        (requests : list (string * options)) :
  forall (answers : list fetch_outcome) (e : env),
    let entries := fst (fst (Client.batch requests answers e)) in
    let ended := snd (fst (Client.batch requests answers e)) in
    let e' := snd (Client.batch requests answers e) in
    (ended = true ->
     List.length entries = List.length requests
     /\ (List.length (fetches e) + List.length requests
         <= List.length (fetches e'))%nat)
    /\ (ended = false ->
        (List.length entries < List.length requests)%nat
        /\ (List.length (fetches e) + List.length entries
            < List.length (fetches e'))%nat).
Proof.
  induction requests as [|[endpoint o] more IH]; intros answers e; cbv zeta.
  - cbn [Client.batch fst snd List.length]. split; [intros _|discriminate].
    split; [reflexivity | lia].
  - cbn [Client.batch].
    pose proof (request_logs_a_fetch endpoint o answers e) as Hlog.
    destruct (request endpoint o answers e) as [[data | err |] e1]; cbn [snd] in Hlog.
    + specialize (IH (Client.answers_left answers e e1) e1). cbv zeta in IH.
      destruct (Client.batch more (Client.answers_left answers e e1) e1)
        as [[entries ended] e2].
      cbn [fst snd List.length] in *. destruct IH as [IH1 IH2].
      split; intros Hend.
      * destruct (IH1 Hend). split; lia.
      * destruct (IH2 Hend). split; lia.
    + specialize (IH (Client.answers_left answers e e1) e1). cbv zeta in IH.
      destruct (Client.batch more (Client.answers_left answers e e1) e1)
        as [[entries ended] e2].
      cbn [fst snd List.length] in *. destruct IH as [IH1 IH2].
      split; intros Hend.
      * destruct (IH1 Hend). split; lia.
      * destruct (IH2 Hend). split; lia.
    + cbn [fst snd List.length]. split; [discriminate|]. intros _. split; lia.
Qed.

End Batch_properties.

(** ** Expiry, refresh need and the refresh timer *)

Section Expiry_properties.

Import TokenManager API.
Context `{Platform}.



End Expiry_properties.

(** X22. The helpers of the auth module agree with the token manager:
    [isTokenExpired()] holds exactly when [getTimeUntilExpiry() <= 0], and
    (for a buffer that is not negative) [needsRefresh()] holds exactly when
    [getTimeUntilExpiry()] is at most the buffer; so an absent, undecodable
    or expired token always needs a refresh. *)
Theorem expiry_helpers_agree `{Platform} (now_ms : Z) (e : TokenManager.env) :
  0 <= TokenManager.refreshBuffer (TokenManager.this e) ->
  Client.isTokenExpired now_ms e
  = Num.le (Client.getTimeUntilExpiry now_ms e) (Some 0)
  /\ TokenManager.needsRefresh now_ms (TokenManager.this e)
     = Num.le (Num.mul (Client.getTimeUntilExpiry now_ms e) (Some 1000))
              (Some (TokenManager.refreshBuffer (TokenManager.this e)))
  /\ (Client.isTokenExpired now_ms e = true ->
      TokenManager.needsRefresh now_ms (TokenManager.this e) = true).
Proof.
  intros Hb.
  unfold Client.isTokenExpired, Client.getTimeUntilExpiry, TokenManager.needsRefresh.
  destruct (TokenManager.getTokenExpirationInfo now_ms (TokenManager.this e))
    as [info|] eqn:E.
  - unfold TokenManager.getTokenExpirationInfo in E.
    destruct (negb (JS.truthy _)); [discriminate|].
    destruct (negb (JS.truthy _) || negb (JS.truthy _)); [discriminate|].
    cbv zeta in E. injection E as <-.
    cbn [TokenManager.isExpired TokenManager.timeUntilExpiry].
    destruct (Num.sub _ (Some (now_ms / 1000))) as [u|]; cbn [Num.le Num.mul Num.lift2].
    + destruct (Z.leb_spec u 0) as [Hu | Hu].
      * repeat split. symmetry. apply Z.leb_le. lia.
      * repeat split. discriminate.
    + repeat split. discriminate.
  - cbn [Num.le Num.mul Num.lift2]. repeat split.
    symmetry. apply Z.leb_le. lia.
Qed.

Lemma expiry_helpers_agree_witness :
  0 <= TokenManager.refreshBuffer (TokenManager.this Fixtures.logged_in)
  /\ Client.isTokenExpired Fixtures.now_ms Fixtures.logged_in
     = Num.le (Client.getTimeUntilExpiry Fixtures.now_ms Fixtures.logged_in) (Some 0)
  /\ TokenManager.needsRefresh Fixtures.now_ms (TokenManager.this Fixtures.logged_in)
     = Num.le (Num.mul (Client.getTimeUntilExpiry Fixtures.now_ms Fixtures.logged_in)
                       (Some 1000))
              (Some (TokenManager.refreshBuffer (TokenManager.this Fixtures.logged_in)))
  /\ (Client.isTokenExpired Fixtures.now_ms Fixtures.logged_in = true ->
      TokenManager.needsRefresh Fixtures.now_ms (TokenManager.this Fixtures.logged_in)
      = true).
Proof.
  assert (Hb : 0 <= TokenManager.refreshBuffer (TokenManager.this Fixtures.logged_in))
    by (vm_compute; discriminate).
  split; [exact Hb | apply (expiry_helpers_agree Fixtures.now_ms Fixtures.logged_in Hb)].
Defined.



(** ** Extending the session, and another tab *)

(** X24. On a page with a router, [extendSession] always announces
    success: [forceRefresh] resolves (with false) rather than rejecting, so
    the [then] callback runs.  The notifications are the failure of the
    refresh followed by the success of the extension; no request was sent,
    and the tokens and the timers are as before. *)
Theorem extendSession_announces_success `{Platform}
        (e : TokenManager.env) (r : string) :
  TokenManager.route e = Some r ->
  let res := Client.extendSession e in
  fst res = true
  /\ TokenManager.notifications (snd res)
     = (TokenManager.notifications e
        ++ [("Token refresh failed: this.refreshToken is not a function", "error");
            ("Session extended successfully", "success")])%list
  /\ TokenManager.fetches (snd res) = TokenManager.fetches e
  /\ TokenManager.this (snd res) = TokenManager.this e
  /\ TokenManager.timers (snd res) = TokenManager.timers e.
Proof.
  intros Hr. cbv zeta. unfold Client.extendSession.
  rewrite forceRefresh_eq.
  change (TokenManager.route (TokenManager.showNotification ?m ?t e))
    with (TokenManager.route e).
  rewrite Hr. cbn [fst snd].
  unfold TokenManager.showNotification, TokenManager.navigate.
  cbn [TokenManager.notifications TokenManager.fetches TokenManager.this
       TokenManager.timers].
  rewrite <- app_assoc. repeat split.
Qed.

Lemma extendSession_announces_success_witness :
  let res := Client.extendSession Fixtures.logged_in in
  fst res = true
  /\ TokenManager.notifications (snd res)
     = (TokenManager.notifications Fixtures.logged_in
        ++ [("Token refresh failed: this.refreshToken is not a function", "error");
            ("Session extended successfully", "success")])%list
  /\ TokenManager.fetches (snd res) = TokenManager.fetches Fixtures.logged_in
  /\ TokenManager.this (snd res) = TokenManager.this Fixtures.logged_in
  /\ TokenManager.timers (snd res) = TokenManager.timers Fixtures.logged_in.
Proof.
  apply (extendSession_announces_success Fixtures.logged_in "/customer").
  reflexivity.
Defined.

(** X25. When another tab changes [accessToken] or [refreshToken] in
    storage, this tab takes the two tokens from storage as they are now
    ([null] for a removed entry) and updates the UI, but neither cancels
    nor reschedules its refresh timer: the timer set for the previous
    token stays pending.  A change of any other key is ignored. *)
Theorem storage_event_reloads_tokens_but_keeps_the_timer `{Platform}
        (key : string) (store : gmap string string) (e : TokenManager.env) :
  let e' := fst (TokenManager.on_storage_event key store e) in
  TokenManager.timers e' = TokenManager.timers e
  /\ TokenManager.refreshTimer (TokenManager.this e')
     = TokenManager.refreshTimer (TokenManager.this e)
  /\ (key = "accessToken" \/ key = "refreshToken" ->
      TokenManager.accessToken (TokenManager.this e')
      = match store !! "accessToken" with Some s => VStr s | None => VNull end
      /\ TokenManager.refreshToken (TokenManager.this e')
         = match store !! "refreshToken" with Some s => VStr s | None => VNull end)
  /\ (key <> "accessToken" -> key <> "refreshToken" ->
      e' = TokenManager.with_this (TokenManager.set_storage store) e).
Proof.
  cbv zeta. unfold TokenManager.on_storage_event. cbv zeta.
  assert (Hload : forall tm,
             TokenManager.refreshTimer (fst (TokenManager.loadTokensFromStorage tm))
             = TokenManager.refreshTimer tm
             /\ TokenManager.accessToken (fst (TokenManager.loadTokensFromStorage tm))
                = TokenManager.storage_get "accessToken" tm
             /\ TokenManager.refreshToken (fst (TokenManager.loadTokensFromStorage tm))
                = TokenManager.storage_get "refreshToken" tm).
  { intros tm. unfold TokenManager.loadTokensFromStorage. cbv zeta.
    destruct (TokenManager.parse_stored "sessionData" _);
      [destruct (TokenManager.parse_stored "userData" _)|];
      cbn [fst]; auto. }
  destruct (String.eqb key "accessToken" || String.eqb key "refreshToken") eqn:Ek.
  - destruct (Hload (TokenManager.this
                       (TokenManager.with_this (TokenManager.set_storage store) e)))
      as (L1 & L2 & L3).
    destruct (TokenManager.loadTokensFromStorage _) as [tm [err|]];
      cbn [fst] in *;
      (split; [reflexivity|]; split; [exact L1|]; split;
       [intros _; split; [exact L2 | exact L3]|]);
      intros Ha Hr; apply orb_true_iff in Ek;
      destruct Ek as [Ek | Ek]; apply String.eqb_eq in Ek; contradiction.
  - cbn [fst]. split; [reflexivity|]. split; [reflexivity|]. split; [|reflexivity].
    intros [-> | ->]; discriminate Ek.
Qed.

(** ** When [validateJWT] accepts *)

Section Validity.

Import JWTUtils.
Context `{Platform}.

Lemma push_if_nil (c : bool) (x : string) (l : list string) :
  push_if c x l = [] <-> c = false /\ l = [].
Proof.
  unfold push_if. destruct c.
  - split; [|intros [Hf _]; discriminate Hf].
    intros Hnil. apply app_eq_nil in Hnil. destruct Hnil as [_ Hf]. discriminate Hf.
  - tauto.
Qed.

Lemma check_claims_valid (now : Z) (payload : value) :
  valid (check_claims now payload) = true
  <-> (forall claim, In claim requiredClaims -> JS.member_truthy payload claim = true)
      /\ JS.truthy (JS.get payload "exp") = true
      /\ Num.le (Coerce.to_number (JS.get payload "exp")) (Some now) = false
      /\ JS.truthy (JS.get payload "nbf")
         && Num.gt (Coerce.to_number (JS.get payload "nbf")) (Some now) = false.
Proof.
  unfold check_claims. cbv zeta. cbn [valid].
  rewrite length_zero_iff, push_if_nil.
  assert (Hmiss : negb (Nat.eqb (List.length (missingClaims payload)) 0) = false
                  <-> forall claim, In claim requiredClaims ->
                                    JS.member_truthy payload claim = true).
  { rewrite negb_false_iff, length_zero_iff. unfold missingClaims.
    rewrite filter_nil_iff. split; intros Hall claim Hin.
    - specialize (Hall claim Hin). apply negb_false_iff in Hall. exact Hall.
    - apply negb_false_iff. apply Hall. exact Hin. }
  destruct (JS.truthy (JS.get payload "exp")) eqn:Eexp.
  - rewrite !push_if_nil, Hmiss. intuition congruence.
  - rewrite !push_if_nil. split.
    + intros [_ [Hf _]]. discriminate Hf.
    + intros (_ & Hf & _). discriminate Hf.
Qed.

(** X26. [validateJWT] accepts exactly when it has no error to report, and
    that is exactly when the token parsed to a truthy payload in which all
    five required claims are truthy, [exp] is later than now, and [nbf],
    when present, is not later than now.  Warnings never make a token
    invalid. *)
Theorem validateJWT_valid_iff (now_ms : Z) (token : value) :
  let r := validateJWT now_ms token in
  let now := now_ms / 1000 in
  (valid r = true <-> errors r = [])
  /\ (valid r = true
      <-> JS.truthy (claims r) = true
          /\ (forall claim, In claim requiredClaims ->
                            JS.member_truthy (claims r) claim = true)
          /\ Num.le (Coerce.to_number (JS.get (claims r) "exp")) (Some now) = false
          /\ JS.truthy (JS.get (claims r) "nbf")
             && Num.gt (Coerce.to_number (JS.get (claims r) "nbf")) (Some now)
             = false).
Proof.
  cbv zeta. unfold validateJWT.
  destruct (JS.truthy token) eqn:Et; cbn [negb].
  2:{ cbn. split; split; try discriminate. intros [Hf _]. discriminate Hf. }
  destruct token as [| | | |s| | |];
    try (cbn; split; split; try discriminate; intros [Hf _]; discriminate Hf).
  destruct (negb (Nat.eqb (List.length (Str.split_on "."%char s)) 3)).
  { cbn. split; split; try discriminate. intros [Hf _]. discriminate Hf. }
  destruct (JS.truthy (parseJWT (VStr s))) eqn:Ep; cbn [negb].
  2:{ cbn. split; split; try discriminate. intros [Hf _]. discriminate Hf. }
  split.
  - unfold check_claims. cbv zeta. cbn [valid errors]. apply length_zero_iff.
  - rewrite check_claims_valid, claims_of_check_claims, Ep.
    split.
    + intros (A & _ & B & C). auto.
    + intros (_ & A & B & C). repeat split; auto.
      specialize (A "exp"). cbn [requiredClaims In] in A.
      assert (Hm : JS.member_truthy (parseJWT (VStr s)) "exp" = true)
        by (apply A; do 4 right; left; reflexivity).
      destruct (parseJWT (VStr s)); exact Hm.
Qed.

End Validity.

(** ** A refresh that succeeds *)

Section Refresh_success.

Import TokenManager.
Context `{Platform}.

Lemma truthy_member_not_nullish (data : value) (key : string) :
  JS.truthy (JS.get data key) = true -> JS.is_nullish data = false.
Proof. destruct data; cbn; congruence. Qed.

(** X27. When the refresh endpoint answers 2xx with a truthy [success] and
    [access_token], [performTokenRefresh] returns the success object and
    the token manager holds the response's [access_token] and
    [refresh_token], the same user, and the session stamped with
    [refreshedAt]; the access token is saved.  The refresh token is taken
    from the response also when it is absent there: it is then lost in
    memory while storage still holds the previous one. *)
Theorem successful_refresh_takes_the_tokens_of_the_response
        (now_ms status : Z) (data : value) (e : env) :
  ok status = true ->
  JS.truthy (JS.get data "success") = true ->
  JS.truthy (JS.get data "access_token") = true ->
  sessionData (this e) = VNull \/ (exists props, sessionData (this e) = VObj props) ->
  let res := performTokenRefresh_finish now_ms (Response status (Some data)) e in
  let tm := this (snd res) in
  fst res = inr (VObj [("success", VBool true);
                       ("token", JS.get data "access_token");
                       ("user", user (this e))])
  /\ accessToken tm = JS.get data "access_token"
  /\ refreshToken tm = JS.get data "refresh_token"
  /\ user tm = user (this e)
  /\ sessionData tm
     = match sessionData (this e) with
       | VObj props =>
           VObj (JS.assign "refreshedAt" (VStr (Date_toISOString now_ms)) props)
       | other => other
       end
  /\ storage tm !! "accessToken"
     = Some (Coerce.to_string (JS.get data "access_token"))
  /\ (JS.truthy (JS.get data "refresh_token") = false ->
      storage tm !! "refreshToken" = storage (this e) !! "refreshToken").
Proof.
  intros Hok Hsucc Htok Hsess. cbv zeta.
  unfold performTokenRefresh_finish, refresh_try.
  rewrite Hok, (truthy_member_not_nullish data "success" Hsucc), Hsucc, Htok.
  cbn [negb andb].
  set (stamped := match sessionData (this e) with
                  | VObj props =>
                      VObj (JS.assign "refreshedAt" (VStr (Date_toISOString now_ms)) props)
                  | other => other
                  end).
  assert (Hstamp : stamp_session now_ms (sessionData (this e)) = inr stamped).
  { subst stamped. destruct Hsess as [-> | (props & ->)]; reflexivity. }
  rewrite Hstamp. cbv zeta. cbn [fst snd].
  change (this (updateUI ?x)) with (this x).
  set (tm0 := set_tokens (JS.get data "access_token") (JS.get data "refresh_token")
                stamped (user (this e)) (this e)).
  destruct (scheduleRefreshCheck_this now_ms
              (with_this saveToStorage
                 (with_this (set_tokens (JS.get data "access_token")
                               (JS.get data "refresh_token") stamped (user (this e))) e)))
    as [h ->].
  rewrite !with_this_this. fold tm0.
  destruct (saveToStorage_tokens tm0) as (S1 & S2 & S3 & S4).
  destruct (saveToStorage_entries tm0) as (T1 & T2 & _).
  cbn [set_refreshTimer accessToken refreshToken sessionData user storage].
  rewrite S1, S2, S3, S4, T1, T2.
  subst tm0. cbn [set_tokens accessToken refreshToken sessionData user storage].
  rewrite Htok.
  repeat split. intros ->. reflexivity.
Qed.

End Refresh_success.

Lemma successful_refresh_takes_the_tokens_of_the_response_witness :
  let data := VObj [("success", VBool true); ("access_token", Fixtures.token_soon)] in
  let res := TokenManager.performTokenRefresh_finish Fixtures.now_ms
               (Response 200 (Some data)) Fixtures.logged_in in
  let tm := TokenManager.this (snd res) in
  fst res = inr (VObj [("success", VBool true);
                       ("token", JS.get data "access_token");
                       ("user", TokenManager.user (TokenManager.this Fixtures.logged_in))])
  /\ TokenManager.accessToken tm = JS.get data "access_token"
  /\ TokenManager.refreshToken tm = JS.get data "refresh_token"
  /\ TokenManager.user tm = TokenManager.user (TokenManager.this Fixtures.logged_in)
  /\ TokenManager.sessionData tm
     = match TokenManager.sessionData (TokenManager.this Fixtures.logged_in) with
       | VObj props =>
           VObj (JS.assign "refreshedAt" (VStr (Date_toISOString Fixtures.now_ms)) props)
       | other => other
       end
  /\ TokenManager.storage tm !! "accessToken"
     = Some (Coerce.to_string (JS.get data "access_token"))
  /\ (JS.truthy (JS.get data "refresh_token") = false ->
      TokenManager.storage tm !! "refreshToken"
      = TokenManager.storage (TokenManager.this Fixtures.logged_in) !! "refreshToken").
Proof.
  apply (successful_refresh_takes_the_tokens_of_the_response Fixtures.now_ms 200
           (VObj [("success", VBool true); ("access_token", Fixtures.token_soon)])
           Fixtures.logged_in).
  - reflexivity.
  - reflexivity.
  - reflexivity.
  - right. eexists. reflexivity.
Defined.

(** ** Logging out everywhere *)

(** X28. [logoutAll] throws before any request when there is no access
    token; it clears the session only when its request returns; when the
    request fails on an answer other than 401 (a network failure, a 500),
    the session stays as it was, unlike [logout]. *)
Theorem logoutAll_clears_only_on_success `{Platform}
        (answers : list fetch_outcome) (e : TokenManager.env) :
  let res := Client.logoutAll answers e in
  (JS.truthy (TokenManager.accessToken (TokenManager.this e)) = false ->
   res = (API.Thrown (Error "No access token available"), e))
  /\ (forall response,
         fst res = API.Returned response ->
         TokenManager.accessToken (TokenManager.this (snd res)) = VNull
         /\ TokenManager.refreshToken (TokenManager.this (snd res)) = VNull
         /\ TokenManager.isAuthenticated (TokenManager.this (snd res)) = false)
  /\ (forall a rest err,
         answers = a :: rest -> (forall body, a <> Response 401 body) ->
         fst res = API.Thrown err ->
         TokenManager.this (snd res) = TokenManager.this e).
Proof.
  cbv zeta. unfold Client.logoutAll. cbv zeta. unfold API.getToken,
    TokenManager.getAccessToken.
  destruct (JS.truthy (TokenManager.accessToken (TokenManager.this e))) eqn:Ea;
    cbn [negb].
  2:{ cbn [fst snd]. split; [reflexivity|]. split.
      - intros response Hf. discriminate Hf.
      - reflexivity. }
  split; [discriminate|].
  set (op := API.mkOptions (Some "POST") _).
  split.
  - intros response.
    destruct (API.request "/auth/logout-all" op answers e) as [[data | err |] e1];
      cbn [fst snd]; try discriminate.
    intros _. pose proof (clearTokens_clears e1) as Hc. cbv zeta in Hc.
    destruct Hc as (C1 & C2 & _ & _ & _ & _ & _ & _ & _ & C10). auto.
  - intros a rest err -> Ha.
    destruct (request_plain_answer "/auth/logout-all" op a rest e Ha)
      as (Hs & Hret & _).
    cbv zeta in Hs, Hret.
    destruct (API.request "/auth/logout-all" op (a :: rest) e) as [[data | err' |] e1];
      cbn [fst snd] in *; try discriminate.
    intros _. rewrite Hs. reflexivity.
Qed.

(** ** A generated verifier goes through the whole flow *)

(** X29. The fallback generator too yields a usable verifier: for a length
    from 43 to 128 and picks [Math.floor(Math.random() * 66)] below 66, the
    verifier has that length, passes [validateCodeVerifier], and the
    challenge derived from it with S256 or plain is accepted by
    [verifyCodeChallenge]. *)
Theorem fallback_verifier_is_valid_and_verifies
        (length : Z) (picks : nat -> Z) (method : string) :
  43 <= length <= 128 ->
  (forall i, 0 <= picks i < 66) ->
  method = "S256" \/ method = "plain" ->
  exists verifier challenge,
    PKCEHelper.generateCodeVerifier length (PKCEHelper.MathRandom picks) = Ok verifier
    /\ Str.length verifier = length
    /\ PKCEHelper.valid (PKCEHelper.validateCodeVerifier verifier) = true
    /\ PKCEHelper.generateCodeChallenge verifier method = Ok challenge
    /\ PKCEHelper.verifyCodeChallenge verifier challenge method = true.
Proof.
  intros Hlen Hpicks Hm.
  destruct (verifier_loop_spec picks Hpicks (Z.to_nat length) 0%nat EmptyString)
    as (l & Hl & Hloop & _ & Hall).
  assert (Hgen : PKCEHelper.generateCodeVerifier length (PKCEHelper.MathRandom picks)
                 = Ok (Str.of_chars l)).
  { unfold PKCEHelper.generateCodeVerifier, PKCEHelper.generateCodeVerifierFallback.
    destruct (length <? 43) eqn:E1; [lia|].
    destruct (length >? 128) eqn:E2; [lia|]. cbn [orb].
    rewrite Hloop. reflexivity. }
  assert (HL : Str.length (Str.of_chars l) = length).
  { unfold Str.length. rewrite length_of_chars, Hl. lia. }
  assert (Hvalid : PKCEHelper.valid (PKCEHelper.validateCodeVerifier (Str.of_chars l))
                   = true).
  { apply unreserved_shape_valid; [lia|]. rewrite chars_of_chars. exact Hall. }
  pose proof (valid_verifier_nonempty _ Hvalid) as Hne.
  exists (Str.of_chars l).
  destruct Hm as [-> | ->].
  - exists (PKCEHelper.generateCodeChallengeS256 (Str.of_chars l)).
    assert (Hg : PKCEHelper.generateCodeChallenge (Str.of_chars l) "S256"
                 = Ok (PKCEHelper.generateCodeChallengeS256 (Str.of_chars l))).
    { unfold PKCEHelper.generateCodeChallenge. rewrite Hne. reflexivity. }
    repeat split; try assumption.
    unfold PKCEHelper.verifyCodeChallenge.
    rewrite Hg, Hne, S256_challenge_nonempty. cbn [orb]. apply eqb_refl_true.
  - exists (Str.of_chars l).
    assert (Hg : PKCEHelper.generateCodeChallenge (Str.of_chars l) "plain"
                 = Ok (Str.of_chars l)).
    { unfold PKCEHelper.generateCodeChallenge, PKCEHelper.generateCodeChallengePlain.
      rewrite Hne. reflexivity. }
    repeat split; try assumption.
    unfold PKCEHelper.verifyCodeChallenge.
    rewrite Hg, Hne. cbn [orb]. apply eqb_refl_true.
Qed.

Lemma fallback_verifier_is_valid_and_verifies_witness :
  exists verifier challenge,
    PKCEHelper.generateCodeVerifier 43 (PKCEHelper.MathRandom (fun i => Z.of_nat i mod 66))
    = Ok verifier
    /\ Str.length verifier = 43
    /\ PKCEHelper.valid (PKCEHelper.validateCodeVerifier verifier) = true
    /\ PKCEHelper.generateCodeChallenge verifier "S256" = Ok challenge
    /\ PKCEHelper.verifyCodeChallenge verifier challenge "S256" = true.
Proof.
  apply (fallback_verifier_is_valid_and_verifies 43 (fun i => Z.of_nat i mod 66) "S256").
  - lia.
  - intros i. apply Z.mod_pos_bound. lia.
  - left. reflexivity.
Defined.

(** ** Scopes of the logged-in user *)

Section Scope_helpers.

Import TokenManager API.
Context `{Platform}.

Lemma prefix_iff (needle haystack : string) :
  String.prefix needle haystack = true <-> exists post, haystack = needle +:+ post.
Proof.
  revert haystack. induction needle as [|a needle IH]; intros haystack.
  - split; [intros _; exists haystack; reflexivity|].
    intros _. destruct haystack; reflexivity.
  - destruct haystack as [|b haystack]; cbn [String.prefix].
    + split; [discriminate | intros (post & Hf); discriminate Hf].
    + destruct (ascii_dec a b) as [-> | Hne].
      * rewrite IH. split.
        -- intros (post & ->). exists post. reflexivity.
        -- intros (post & Hp).
           change (String b needle +:+ post) with (String b (needle +:+ post)) in Hp.
           injection Hp as ->. exists post. reflexivity.
      * split; [discriminate|]. intros (post & Hp).
        change (String a needle +:+ post) with (String a (needle +:+ post)) in Hp.
        injection Hp as Hab _. congruence.
Qed.

(** [text.includes(scope)] looks for a substring. *)
Lemma includes_iff (needle haystack : string) :
  includes needle haystack = true
  <-> exists pre post, haystack = pre +:+ needle +:+ post.
Proof.
  induction haystack as [|b haystack IH]; cbn [includes].
  - rewrite orb_false_r, prefix_iff. split.
    + intros (post & ->). exists EmptyString, post. reflexivity.
    + intros (pre & post & Hp). destruct pre as [|c pre]; [|discriminate Hp].
      exists post. exact Hp.
  - rewrite orb_true_iff, prefix_iff, IH. split.
    + intros [(post & ->) | (pre & post & ->)].
      * exists EmptyString, post. reflexivity.
      * exists (String b pre), post. reflexivity.
    + intros (pre & post & Hp). destruct pre as [|c pre].
      * left. exists post. exact Hp.
      * right. change (String c pre +:+ needle +:+ post)
          with (String c (pre +:+ needle +:+ post)) in Hp.
        injection Hp as _ ->. eauto.
Qed.

Lemma includes_scope_iff (items : list value) (scope : string) :
  JWTStatus.includes_scope items scope = true <-> In (VStr scope) items.
Proof.
  unfold JWTStatus.includes_scope. rewrite existsb_exists. split.
  - intros (item & Hin & Heq). apply strict_eq_string_iff in Heq. congruence.
  - intros Hin. exists (VStr scope). split; [exact Hin|].
    apply strict_eq_string_iff. reflexivity.
Qed.

(** X30. [hasScopes] holds for the empty requirement on every page, also
    with nobody logged in.  When the user's [scopes] is an array it holds
    exactly when every required scope is an element; when the user has no
    (truthy) [scopes], only for the empty requirement; and when [scopes] is
    a string, exactly when every required scope occurs in it as a
    substring. *)
Theorem hasScopes_verdict (requiredScopes : list string) (e : env) :
  Client.hasScopes [] e = inr true
  /\ (forall items,
         Client.getUserScopes e = VArr items ->
         (Client.hasScopes requiredScopes e = inr true
          <-> forall scope, In scope requiredScopes -> In (VStr scope) items))
  /\ (JS.truthy (getUser (this e)) = false
      \/ JS.truthy (JS.get (getUser (this e)) "scopes") = false ->
      (Client.hasScopes requiredScopes e = inr true <-> requiredScopes = []))
  /\ (forall text,
         Client.getUserScopes e = VStr text ->
         (Client.hasScopes requiredScopes e = inr true
          <-> forall scope, In scope requiredScopes ->
                            exists pre post, text = pre +:+ scope +:+ post)).
Proof.
  split; [reflexivity|].
  assert (Harr : forall items,
             Client.getUserScopes e = VArr items ->
             (Client.hasScopes requiredScopes e = inr true
              <-> forall scope, In scope requiredScopes -> In (VStr scope) items)).
  { intros items Hs. unfold Client.hasScopes. rewrite Hs.
    destruct requiredScopes as [|x l].
    - split; [intros _ scope [] | reflexivity].
    - split.
      + intros Hall.
        assert (Hall' : forallb (JWTStatus.includes_scope items) (x :: l) = true)
          by congruence.
        intros scope Hin. apply includes_scope_iff.
        exact (proj1 (List.forallb_forall _ _) Hall' scope Hin).
      + intros Hall. f_equal. apply List.forallb_forall. intros scope Hin.
        apply includes_scope_iff. apply Hall. exact Hin. }
  split; [exact Harr|]. split.
  - intros Hno.
    assert (Hs : Client.getUserScopes e = VArr []).
    { unfold Client.getUserScopes. cbv zeta.
      destruct Hno as [-> | ->]; rewrite ?andb_false_r; reflexivity. }
    rewrite (Harr [] Hs). split.
    + intros Hall. destruct requiredScopes as [|x l]; [reflexivity|].
      destruct (Hall x (or_introl eq_refl)).
    + intros -> scope [].
  - intros text Hs. unfold Client.hasScopes. rewrite Hs.
    destruct requiredScopes as [|x l].
    + split; [intros _ scope [] | reflexivity].
    + split.
      * intros Hall.
        assert (Hall' : forallb (fun scope => includes scope text) (x :: l) = true)
          by congruence.
        intros scope Hin. apply includes_iff.
        exact (proj1 (List.forallb_forall _ _) Hall' scope Hin).
      * intros Hall. f_equal. apply List.forallb_forall. intros scope Hin.
        apply includes_iff. apply Hall. exact Hin.
Qed.

End Scope_helpers.

(** ** Dates and delays out of range *)

Section Range_examples.

Import TokenManager.

(** One second past the last date, [expDate] is an Invalid Date and the
    delay given to [setTimeout] is NaN. *)
Example token_beyond_the_range_of_dates :
  JS.get (JWTUtils.parseJWT (VStr Samples.jwt_beyond_dates)) "exp"
  = VNum 8640000000001
  /\ JS.get (JWTUtils.parseJWT (VStr Samples.jwt_beyond_dates)) "expDate" = VDate None
  /\ timers (setTokens Fixtures.now_ms (VStr Samples.jwt_beyond_dates) (VStr "R1")
               Fixtures.session Fixtures.customer Fixtures.fresh)
     = [(1%nat, None)].
Proof. vm_compute. repeat split. Qed.

(** For a token of thirty days the delay is more than [setTimeout] keeps,
    and at the moment of scheduling no refresh is needed. *)
Example token_beyond_the_range_of_delays :
  let e := setTokens Fixtures.now_ms (VStr Samples.jwt_thirty_days) (VStr "R1")
             Fixtures.session Fixtures.customer Fixtures.fresh in
  timers e = [(1%nat, Some 2591700000)]
  /\ max_delay < 2591700000
  /\ needsRefresh Fixtures.now_ms (this e) = false.
Proof. vm_compute. repeat split. Qed.

End Range_examples.

(** ** Refresh attempts that fail *)

Section Failed_refresh.

Import TokenManager API.
Context `{Platform}.

Lemma refreshToken_outcome
      (now_ms : Z) (a : fetch_outcome) (rest : list fetch_outcome) (e : env) :
  (forall body, a <> Response 401 body) ->
  let called := Client.refreshToken now_ms (a :: rest) e in
  (forall response,
      fst called = Returned response
      <-> JS.truthy (refreshToken (this e)) = true
          /\ exists status,
               a = Response status (Some response) /\ ok status = true
               /\ JS.truthy (JS.get response "success") = true
               /\ JS.truthy (JS.get response "access_token") = true)
  /\ ((forall response, fst called <> Returned response) ->
      (exists err, fst called = Thrown err) /\ this (snd called) = this e).
Proof.
  intros Ha. cbv zeta. unfold Client.refreshToken. cbv zeta.
  unfold getRefreshToken.
  destruct (JS.truthy (refreshToken (this e))) eqn:Er; cbn [negb].
  2:{ cbn [fst snd]. split.
      - intros response. split; [discriminate | intros [Hf _]; discriminate Hf].
      - intros _. split; [eauto | reflexivity]. }
  set (body := JSON_stringify _).
  set (op := mkOptions (Some "POST") (Some body)).
  destruct (request_plain_answer "/auth/refresh" op a rest e Ha)
    as (Hs & Hret & Hthrow).
  cbv zeta in Hs, Hret, Hthrow.
  destruct (request "/auth/refresh" op (a :: rest) e) as [out e1].
  cbn [fst snd] in *. subst e1.
  destruct out as [response | err |].
  - destruct (proj1 (Hret response) eq_refl) as (status & -> & Hok).
    destruct (JS.is_nullish response) eqn:En.
    { cbn [fst snd]. split.
      - intros r. split; [discriminate|].
        intros (_ & st & Heq & _ & Hsucc & _). injection Heq as _ <-.
        destruct response; try discriminate En; discriminate Hsucc.
      - intros _. split; [eauto | reflexivity]. }
    destruct (JS.truthy (JS.get response "success")
              && JS.truthy (JS.get response "access_token")) eqn:Eacc;
      cbn [fst snd].
    + apply andb_true_iff in Eacc. destruct Eacc as [Hsucc Htok]. split.
      * intros r. split.
        -- intros Hr. injection Hr as <-. split; [reflexivity | eauto].
        -- intros (_ & st & Heq & _). injection Heq as _ <-. reflexivity.
      * intros Hno. exfalso. exact (Hno response eq_refl).
    + split.
      * intros r. split; [discriminate|].
        intros (_ & st & Heq & _ & Hsucc & Htok). injection Heq as _ <-.
        rewrite Hsucc, Htok in Eacc. discriminate Eacc.
      * intros _. split; [eauto | reflexivity].
  - cbn [fst snd]. split.
    + intros r. split; [discriminate|].
      intros (_ & st & -> & Hok & _).
      pose proof (proj2 (Hret r) (ex_intro _ st (conj eq_refl Hok))) as Hbad.
      discriminate Hbad.
    + intros _. split; [eauto | reflexivity].
  - destruct (Hthrow ltac:(intros d; discriminate)) as (err & Hf).
    discriminate Hf.
Qed.

(** C3, on the code: a refresh attempt that fails leaves the tokens in
    place on the paths that attempt one.  [forceRefresh] fails in every
    state before any request (it resolves with false) and changes nothing
    of the store; [refreshToken] of the API client succeeds exactly on a
    2xx answer with a truthy [success] and [access_token], and when it
    fails on an answer other than 401 (the endpoint unreachable, a 500, a
    body without [success]) it throws with the store as it was.  Only
    [performTokenRefresh], which no caller reaches, clears the store on
    each of its failures (see
    [performTokenRefresh_fails_exactly_and_clears]). *)
Theorem failed_refresh_attempts_keep_the_tokens
        (now_ms : Z) (a : fetch_outcome) (rest : list fetch_outcome) (e : env) :
  (forall body, a <> Response 401 body) ->
  let forced := forceRefresh e in
  let called := Client.refreshToken now_ms (a :: rest) e in
  (fst forced = Done false
   /\ this (snd forced) = this e
   /\ fetches (snd forced) = fetches e
   /\ timers (snd forced) = timers e)
  /\ (forall response,
         fst called = Returned response
         <-> JS.truthy (refreshToken (this e)) = true
             /\ exists status,
                  a = Response status (Some response) /\ ok status = true
                  /\ JS.truthy (JS.get response "success") = true
                  /\ JS.truthy (JS.get response "access_token") = true)
  /\ ((forall response, fst called <> Returned response) ->
      (exists err, fst called = Thrown err) /\ this (snd called) = this e).
Proof.
  intros Ha. cbv zeta. split.
  - rewrite forceRefresh_eq. repeat split.
  - exact (refreshToken_outcome now_ms a rest e Ha).
Qed.

End Failed_refresh.

Section Failed_refresh_examples.

Import TokenManager API Fixtures.

Lemma failed_refresh_attempts_keep_the_tokens_witness :
  let a := NetworkFailure (TypeError "Failed to fetch") in
  let forced := forceRefresh logged_in in
  let called := Client.refreshToken now_ms [a] logged_in in
  (fst forced = Done false
   /\ this (snd forced) = this logged_in
   /\ fetches (snd forced) = fetches logged_in
   /\ timers (snd forced) = timers logged_in)
  /\ (forall response,
         fst called = Returned response
         <-> JS.truthy (refreshToken (this logged_in)) = true
             /\ exists status,
                  a = Response status (Some response) /\ ok status = true
                  /\ JS.truthy (JS.get response "success") = true
                  /\ JS.truthy (JS.get response "access_token") = true)
  /\ ((forall response, fst called <> Returned response) ->
      (exists err, fst called = Thrown err) /\ this (snd called) = this logged_in).
Proof.
  apply (failed_refresh_attempts_keep_the_tokens now_ms
           (NetworkFailure (TypeError "Failed to fetch")) [] logged_in).
  intros body. discriminate.
Defined.

(** After login: [forceRefresh] fails and the session is still there; so it
    is after [refreshToken] of the API client against an unreachable
    endpoint, a 500, and a 200 without [success]; [performTokenRefresh] on
    the same answers clears it. *)
Example failed_refresh_attempts_after_login :
  fst (forceRefresh logged_in) = Done false
  /\ accessToken (this (snd (forceRefresh logged_in))) = token_valid
  /\ storage (this (snd (forceRefresh logged_in))) !! "refreshToken" = Some "R0"
  /\ Client.refreshToken now_ms [NetworkFailure (TypeError "Failed to fetch")] logged_in
     = (Thrown (Error "Network error: Unable to connect to server"),
        log_fetch (request_call "/auth/refresh"
                     (mkOptions (Some "POST")
                        (Some (JSON_stringify
                                 (VObj [("refresh_token", VStr "R0");
                                        ("clientId", VStr "web-client")]))))
                     logged_in) logged_in)
  /\ (let res := Client.refreshToken now_ms [Response 500 None] logged_in in
      fst res = Thrown (Error "HTTP error! status: 500")
      /\ this (snd res) = this logged_in)
  /\ (let res := Client.refreshToken now_ms
                   [Response 200 (Some (VObj [("success", VBool false)]))] logged_in in
      fst res = Thrown (Error "Token refresh failed")
      /\ isAuthenticated (this (snd res)) = true
      /\ refreshToken (this (snd res)) = VStr "R0")
  /\ this (snd (performTokenRefresh_finish now_ms
                  (Response 200 (Some (VObj [("success", VBool false)]))) logged_in))
     = this (clearTokens logged_in).
Proof. vm_compute. repeat split. Qed.

End Failed_refresh_examples.
